(** * ALLOUT overlay: the action-dispatch pipeline of [src/main.ts]

    A shallow embedding of the Electron main process: the clipboard poller,
    the completion call ([analyzeContent]), the action handlers
    ([executeAction]), the [ask-ai] dispatcher, the [confirm-replacement]
    handler and the fullscreen presence monitor ([checkFullscreen]).

    JavaScript strings are sequences of UTF-16 code units, values parsed
    from JSON are an inductive type, and every call that leaves the process
    (IPC sends, clipboard writes, shell commands, HTTP, simulated
    keystrokes, window visibility) is recorded in a trace of effects; what
    the outside world answers is read from a [Host] record. *)

From Stdlib Require Import Ascii String DecimalString.
From Stdlib Require Import List NArith ZArith Bool Lia.
Import ListNotations.

#[local] Set Warnings "-register-all".
Local Open Scope N_scope.

(** ** JavaScript strings and values *)

Module JS.

(** A string is its list of UTF-16 code units. *)
Definition jsstring := list N.

(** An ASCII literal as a JavaScript string. *)
Definition js (s : string) : jsstring :=
  map N_of_ascii (list_ascii_of_string s).

(** The same, with every backtick standing for a double quote (code unit
    34), so that JSON texts and the prompts can be written down. *)
Definition jq (s : string) : jsstring :=
  map (fun c => if c =? 96 then 34 else c) (js s).

Definition jsstring_eq_dec (a b : jsstring) : {a = b} + {a <> b} :=
  list_eq_dec N.eq_dec a b.

Definition str_eqb (a b : jsstring) : bool :=
  if jsstring_eq_dec a b then true else false.

(** [WhiteSpace] and [LineTerminator] of ECMAScript: what [trim] strips. *)
Definition is_white_space (c : N) : bool :=
  ((9 <=? c) && (c <=? 13)) || (c =? 32) || (c =? 160) || (c =? 5760)
  || ((8192 <=? c) && (c <=? 8202)) || (c =? 8232) || (c =? 8233)
  || (c =? 8239) || (c =? 8287) || (c =? 12288) || (c =? 65279).

Fixpoint trimStart (s : jsstring) : jsstring :=
  match s with
  | c :: rest => if is_white_space c then trimStart rest else s
  | [] => []
  end.

Definition trimEnd (s : jsstring) : jsstring := rev (trimStart (rev s)).

(** [String.prototype.trim] *)
Definition trim (s : jsstring) : jsstring := trimEnd (trimStart s).

(** Truthiness of a string: it is not empty. *)
Definition nonempty (s : jsstring) : bool :=
  match s with [] => false | _ :: _ => true end.

(** [String.prototype.startsWith] *)
Fixpoint startsWith (s p : jsstring) : bool :=
  match p, s with
  | [], _ => true
  | _ :: _, [] => false
  | a :: p', b :: s' => (a =? b) && startsWith s' p'
  end.

(** [s.substring(0, n)] *)
Definition substring0 (n : nat) (s : jsstring) : jsstring := firstn n s.

(** [String.prototype.split] on a one-unit separator. *)
Fixpoint split_on (sep : N) (s : jsstring) : list jsstring :=
  match s with
  | [] => [[]]
  | c :: rest =>
      if c =? sep then [] :: split_on sep rest
      else match split_on sep rest with
           | line :: lines => (c :: line) :: lines
           | [] => [[c]]
           end
  end.

(** *** Numbers

    A number read from a JSON text is kept as the decimal it was written
    as: it denotes the double nearest to [(-1)^neg * mantissa * 10^exp10]. *)
Record number := { neg : bool; mantissa : N; exp10 : Z }.

(** The decimal rounds to [+0] or [-0]: it is zero, or at most half of the
    least subnormal double, [2^-1075] (the tie goes to the even [0]). *)
Definition number_is_zero (n : number) : bool :=
  (mantissa n =? 0)
  || ((exp10 n <? 0)%Z
      && (Z.of_N (mantissa n) * 2 ^ 1075 <=? 10 ^ (- exp10 n))%Z).

Definition number_of_N (n : N) : number :=
  {| neg := false; mantissa := n; exp10 := 0%Z |}.

(** *** Values *)

Inductive value : Type :=
| Undefined
| Null
| Bool (b : bool)
| Number (n : number)
| Str (s : jsstring)
| Arr (elements : list value)
| Obj (properties : list (jsstring * value)).

(** [ToBoolean] *)
Definition truthy (v : value) : bool :=
  match v with
  | Undefined | Null => false
  | Bool b => b
  | Number n => negb (number_is_zero n)
  | Str s => nonempty s
  | Arr _ | Obj _ => true
  end.

(** [a || b] *)
Definition or_else (a b : value) : value := if truthy a then a else b.

(** Own property of an object literal; of two equal keys in a JSON text
    the later one is the property's value. *)
Fixpoint own_property (k : jsstring) (props : list (jsstring * value))
  : option value :=
  match props with
  | [] => None
  | (k', v) :: rest =>
      match own_property k rest with
      | Some later => Some later
      | None => if str_eqb k k' then Some v else None
      end
  end.

(** [v === 'literal'] *)
Definition is_str (v : value) (s : jsstring) : bool :=
  match v with Str s' => str_eqb s' s | _ => false end.

(** [list.includes(v)] for a list of string literals. *)
Definition includes (l : list jsstring) (v : value) : bool :=
  existsb (is_str v) l.

End JS.
Export JS.

(** ** Errors, effects and the outside world *)

Module Runtime.

(** Errors the engine or a native API raises by itself. *)
Inductive Fault : Type :=
| ReadOfNullish (base : value) (property : jsstring)
    (* TypeError: Cannot read properties of undefined/null *)
| NotAFunction (callee : jsstring)     (* TypeError: x.f is not a function *)
| NotPrimitive                         (* TypeError: Cannot convert object to primitive value *)
| MalformedURI                         (* URIError *)
| NotAString (api : jsstring) (arg : value)
    (* a native API given something else than the string it needs *)
| RefusedString (api : jsstring) (arg : jsstring)
    (* a native API given a string it refuses: empty, or with a null byte *)
| JsonSyntax.                          (* SyntaxError of JSON.parse *)

(** What [throw] or a rejected promise carries. *)
Inductive Thrown : Type :=
| Raised (f : Fault)
| ErrorObj (message : jsstring)        (* new Error(message), or an Error of a host API *)
| AxiosError (message : jsstring) (response : option (N * value)).
    (* axios.isAxiosError holds; response = (status, data) when one came back *)

Inductive Key : Type := LeftControl | X | V.

Record HttpRequest := {
  req_url : jsstring;
  req_model : jsstring;
  req_messages : list (jsstring * jsstring);      (* role, content *)
  req_timeout : N;
  req_headers : list (jsstring * jsstring)
}.

(** Every call that leaves the main process, in the order it is made. *)
Inductive Effect : Type :=
| Send (channel : jsstring) (args : list value)   (* mainWindow.webContents.send *)
| ClipboardWrite (text : jsstring)                (* clipboard.writeText *)
| Exec (shell command : jsstring)                 (* child_process.exec *)
| OpenExternal (url : jsstring)                   (* shell.openExternal *)
| HttpPost (request : HttpRequest)                (* axios.post *)
| PressKey (keys : list Key)                      (* nutKeyboard.pressKey *)
| ReleaseKey (keys : list Key)                    (* nutKeyboard.releaseKey *)
| Hide | Show | Focus                             (* mainWindow.hide/show/focus *)
| ConsoleLog (label : jsstring) (arg : value)
| ConsoleError (label : jsstring) (err : Thrown).

Inductive ExecOutcome : Type :=
| Exited (stdout stderr : jsstring)               (* callback without error *)
| ExecFailed (message : jsstring).                (* callback with an error *)

Inductive HttpOutcome : Type :=
| HttpResponse (status : N) (data : value)
| NoResponse (message : jsstring).                (* timeout or transport failure *)

(** What the operating system, the network and the engine answer. *)
Record Host := {
  platform : jsstring;                                    (* process.platform *)
  exec_outcome : jsstring -> jsstring -> ExecOutcome;     (* shell, command *)
  openExternal_outcome : jsstring -> option jsstring;     (* Some m: rejects with Error(m) *)
  http_outcome : HttpRequest -> HttpOutcome;
  keyboard_outcome : Effect -> option jsstring;           (* Some m: rejects with Error(m) *)
  highlighted : option jsstring;
    (* the text a Ctrl+X that goes through cuts to the clipboard in the
       focused application; None: it cuts nothing *)
  (* engine-defined texts and coercions, not computed here *)
  fault_message : Fault -> jsstring;
  Number_toString : number -> jsstring;
  coerced_gt_zero : value -> option bool
    (* [v > 0] for a string, array or object [v]; None: the coercion throws *)
}.

(** *** Computations: a trace of effects, then a value or a thrown error *)

Definition M (A : Type) : Type := (list Effect * (A + Thrown))%type.

Definition ret {A} (a : A) : M A := ([], inl a).
Definition throw {A} (t : Thrown) : M A := ([], inr t).
Definition emit (e : Effect) : M unit := ([e], inl tt).

Definition bind {A B} (m : M A) (k : A -> M B) : M B :=
  match m with
  | (t1, inl a) => let (t2, r) := k a in (t1 ++ t2, r)
  | (t1, inr e) => (t1, inr e)
  end.

(** [try { m } catch (error) { handler error }] *)
Definition try_catch {A} (m : M A) (handler : Thrown -> M A) : M A :=
  match m with
  | (t1, inl a) => (t1, inl a)
  | (t1, inr e) => let (t2, r) := handler e in (t1 ++ t2, r)
  end.

Definition message_of (h : Host) (t : Thrown) : jsstring :=
  match t with
  | Raised f => fault_message h f
  | ErrorObj m => m
  | AxiosError m _ => m
  end.

End Runtime.
Export Runtime.

Declare Scope js_scope.
Delimit Scope js_scope with M.
Notation "x <- m ;; k" := (bind m (fun x => k))
  (at level 61, m at next level, right associativity) : js_scope.
Notation "m ;; k" := (bind m (fun _ => k))
  (at level 61, right associativity) : js_scope.
Local Open Scope js_scope.

(** ** Operations of the language and of the platform APIs *)

Module Ops.

(** [v.k], for the property names the program reads ([action], [params],
    [response], [command], ...): none of them is inherited from a
    prototype, so only an object literal's own property gives a value, and
    reading from [undefined] or [null] throws. *)
Definition get (v : value) (k : string) : M value :=
  match v with
  | Undefined | Null => throw (Raised (ReadOfNullish v (js k)))
  | Obj props =>
      match own_property (js k) props with
      | Some x => ret x
      | None => ret Undefined
      end
  | _ => ret Undefined
  end.

(** [ToString]: template literals, [encodeURIComponent] and [JSON.parse]
    apply it to their argument.  An array joins its elements with commas;
    an object literal prints as [[object Object]] unless an own [toString]
    property hides the inherited method, and then the conversion throws. *)
Fixpoint ToString_opt (numstr : number -> jsstring) (v : value)
  : option jsstring :=
  match v with
  | Undefined => Some (js "undefined")
  | Null => Some (js "null")
  | Bool true => Some (js "true")
  | Bool false => Some (js "false")
  | Number n => Some (numstr n)
  | Str s => Some s
  | Arr l =>
      (fix join (l : list value) (first : bool) : option jsstring :=
         match l with
         | [] => Some []
         | e :: rest =>
             match match e with
                   | Undefined | Null => Some []
                   | _ => ToString_opt numstr e
                   end, join rest false with
             | Some s, Some r => Some ((if first then [] else [44]) ++ s ++ r)
             | _, _ => None
             end
         end) l true
  | Obj props =>
      match own_property (js "toString") props with
      | Some _ => None
      | None => Some (js "[object Object]")
      end
  end.

Definition ToString (h : Host) (v : value) : M jsstring :=
  match ToString_opt (Number_toString h) v with
  | Some s => ret s
  | None => throw (Raised NotPrimitive)
  end.

(** *** [encodeURIComponent] *)

Definition is_uri_unreserved (c : N) : bool :=
  ((65 <=? c) && (c <=? 90)) || ((97 <=? c) && (c <=? 122))
  || ((48 <=? c) && (c <=? 57))
  || existsb (N.eqb c) [45; 95; 46; 33; 126; 42; 39; 40; 41].

Definition hex_digit (d : N) : N := if d <? 10 then 48 + d else 55 + d.

Definition percent (byte : N) : jsstring :=
  [37; hex_digit (byte / 16); hex_digit (byte mod 16)].

Definition utf8 (cp : N) : list N :=
  if cp <? 128 then [cp]
  else if cp <? 2048 then [192 + cp / 64; 128 + cp mod 64]
  else if cp <? 65536 then
    [224 + cp / 4096; 128 + (cp / 64) mod 64; 128 + cp mod 64]
  else [240 + cp / 262144; 128 + (cp / 4096) mod 64;
        128 + (cp / 64) mod 64; 128 + cp mod 64].

Fixpoint encodeURIComponent_opt (s : jsstring) : option jsstring :=
  match s with
  | [] => Some []
  | c :: rest =>
      if is_uri_unreserved c then option_map (cons c) (encodeURIComponent_opt rest)
      else if (56320 <=? c) && (c <=? 57343) then None
      else if (55296 <=? c) && (c <=? 56319) then
        match rest with
        | d :: rest' =>
            if (56320 <=? d) && (d <=? 57343) then
              option_map
                (app (concat (map percent
                   (utf8 ((c - 55296) * 1024 + (d - 56320) + 65536)))))
                (encodeURIComponent_opt rest')
            else None
        | [] => None
        end
      else option_map (app (concat (map percent (utf8 c))))
                      (encodeURIComponent_opt rest)
  end.

Definition encodeURIComponent (h : Host) (v : value) : M jsstring :=
  s <- ToString h v ;;
  match encodeURIComponent_opt s with
  | Some e => ret e
  | None => throw (Raised MalformedURI)
  end.

(** *** Platform APIs *)

(** [clipboard.writeText(v)]: the native binding takes a string only. *)
Definition clipboard_writeText (v : value) : M unit :=
  match v with
  | Str s => emit (ClipboardWrite s)
  | _ => throw (Raised (NotAString (js "clipboard.writeText") v))
  end.

(** [await shell.openExternal(url)] *)
Definition shell_openExternal (h : Host) (url : jsstring) : M unit :=
  emit (OpenExternal url) ;;
  match openExternal_outcome h url with
  | None => ret tt
  | Some m => throw (ErrorObj m)
  end.

(** [shell.openExternal(url)] without [await]: a rejection is not seen. *)
Definition shell_openExternal_detached (url : jsstring) : M unit :=
  emit (OpenExternal url).

(** The commands [exec] takes: not empty and without a null byte.  It
    throws on the others before anything is spawned. *)
Definition exec_accepts (command : jsstring) : bool :=
  nonempty command && forallb (fun c => negb (c =? 0)) command.

(** [await execAsync(command)]: [exec] under [/bin/bash]; the promise
    rejects with the callback's error, or with [exec]'s own complaint when
    the command is not a string or is one that [exec] refuses. *)
Definition execAsync (h : Host) (command : value) : M (jsstring * jsstring) :=
  match command with
  | Str c =>
      if exec_accepts c then
        emit (Exec (js "/bin/bash") c) ;;
        match exec_outcome h (js "/bin/bash") c with
        | Exited stdout stderr => ret (stdout, stderr)
        | ExecFailed m => throw (ErrorObj m)
        end
      else throw (Raised (RefusedString (js "child_process.exec") c))
  | _ => throw (Raised (NotAString (js "child_process.exec") command))
  end.

(** [await nutKeyboard.pressKey(...)] and [releaseKey(...)] *)
Definition keyboard (h : Host) (call : Effect) : M unit :=
  emit call ;;
  match keyboard_outcome h call with
  | None => ret tt
  | Some m => throw (ErrorObj m)
  end.

Definition N_to_js (n : N) : jsstring :=
  js (NilEmpty.string_of_uint (N.to_uint n)).

(** [await axios.post(...)]: resolves with the response when its status is
    in [200, 300), the default [validateStatus]; rejects with an AxiosError
    otherwise, which carries the response when there was one. *)
Definition axios_post (h : Host) (request : HttpRequest) : M value :=
  emit (HttpPost request) ;;
  match http_outcome h request with
  | HttpResponse status data =>
      if (200 <=? status) && (status <? 300) then ret data
      else throw (AxiosError
                    (js "Request failed with status code " ++ N_to_js status)
                    (Some (status, data)))
  | NoResponse m => throw (AxiosError m None)
  end.

End Ops.
Export Ops.

(** ** [JSON.parse]

    The JSON grammar of ECMA-404 as one pass over the code units: a lexer
    state for the token being read and a stack of the arrays and objects
    that are still open. *)

Module JSON.

Inductive Token : Type :=
| TLBrace | TRBrace | TLBracket | TRBracket | TColon | TComma
| TString (s : jsstring)
| TScalar (v : value).

Inductive Frame : Type :=
| FArr (acc : list value)                                    (* reversed *)
| FObj (acc : list (jsstring * value)) (key : option jsstring).

Inductive Expect : Type :=
| EValue | EValueOrClose | EKey | EKeyOrClose | EColon | ESeparator.

Record Parser := {
  stack : list Frame;
  expect : Expect;
  result : option value
}.

(** A complete value goes into the innermost open container, or is the
    result when none is open. *)
Definition push_value (v : value) (fs : list Frame) : option Parser :=
  match fs with
  | [] => Some {| stack := []; expect := ESeparator; result := Some v |}
  | FArr acc :: fs' =>
      Some {| stack := FArr (v :: acc) :: fs'; expect := ESeparator; result := None |}
  | FObj acc (Some k) :: fs' =>
      Some {| stack := FObj ((k, v) :: acc) None :: fs'; expect := ESeparator;
              result := None |}
  | FObj _ None :: _ => None
  end.

Definition open (f : Frame) (e : Expect) (p : Parser) : option Parser :=
  Some {| stack := f :: stack p; expect := e; result := None |}.

Definition feed (p : Parser) (t : Token) : option Parser :=
  match expect p, t with
  | (EValue | EValueOrClose), TScalar v => push_value v (stack p)
  | (EValue | EValueOrClose), TString s => push_value (Str s) (stack p)
  | (EValue | EValueOrClose), TLBracket => open (FArr []) EValueOrClose p
  | (EValue | EValueOrClose), TLBrace => open (FObj [] None) EKeyOrClose p
  | EValueOrClose, TRBracket =>
      match stack p with
      | FArr [] :: fs => push_value (Arr []) fs
      | _ => None
      end
  | (EKey | EKeyOrClose), TString k =>
      match stack p with
      | FObj acc None :: fs =>
          Some {| stack := FObj acc (Some k) :: fs; expect := EColon; result := None |}
      | _ => None
      end
  | EKeyOrClose, TRBrace =>
      match stack p with
      | FObj [] None :: fs => push_value (Obj []) fs
      | _ => None
      end
  | EColon, TColon =>
      Some {| stack := stack p; expect := EValue; result := None |}
  | ESeparator, TComma =>
      match stack p with
      | FArr _ :: _ => Some {| stack := stack p; expect := EValue; result := None |}
      | FObj _ None :: _ => Some {| stack := stack p; expect := EKey; result := None |}
      | _ => None
      end
  | ESeparator, TRBracket =>
      match stack p with
      | FArr acc :: fs => push_value (Arr (rev acc)) fs
      | _ => None
      end
  | ESeparator, TRBrace =>
      match stack p with
      | FObj acc None :: fs => push_value (Obj (rev acc)) fs
      | _ => None
      end
  | _, _ => None
  end.

Inductive NumPhase : Type :=
| NMinus | NZero | NInt | NDot | NFrac | NExpMark | NExpSign | NExp.

Record Num := {
  phase : NumPhase;
  negative : bool;
  digits : N;            (* integer and fraction digits read so far *)
  frac_len : N;          (* how many of them came after the point *)
  exp_negative : bool;
  exponent : N
}.

Inductive Lex : Type :=
| LIdle
| LString (acc : list N)                          (* reversed *)
| LEscape (acc : list N)
| LUnicode (acc : list N) (read : nat) (code : N)
| LWord (rest : list N) (v : value)
| LNumber (n : Num).

Definition is_json_space (c : N) : bool :=
  (c =? 32) || (c =? 9) || (c =? 10) || (c =? 13).

Definition digit_of (c : N) : option N :=
  if (48 <=? c) && (c <=? 57) then Some (c - 48) else None.

Definition hex_of (c : N) : option N :=
  if (48 <=? c) && (c <=? 57) then Some (c - 48)
  else if (97 <=? c) && (c <=? 102) then Some (c - 87)
  else if (65 <=? c) && (c <=? 70) then Some (c - 55)
  else None.

Definition number_of (n : Num) : number :=
  {| neg := negative n;
     mantissa := digits n;
     exp10 := ((if exp_negative n then - Z.of_N (exponent n)
                else Z.of_N (exponent n)) - Z.of_N (frac_len n))%Z |}.

Definition num_complete (n : Num) : bool :=
  match phase n with
  | NZero | NInt | NFrac | NExp => true
  | _ => false
  end.

Definition with_phase (n : Num) (ph : NumPhase) : Num :=
  {| phase := ph; negative := negative n; digits := digits n;
     frac_len := frac_len n; exp_negative := exp_negative n;
     exponent := exponent n |}.

Definition add_digit (n : Num) (ph : NumPhase) (d : N) (fraction : bool) : Num :=
  {| phase := ph; negative := negative n; digits := digits n * 10 + d;
     frac_len := if fraction then frac_len n + 1 else frac_len n;
     exp_negative := exp_negative n; exponent := exponent n |}.

Definition add_exp_digit (n : Num) (d : N) : Num :=
  {| phase := NExp; negative := negative n; digits := digits n;
     frac_len := frac_len n; exp_negative := exp_negative n;
     exponent := exponent n * 10 + d |}.

Definition exp_sign (n : Num) (minus : bool) : Num :=
  {| phase := NExpSign; negative := negative n; digits := digits n;
     frac_len := frac_len n; exp_negative := minus; exponent := exponent n |}.

(** One more code unit of a number: [Some (Some n')] goes on, [Some None]
    says the number ended before [c], [None] is a syntax error. *)
Definition num_step (n : Num) (c : N) : option (option Num) :=
  let is_e := (c =? 101) || (c =? 69) in
  match phase n, digit_of c with
  | NMinus, Some d => Some (Some (add_digit n (if d =? 0 then NZero else NInt) d false))
  | NMinus, None => None
  | NZero, _ =>
      if c =? 46 then Some (Some (with_phase n NDot))
      else if is_e then Some (Some (with_phase n NExpMark))
      else Some None
  | NInt, Some d => Some (Some (add_digit n NInt d false))
  | NInt, None =>
      if c =? 46 then Some (Some (with_phase n NDot))
      else if is_e then Some (Some (with_phase n NExpMark))
      else Some None
  | NDot, Some d => Some (Some (add_digit n NFrac d true))
  | NDot, None => None
  | NFrac, Some d => Some (Some (add_digit n NFrac d true))
  | NFrac, None =>
      if is_e then Some (Some (with_phase n NExpMark)) else Some None
  | NExpMark, Some d => Some (Some (add_exp_digit n d))
  | NExpMark, None =>
      if c =? 43 then Some (Some (exp_sign n false))
      else if c =? 45 then Some (Some (exp_sign n true))
      else None
  | NExpSign, Some d => Some (Some (add_exp_digit n d))
  | NExpSign, None => None
  | NExp, Some d => Some (Some (add_exp_digit n d))
  | NExp, None => Some None
  end.

Definition start_num (ph : NumPhase) (minus : bool) (d : N) : Lex :=
  LNumber {| phase := ph; negative := minus; digits := d; frac_len := 0;
             exp_negative := false; exponent := 0 |}.

(** A code unit met between tokens. *)
Definition idle_step (p : Parser) (c : N) : option (Lex * Parser) :=
  let token t := option_map (pair LIdle) (feed p t) in
  if is_json_space c then Some (LIdle, p)
  else if c =? 123 then token TLBrace
  else if c =? 125 then token TRBrace
  else if c =? 91 then token TLBracket
  else if c =? 93 then token TRBracket
  else if c =? 58 then token TColon
  else if c =? 44 then token TComma
  else if c =? 34 then Some (LString [], p)
  else if c =? 45 then Some (start_num NMinus true 0, p)
  else if c =? 48 then Some (start_num NZero false 0, p)
  else if (49 <=? c) && (c <=? 57) then Some (start_num NInt false (c - 48), p)
  else if c =? 116 then Some (LWord [114; 117; 101] (Bool true), p)
  else if c =? 102 then Some (LWord [97; 108; 115; 101] (Bool false), p)
  else if c =? 110 then Some (LWord [117; 108; 108] Null, p)
  else None.

Definition escape_of (c : N) : option N :=
  if c =? 34 then Some 34 else if c =? 92 then Some 92
  else if c =? 47 then Some 47 else if c =? 98 then Some 8
  else if c =? 102 then Some 12 else if c =? 110 then Some 10
  else if c =? 114 then Some 13 else if c =? 116 then Some 9
  else None.

Definition step (s : Lex * Parser) (c : N) : option (Lex * Parser) :=
  let (l, p) := s in
  match l with
  | LIdle => idle_step p c
  | LString acc =>
      if c =? 34 then option_map (pair LIdle) (feed p (TString (rev acc)))
      else if c =? 92 then Some (LEscape acc, p)
      else if c <? 32 then None
      else Some (LString (c :: acc), p)
  | LEscape acc =>
      if c =? 117 then Some (LUnicode acc 0 0, p)
      else option_map (fun u => (LString (u :: acc), p)) (escape_of c)
  | LUnicode acc read code =>
      match hex_of c with
      | Some d =>
          match read with
          | 3%nat => Some (LString (code * 16 + d :: acc), p)
          | _ => Some (LUnicode acc (S read) (code * 16 + d), p)
          end
      | None => None
      end
  | LWord rest v =>
      match rest with
      | [] => None
      | [x] => if c =? x then option_map (pair LIdle) (feed p (TScalar v)) else None
      | x :: rest' => if c =? x then Some (LWord rest' v, p) else None
      end
  | LNumber n =>
      match num_step n c with
      | Some (Some n') => Some (LNumber n', p)
      | Some None =>
          match feed p (TScalar (Number (number_of n))) with
          | Some p' => idle_step p' c
          | None => None
          end
      | None => None
      end
  end.

Fixpoint run (s : Lex * Parser) (text : jsstring) : option (Lex * Parser) :=
  match text with
  | [] => Some s
  | c :: rest =>
      match step s c with
      | Some s' => run s' rest
      | None => None
      end
  end.

(** At the end of the text no token may be half read and no container
    open; a number that the end of the text completes is still fed. *)
Definition finish (s : Lex * Parser) : option value :=
  let (l, p) := s in
  match l with
  | LIdle => match stack p with [] => result p | _ => None end
  | LNumber n =>
      if num_complete n then
        match feed p (TScalar (Number (number_of n))) with
        | Some p' => match stack p' with [] => result p' | _ => None end
        | None => None
        end
      else None
  | _ => None
  end.

Definition start : Lex * Parser :=
  (LIdle, {| stack := []; expect := EValue; result := None |}).

(** [JSON.parse] of a string: [None] is a SyntaxError. *)
Definition parse_text (text : jsstring) : option value :=
  match run start text with
  | Some s => finish s
  | None => None
  end.

(** What the parser holds is never [undefined]: the invariant behind
    [JSON.parse] returning a JSON value. *)
Definition defined (v : value) : Prop := v <> Undefined.

Definition lex_ok (l : Lex) : Prop :=
  match l with LWord _ v => defined v | _ => True end.

Definition parser_ok (p : Parser) : Prop :=
  match result p with Some v => defined v | None => True end.

Definition token_ok (t : Token) : Prop :=
  match t with TScalar v => defined v | _ => True end.

End JSON.

(** [JSON.parse(v)]: the argument is converted to a string first. *)
Definition JSON_parse (h : Host) (v : value) : M value :=
  text <- ToString h v ;;
  match JSON.parse_text text with
  | Some parsed => ret parsed
  | None => throw (Raised JsonSyntax)
  end.

(** ** The application *)

(** The fields of [AppConfig] the main process reads; the others are
    presentation settings handed to the renderer. *)
Record AppConfig := {
  apiKey : jsstring;
  model : jsstring;
  language : jsstring
}.

Record BrowserWindow := { visible : bool }.

(** The module-level variables of [main.ts]. *)
Record App := {
  mainWindow : option BrowserWindow;      (* null until createWindow *)
  screenWidth : N;                        (* primaryDisplay.workAreaSize.width *)
  workAreaHeight : N;                     (* primaryDisplay.workAreaSize.height *)
  copiedContent : jsstring;
  isHiddenForFullscreen : bool;
  config : AppConfig
}.

Definition OPENROUTER_API_URL : jsstring := js "https://openrouter.ai/api/v1".

Definition send (channel : string) (args : list value) : M unit :=
  emit (Send (js channel) args).

(** *** [analyzeContent] *)

Definition languagePrompt (config : AppConfig) : jsstring :=
  if str_eqb (language config) (js "sv") then js "Respond in Swedish."
  else js "Respond in English.".

Definition systemPrompt (config : AppConfig) (isAction : bool) : jsstring :=
  if isAction then
    js "You are a helpful AI assistant on Linux (Manjaro). "
    ++ languagePrompt config
    ++ js " For any actionable request (commands, opening apps/URLs, searching, copying, replacing text, or analysis), "
    ++ jq "ALWAYS respond with valid JSON ONLY: {`action`: `exact_name`, `params`: {}}. "
    ++ js "NO plain text, explanations, or Markdown outside JSON. "
    ++ jq "If the request is to replace or edit clipboard text, use `replace_text` with {`newText`: `the exact replacement text`}. "
    ++ jq "Actions: `run_command` {`command`: `full bash command, e.g. 'ls -la'`}, `open_url` {`url`: `https://...`}, "
    ++ jq "`search_web` {`query`: `search term`}, `copy_text` {`text`: `text to copy`}, "
    ++ jq "`analysis` {`analysis`: `detailed Markdown response`}, `open_app` {`appName`: `e.g. firefox`}, "
    ++ jq "`replace_text` {`newText`: `replacement for clipboard`}. For non-actions, respond with plain text analysis."
  else
    js "You are a helpful study assistant. "
    ++ languagePrompt config
    ++ js " Analyze the provided content and provide a clear, concise summary using Markdown for formatting (headings, lists, bold text). "
    ++ js "If it's a quiz or study material, explain key concepts and provide helpful insights. Keep responses focused and educational.".

Definition userPrompt (content : jsstring) (isAction : bool) : jsstring :=
  if isAction then js "Process this user request: " ++ content
  else js "Please analyze and summarize this content:" ++ [10; 10] ++ content.

Definition completion_request (config : AppConfig) (content : jsstring)
  (isAction : bool) : HttpRequest :=
  {| req_url := OPENROUTER_API_URL ++ js "/chat/completions";
     req_model := model config;
     req_messages := [(js "system", systemPrompt config isAction);
                      (js "user", userPrompt content isAction)];
     req_timeout := 15000;
     req_headers :=
       [(js "Authorization", js "Bearer " ++ apiKey config);
        (js "Content-Type", js "application/json");
        (js "HTTP-Referer", js "https://github.com/yourusername/dynamic-island-app");
        (js "X-Title", js "Dynamic Island Study Assistant")] |}.

(** [v.length], for a truthy [v]. *)
Definition length_of (v : value) : value :=
  match v with
  | Arr l => Number (number_of_N (N.of_nat (length l)))
  | Str s => Number (number_of_N (N.of_nat (length s)))
  | Obj props =>
      match own_property (js "length") props with
      | Some x => x
      | None => Undefined
      end
  | _ => Undefined
  end.

(** [v > 0] *)
Definition gt_zero (h : Host) (v : value) : M bool :=
  match v with
  | Number n => ret (negb (neg n) && negb (number_is_zero n))
  | Undefined | Null => ret false
  | Bool b => ret b
  | Str _ | Arr _ | Obj _ =>
      match coerced_gt_zero h v with
      | Some b => ret b
      | None => throw (Raised NotPrimitive)
      end
  end.

(** [v[0]], for a truthy [v]. *)
Definition index0 (v : value) : value :=
  match v with
  | Arr (x :: _) => x
  | Str (c :: _) => Str [c]
  | Obj props =>
      match own_property (js "0") props with
      | Some x => x
      | None => Undefined
      end
  | _ => Undefined
  end.

Definition NO_API_KEY : jsstring :=
  js "No OpenRouter API key set. Press F1 to configure.".
Definition INVALID_API_KEY : jsstring :=
  js "Invalid API key (401). Press F1 to update it.".
Definition MODEL_UNAVAILABLE (config : AppConfig) : jsstring :=
  js "Model '" ++ model config ++ js "' not available. Press F1 to change it.".
Definition NETWORK_ERROR : jsstring :=
  js "Network error or API unavailable. Please check your connection.".

Definition analyzeContent (h : Host) (config : AppConfig) (content : jsstring)
  (isAction : bool) : M value :=
  if negb (nonempty (apiKey config)) then ret (Str NO_API_KEY)
  else
    try_catch
      (data <- axios_post h (completion_request config content isAction) ;;
       choices <- get data "choices" ;;
       some <- (if truthy choices then gt_zero h (length_of choices)
                else ret false) ;;
       if (some : bool) then
         message <- get (index0 choices) "message" ;;
         get message "content"
       else throw (ErrorObj (js "Invalid API response: No choices provided.")))
      (fun error =>
         emit (ConsoleError (js "OpenRouter API Error:") error) ;;
         match error with
         | AxiosError _ (Some (status, _)) =>
             if status =? 401 then ret (Str INVALID_API_KEY)
             else if (status =? 404) || (status =? 400)
                  then ret (Str (MODEL_UNAVAILABLE config))
                  else ret (Str NETWORK_ERROR)
         | _ => ret (Str NETWORK_ERROR)
         end).

(** *** [executeAction] *)

(** [result += label + text] when [text.trim()] is not empty. *)
Definition with_output (label text result : jsstring) : jsstring :=
  if nonempty (trim text) then result ++ [10; 10] ++ label ++ [10] ++ text
  else result.

Definition executeAction (h : Host) (actionData : value) : M value :=
  try_catch
    (action <- get actionData "action" ;;
     if is_str action (js "run_command") then
       params <- get actionData "params" ;;
       command <- get params "command" ;;
       emit (ConsoleLog (js "Executing command:") command) ;;
       try_catch
         (out <- execAsync h command ;;
          let (stdout, stderr) := (out : jsstring * jsstring) in
          emit (ConsoleLog (js "Command stdout:") (Str stdout)) ;;
          (if nonempty stderr
           then emit (ConsoleLog (js "Command stderr:") (Str stderr))
           else ret tt) ;;
          shown <- ToString h command ;;
          ret (Str (with_output (js "Errors:") stderr
                      (with_output (js "Output:") stdout
                         (js "Executed: " ++ shown)))))
         (fun error =>
            emit (ConsoleError (js "Command execution error:") error) ;;
            shown <- ToString h command ;;
            ret (Str (jq "Error executing `" ++ shown ++ jq "`: "
                      ++ message_of h error)))
     else if is_str action (js "open_app") then
       params <- get actionData "params" ;;
       appName <- get params "appName" ;;
       command <-
         (if str_eqb (platform h) (js "win32") then
            shown <- ToString h appName ;; ret (js "start " ++ shown)
          else if str_eqb (platform h) (js "darwin") then
            shown <- ToString h appName ;;
            ret (jq "open -a `" ++ shown ++ jq "`")
          else
            shown <- ToString h appName ;;
            ret (jq "xdg-open `" ++ shown ++ jq "` || " ++ shown)) ;;
       emit (ConsoleLog (js "Opening app with command:") (Str command)) ;;
       try_catch
         (out <- execAsync h (Str command) ;;
          let (stdout, stderr) := (out : jsstring * jsstring) in
          shown <- ToString h appName ;;
          ret (Str (with_output (js "Errors:") stderr
                      (with_output (js "Output:") stdout
                         (js "Opened: " ++ shown)))))
         (fun error =>
            emit (ConsoleError (js "App open error:") error) ;;
            shown <- ToString h appName ;;
            ret (Str (jq "Error opening `" ++ shown ++ jq "`: "
                      ++ message_of h error)))
     else if is_str action (js "play_music") then
       params <- get actionData "params" ;;
       query <- get params "query" ;;
       encoded <- encodeURIComponent h query ;;
       shell_openExternal_detached
         (js "https://music.youtube.com/search?q=" ++ encoded) ;;
       shown <- ToString h query ;;
       ret (Str (js "Playing: " ++ shown))
     else if is_str action (js "copy_text") then
       params <- get actionData "params" ;;
       text <- get params "text" ;;
       clipboard_writeText text ;;
       match text with
       | Str s => ret (Str (js "Copied: " ++ substring0 50 s ++ js "..."))
       | _ => throw (Raised (NotAFunction (js "actionData.params.text.substring")))
       end
     else if is_str action (js "analysis") then
       params <- get actionData "params" ;;
       analysis <- get params "analysis" ;;
       ret (or_else analysis (Str (js "No analysis provided.")))
     else if is_str action (js "open_url") then
       params <- get actionData "params" ;;
       url <- get params "url" ;;
       if truthy url then
         match url with
         | Str u =>
             if startsWith u (js "http") then
               shell_openExternal h u ;;
               ret (Str (js "Opened: " ++ u))
             else ret (Str (js "Invalid URL provided."))
         | _ => throw (Raised (NotAFunction (js "url.startsWith")))
         end
       else ret (Str (js "Invalid URL provided."))
     else if is_str action (js "search_web") then
       params <- get actionData "params" ;;
       query <- get params "query" ;;
       encoded <- encodeURIComponent h query ;;
       shell_openExternal h (js "https://www.google.com/search?q=" ++ encoded) ;;
       shown <- ToString h query ;;
       ret (Str (js "Searching: " ++ shown))
     else ret (Str (js "Action completed.")))
    (fun error =>
       emit (ConsoleError (js "Action execution error:") error) ;;
       ret (Str (js "Error executing action: " ++ message_of h error ++ js "."))).

(** *** The clipboard poller ([clipboardInterval], every 500 ms) *)

Definition set_copiedContent (app : App) (s : jsstring) : App :=
  {| mainWindow := mainWindow app; screenWidth := screenWidth app;
     workAreaHeight := workAreaHeight app; copiedContent := s;
     isHiddenForFullscreen := isHiddenForFullscreen app; config := config app |}.

(** One tick; [newContent] is what [clipboard.readText()] returned. *)
Definition clipboardInterval (newContent : jsstring) (app : App)
  : App * list Effect :=
  if negb (str_eqb newContent (copiedContent app)) && nonempty (trim newContent)
  then (set_copiedContent app newContent,
        match mainWindow app with
        | Some _ => [Send (js "content-copied") [Str newContent]]
        | None => []
        end)
  else (app, []).

(** A run of ticks, one per clipboard read. *)
Fixpoint clipboard_ticks (reads : list jsstring) (app : App)
  : App * list Effect :=
  match reads with
  | [] => (app, [])
  | r :: rest =>
      let (app1, t1) := clipboardInterval r app in
      let (app2, t2) := clipboard_ticks rest app1 in
      (app2, t1 ++ t2)
  end.

(** *** The presence monitor ([checkFullscreen], every 500 ms) *)

Fixpoint take_digits (s : jsstring) : jsstring * jsstring :=
  match s with
  | c :: rest =>
      if (48 <=? c) && (c <=? 57)
      then let (ds, tail) := take_digits rest in (c :: ds, tail)
      else ([], s)
  | [] => ([], [])
  end.

(** [\d+]: as many digits as there are, at least one. *)
Definition digits1 (s : jsstring) : option (jsstring * jsstring) :=
  match take_digits s with
  | ([], _) => None
  | r => Some r
  end.

Fixpoint strip_prefix (p s : jsstring) : option jsstring :=
  match p, s with
  | [], _ => Some s
  | a :: p', b :: s' => if a =? b then strip_prefix p' s' else None
  | _ :: _, [] => None
  end.

Definition and_then {A B} (o : option A) (k : A -> option B) : option B :=
  match o with Some a => k a | None => None end.

(** [/GEOMETRY:(\d+)x(\d+)\+(\d+)\+(\d+)/] at the head of [s]: the first
    two groups. *)
Definition geometry_here (s : jsstring) : option (jsstring * jsstring) :=
  and_then (strip_prefix (js "GEOMETRY:") s) (fun s1 =>
  and_then (digits1 s1) (fun '(width, s2) =>
  and_then (strip_prefix (js "x") s2) (fun s3 =>
  and_then (digits1 s3) (fun '(height, s4) =>
  and_then (strip_prefix (js "+") s4) (fun s5 =>
  and_then (digits1 s5) (fun '(_, s6) =>
  and_then (strip_prefix (js "+") s6) (fun s7 =>
  and_then (digits1 s7) (fun _ => Some (width, height))))))))).

(** [line.match(...)]: the leftmost place where the pattern matches. *)
Fixpoint geometry_match (line : jsstring) : option (jsstring * jsstring) :=
  match geometry_here line with
  | Some r => Some r
  | None =>
      match line with
      | [] => None
      | _ :: rest => geometry_match rest
      end
  end.

Definition decimal (ds : jsstring) : N :=
  fold_left (fun acc c => acc * 10 + (c - 48)) ds 0.

(** The double nearest to an integer (ties to even), [None] for Infinity. *)
Definition double_of_N (n : N) : option N :=
  let bits := N.size n in
  let r :=
    if bits <=? 53 then n
    else
      let sh := bits - 53 in
      let q := N.shiftr n sh in
      let low := n - N.shiftl q sh in
      let half := N.shiftl 1 (sh - 1) in
      N.shiftl (if low <? half then q
                else if half <? low then q + 1
                else if N.even q then q else q + 1) sh in
  if r <? 2 ^ 1024 then Some r else None.

(** [parseInt(digits) === n], for an integer [n] that a double holds exactly. *)
Definition parseInt_is (ds : jsstring) (n : N) : bool :=
  match double_of_N (decimal ds) with
  | Some d => d =? n
  | None => false
  end.

Definition set_presence (app : App) (shown hiddenFlag : bool) : App :=
  {| mainWindow := Some {| visible := shown |}; screenWidth := screenWidth app;
     workAreaHeight := workAreaHeight app; copiedContent := copiedContent app;
     isHiddenForFullscreen := hiddenFlag; config := config app |}.

Definition XDOTOOL : jsstring :=
  js "xdotool getactivewindow getwindowgeometry --shell".

Definition geometry_query : Effect := Exec (js "/bin/sh") XDOTOOL.

(** What a tick makes of the query's output: [None] when no line starts
    with GEOMETRY, else whether the active window fills the work area. *)
Definition fullscreen_test (app : App) (stdout : jsstring) : option bool :=
  match find (fun line => startsWith line (js "GEOMETRY")) (split_on 10 stdout) with
  | None => None
  | Some widthMatch =>
      match geometry_match widthMatch with
      | Some (width, height) =>
          Some (nonempty width && nonempty height
                && parseInt_is width (screenWidth app)
                && parseInt_is height (workAreaHeight app))
      | None => Some false
      end
  end.

(** One tick, with the callback of [exec] run to its end. *)
Definition checkFullscreen (h : Host) (app : App) : App * list Effect :=
  match mainWindow app with
  | None => (app, [])
  | Some w =>
      if negb (str_eqb (platform h) (js "linux")) then (app, [])
      else
        let query := geometry_query in
        match exec_outcome h (js "/bin/sh") XDOTOOL with
        | ExecFailed _ => (app, [query])
        | Exited stdout _ =>
            match fullscreen_test app stdout with
            | None => (app, [query])
            | Some true =>
                if negb (isHiddenForFullscreen app) && visible w
                then (set_presence app false true, [query; Hide])
                else (app, [query])
            | Some false =>
                if isHiddenForFullscreen app && negb (visible w)
                then (set_presence app true false, [query; Show; Focus])
                else (app, [query])
            end
        end
  end.

(** *** The [ask-ai] handler *)

Definition silentActions : list jsstring :=
  map js ["play_music"; "open_url"; "type_text"; "copy_text"; "search_web";
          "run_command"; "open_app"]%string.

(** The [try]/[catch] around the reply of the completion call;
    [copied] is [copiedContent] when the reply arrives. *)
Definition dispatch (h : Host) (copied : jsstring) (response : value) : M unit :=
  try_catch
    (actionData <- JSON_parse h response ;;
     action <- get actionData "action" ;;
     if is_str action (js "replace_text") then
       params <- get actionData "params" ;;
       newText <- get params "newText" ;;
       send "text-replacement"
            [Obj [(js "oldText", Str copied); (js "newText", newText)]]
     else if includes silentActions action then
       result <- executeAction h actionData ;;
       if is_str action (js "run_command")
       then send "analysis-complete" [result]
       else send "action-completed" [result]
     else if is_str action (js "analysis") then
       params <- get actionData "params" ;;
       analysis <- get params "analysis" ;;
       send "analysis-complete" [analysis]
     else
       reply <- get actionData "response" ;;
       send "ask-complete" [or_else reply (Str (js "Action completed."))])
    (fun parseError => send "ask-complete" [response]).

Definition userPromptWithClipboard (copied query : jsstring) : jsstring :=
  if nonempty (trim copied)
  then jq "The current clipboard/highlighted text is: `" ++ copied
       ++ jq "`. User request: " ++ query
  else query.

(** The whole handler.  The clipboard poller keeps running while the
    completion call is awaited, so [copiedContent] is read twice: from
    [app] for the prompt, and as [copiedAtReply] when the reply is there. *)
Definition ask_ai (h : Host) (app : App) (query copiedAtReply : jsstring)
  : M unit :=
  match mainWindow app with
  | None => ret tt
  | Some _ =>
      send "analyzing" [] ;;
      response <- analyzeContent h (config app)
                    (userPromptWithClipboard (copiedContent app) query) true ;;
      dispatch h copiedAtReply response
  end.

(** *** The [confirm-replacement] handler *)

Definition confirm_replacement (h : Host) (newText : value) : M unit :=
  try_catch
    (clipboard_writeText newText ;;
     keyboard h (PressKey [LeftControl; X]) ;;
     keyboard h (ReleaseKey [LeftControl; X]) ;;
     keyboard h (PressKey [LeftControl; V]) ;;
     keyboard h (ReleaseKey [LeftControl; V]))
    (fun error => emit (ConsoleError (js "Replacement error:") error)).

(** ** Vocabulary of the statements *)

(** [v.k] where it cannot throw: for a [v] that is not [undefined] or [null]. *)
Definition field (v : value) (k : string) : value :=
  match v with
  | Obj props =>
      match own_property (js k) props with
      | Some x => x
      | None => Undefined
      end
  | _ => Undefined
  end.

Definition nullish (v : value) : bool :=
  match v with Undefined | Null => true | _ => false end.

(** The closed set of action names of the wire format. *)
Definition ActionKind : list jsstring :=
  map js ["run_command"; "open_app"; "play_music"; "copy_text"; "search_web";
          "open_url"; "analysis"; "replace_text"]%string.

Definition is_send (e : Effect) : bool :=
  match e with Send _ _ => true | _ => false end.

Definition is_clipboard_write (e : Effect) : bool :=
  match e with ClipboardWrite _ => true | _ => false end.

Definition is_cut (e : Effect) : bool :=
  match e with PressKey [LeftControl; X] => true | _ => false end.

(** What a trace leaves on a clipboard that held [content]: the last text
    written by [clipboard.writeText], or cut after it by a press of Ctrl+X
    that went through while a text was highlighted. *)
Fixpoint clipboard_after (h : Host) (t : list Effect) (content : jsstring)
  : jsstring :=
  match t with
  | [] => content
  | ClipboardWrite s :: rest => clipboard_after h rest s
  | e :: rest =>
      if is_cut e then
        match keyboard_outcome h e, highlighted h with
        | None, Some cut => clipboard_after h rest cut
        | _, _ => clipboard_after h rest content
        end
      else clipboard_after h rest content
  end.

(** The texts a trace of the poller announces, in order. *)
Fixpoint announced (t : list Effect) : list jsstring :=
  match t with
  | [] => []
  | Send _ [Str s] :: rest => s :: announced rest
  | _ :: rest => announced rest
  end.

(** Every text of the list is non-blank and differs from the one before
    it, the first one from [prev]. *)
Fixpoint fresh_chain (prev : jsstring) (l : list jsstring) : Prop :=
  match l with
  | [] => True
  | x :: rest => x <> prev /\ trim x <> [] /\ fresh_chain x rest
  end.

(** The flag is set exactly while the overlay is hidden. *)
Definition coherent (app : App) : Prop :=
  match mainWindow app with
  | Some w => isHiddenForFullscreen app = negb (visible w)
  | None => True
  end.

(** What the last [catch] of [executeAction] makes of an error. *)
Definition action_error (h : Host) (e : Thrown) : M value :=
  ([ConsoleError (js "Action execution error:") e],
   inl (Str (js "Error executing action: " ++ message_of h e ++ js "."))).

(** The keystroke calls of [confirm-replacement], in order. *)
Definition replacement_keystrokes : list Effect :=
  [PressKey [LeftControl; X]; ReleaseKey [LeftControl; X];
   PressKey [LeftControl; V]; ReleaseKey [LeftControl; V]].

(** *** The presence monitor as the specification words it

    The step relation on [PresenceState{visible, hiddenForFullscreen}] of
    section 4.5 of the specification, with both guards spelled out: hiding
    needs the overlay visible and the flag clear, showing needs it hidden
    and the flag set.  It is compared below with [checkFullscreen]. *)

Record PresenceState := { shown : bool; hiddenForFullscreen : bool }.

Inductive Observation : Type :=
| GeometryUnavailable | Fullscreen | NotFullscreen.

Definition presence_step (o : Observation) (s : PresenceState)
  : PresenceState * list Effect :=
  match o with
  | GeometryUnavailable => (s, [])
  | Fullscreen =>
      if shown s && negb (hiddenForFullscreen s)
      then ({| shown := false; hiddenForFullscreen := true |}, [Hide])
      else (s, [])
  | NotFullscreen =>
      if negb (shown s) && hiddenForFullscreen s
      then ({| shown := true; hiddenForFullscreen := false |}, [Show; Focus])
      else (s, [])
  end.

(** The presence state inside the application state. *)
Definition presence (app : App) (w : BrowserWindow) : PresenceState :=
  {| shown := visible w; hiddenForFullscreen := isHiddenForFullscreen app |}.

(** What a tick observes: the query failed or printed no GEOMETRY line,
    or the active window does or does not fill the work area. *)
Definition observation (h : Host) (app : App) : Observation :=
  match exec_outcome h (js "/bin/sh") XDOTOOL with
  | ExecFailed _ => GeometryUnavailable
  | Exited stdout _ =>
      match fullscreen_test app stdout with
      | None => GeometryUnavailable
      | Some true => Fullscreen
      | Some false => NotFullscreen
      end
  end.

(** *** A host and a state for the examples

    Linux; every command, URL and keystroke succeeds; the completion
    endpoint does not answer.  The engine's part is filled in for what the
    examples need: the error texts are V8's in outline, integers up to
    [2^53] are printed in full (no example prints another number) and no
    example compares a string, an array or an object with zero. *)

Module Example.

Definition fault_text (f : Fault) : jsstring :=
  match f with
  | ReadOfNullish Null k =>
      js "Cannot read properties of null (reading '" ++ k ++ js "')"
  | ReadOfNullish _ k =>
      js "Cannot read properties of undefined (reading '" ++ k ++ js "')"
  | NotAFunction callee => callee ++ js " is not a function"
  | NotPrimitive => js "Cannot convert object to primitive value"
  | MalformedURI => js "URI malformed"
  | NotAString api _ => api ++ js ": the argument must be of type string"
  | RefusedString api [] => api ++ js ": the argument cannot be empty"
  | RefusedString api _ =>
      api ++ js ": the argument must be a string without null bytes"
  | JsonSyntax => js "Unexpected token in JSON"
  end.

Definition host : Host :=
  {| platform := js "linux";
     exec_outcome := fun _ _ => Exited [] [];
     openExternal_outcome := fun _ => None;
     http_outcome := fun _ => NoResponse (js "timeout of 15000ms exceeded");
     keyboard_outcome := fun _ => None;
     highlighted := None;
     fault_message := fault_text;
     Number_toString := fun n =>
       if (exp10 n =? 0)%Z && (mantissa n <=? 2 ^ 53)
       then (if neg n && negb (mantissa n =? 0) then js "-" else [])
            ++ N_to_js (mantissa n)
       else js "NaN";
     coerced_gt_zero := fun _ => Some false |}.

(** The same host with another answer of the completion endpoint. *)
Definition answering (o : HttpOutcome) : Host :=
  {| platform := platform host; exec_outcome := exec_outcome host;
     openExternal_outcome := openExternal_outcome host;
     http_outcome := fun _ => o;
     keyboard_outcome := keyboard_outcome host;
     highlighted := highlighted host;
     fault_message := fault_message host;
     Number_toString := Number_toString host;
     coerced_gt_zero := coerced_gt_zero host |}.

(** The same host where the keystroke calls picked by [fails] fail. *)
Definition failing_keys (fails : Effect -> bool) (message : jsstring) : Host :=
  {| platform := platform host; exec_outcome := exec_outcome host;
     openExternal_outcome := openExternal_outcome host;
     http_outcome := http_outcome host;
     keyboard_outcome := fun c => if fails c then Some message else None;
     highlighted := highlighted host;
     fault_message := fault_message host;
     Number_toString := Number_toString host;
     coerced_gt_zero := coerced_gt_zero host |}.

(** The same, with [selection] highlighted in the focused application. *)
Definition cutting (selection : jsstring) (fails : Effect -> bool)
  (message : jsstring) : Host :=
  {| platform := platform host; exec_outcome := exec_outcome host;
     openExternal_outcome := openExternal_outcome host;
     http_outcome := http_outcome host;
     keyboard_outcome := fun c => if fails c then Some message else None;
     highlighted := Some selection;
     fault_message := fault_message host;
     Number_toString := Number_toString host;
     coerced_gt_zero := coerced_gt_zero host |}.

(** The same host with another output of the geometry query. *)
Definition with_geometry (o : ExecOutcome) : Host :=
  {| platform := platform host; exec_outcome := fun _ _ => o;
     openExternal_outcome := openExternal_outcome host;
     http_outcome := http_outcome host;
     keyboard_outcome := keyboard_outcome host;
     highlighted := highlighted host;
     fault_message := fault_message host;
     Number_toString := Number_toString host;
     coerced_gt_zero := coerced_gt_zero host |}.

Definition settings : AppConfig :=
  {| apiKey := js "sk-or-v1-0000"; model := js "x-ai/grok-4-fast:free";
     language := js "en" |}.

(** The state once the window exists and the timers start. *)
Definition started : App :=
  {| mainWindow := Some {| visible := true |}; screenWidth := 1920;
     workAreaHeight := 1080; copiedContent := [];
     isHiddenForFullscreen := false; config := settings |}.

End Example.

(** ** The other handlers of the main process *)

(** *** The Alt+C shortcut: summarise the clipboard

    [content] is what [clipboard.readText()] returned. *)

Definition CLIPBOARD_EMPTY : jsstring :=
  js "Clipboard is empty. Copy some text and try again.".

Definition analyze_shortcut (h : Host) (app : App) (content : jsstring)
  : M unit :=
  if nonempty (trim content) then
    match mainWindow app with
    | Some _ =>
        send "analyzing" [] ;;
        analysis <- analyzeContent h (config app) content false ;;
        send "analysis-complete" [analysis]
    | None => ret tt
    end
  else
    match mainWindow app with
    | Some _ => send "analysis-complete" [Str CLIPBOARD_EMPTY]
    | None => ret tt
    end.

(** *** The [analyze-speech] handler

    It assigns [speechContent], which nothing reads: the new value is the
    first component of the result. *)
Definition analyze_speech (h : Host) (app : App) (content : jsstring)
  : jsstring * M unit :=
  (content,
   match mainWindow app with
   | Some _ =>
       send "analyzing" [] ;;
       analysis <- analyzeContent h (config app)
                     (js "Analyze this spoken query: " ++ content) false ;;
       send "analysis-complete" [analysis]
   | None => ret tt
   end).

(** *** The overlay's place on the screen

    Bounds and the work-area width are whole numbers of pixels, so
    [Math.floor(n / 2)] is division on [Z], which rounds down. *)
Record Rectangle := { rx : Z; ry : Z; rwidth : Z; rheight : Z }.

(** [Math.floor((screenWidth - width) / 2)] *)
Definition centred_left (app : App) (width : Z) : Z :=
  ((Z.of_N (screenWidth app) - width) / 2)%Z.

(** [createWindow]: the overlay starts 200 by 35 at the top centre. *)
Definition createWindow_bounds (app : App) : Rectangle :=
  {| rx := centred_left app 200; ry := 0; rwidth := 200; rheight := 35 |}.

(** The [resize] and [move] handlers of the window: [bounds] is
    [mainWindow.getBounds()], the result what is given to [setBounds]. *)
Definition recentre (app : App) (bounds : Rectangle) : Rectangle :=
  {| rx := centred_left app (rwidth bounds); ry := 0;
     rwidth := rwidth bounds; rheight := rheight bounds |}.

(** The [resize-window] request of the renderer, when its timer fires. *)
Definition resize_window (app : App) (width height : Z) : Rectangle :=
  {| rx := centred_left app width; ry := 0; rwidth := width; rheight := height |}.

(** *** Runs of the presence monitor: one host per tick *)
Fixpoint fullscreen_ticks (hosts : list Host) (app : App)
  : App * list Effect :=
  match hosts with
  | [] => (app, [])
  | h :: rest =>
      let (app1, t1) := checkFullscreen h app in
      let (app2, t2) := fullscreen_ticks rest app1 in
      (app2, t1 ++ t2)
  end.

(** ** More vocabulary *)

(** The calls that act on the machine: a shell command, an external open,
    a clipboard write. *)
Definition is_outside_call (e : Effect) : bool :=
  match e with
  | Exec _ _ | OpenExternal _ | ClipboardWrite _ => true
  | _ => false
  end.

Definition is_console (e : Effect) : bool :=
  match e with
  | ConsoleLog _ _ | ConsoleError _ _ => true
  | _ => false
  end.

Definition is_request (e : Effect) : bool :=
  match e with HttpPost _ => true | _ => false end.

Definition not_send (e : Effect) : bool := negb (is_send e).

Definition no_call (e : Effect) : bool := negb (is_outside_call e).

(** A computation whose effects all satisfy [p]. *)
Definition only {A} (p : Effect -> bool) (m : M A) : Prop :=
  forallb p (fst m) = true.

(** A computation with at most [n] outside calls. *)
Definition calls_at_most {A} (n : nat) (m : M A) : Prop :=
  (length (filter is_outside_call (fst m)) <= n)%nat.

(** The channels on which a run of the dispatcher ends. *)
Definition terminal_channels : list jsstring :=
  map js ["text-replacement"; "analysis-complete"; "action-completed";
          "ask-complete"]%string.

(** A computation that, when it returns, has sent one message, as its
    last effect, on a terminal channel; when it throws, it has sent none. *)
Definition one_terminal {A} (m : M A) : Prop :=
  match m with
  | (t, inl _) =>
      exists pre channel args,
        t = pre ++ [Send channel args]
        /\ forallb not_send pre = true
        /\ In channel terminal_channels
  | (t, inr _) => forallb not_send t = true
  end.

(** The code units an encoded URI component is made of: the unreserved
    ones and the percent sign. *)
Definition is_uri_safe (c : N) : bool := is_uri_unreserved c || (c =? 37).

(** The line the presence monitor looks for, from its four numbers as
    they are written. *)
Definition geometry_line (w hgt left top : jsstring) : jsstring :=
  js "GEOMETRY:" ++ w ++ js "x" ++ hgt ++ js "+" ++ left ++ js "+" ++ top.

Definition is_digit (c : N) : bool := (48 <=? c) && (c <=? 57).

(** A number as the pattern's [\d+] takes it: digits, at least one. *)
Definition numeral (ds : jsstring) : Prop :=
  ds <> [] /\ forallb is_digit ds = true.

(** How often a trace hides and shows the overlay, and whether the
    overlay is hidden (1) or not (0). *)
Definition hides (t : list Effect) : nat :=
  length (filter (fun e => match e with Hide => true | _ => false end) t).

Definition shows (t : list Effect) : nat :=
  length (filter (fun e => match e with Show => true | _ => false end) t).

Definition hidden_now (app : App) : nat :=
  match mainWindow app with
  | Some w => if visible w then 0 else 1
  | None => 0
  end.

(** The command [open_app] hands to the shell, by platform. *)
Definition launch_command (h : Host) (appName : jsstring) : jsstring :=
  if str_eqb (platform h) (js "win32") then js "start " ++ appName
  else if str_eqb (platform h) (js "darwin")
       then jq "open -a `" ++ appName ++ jq "`"
       else jq "xdg-open `" ++ appName ++ jq "` || " ++ appName.

(** No effect at all. *)
Definition nothing (e : Effect) : bool := false.

(** The name of the parameter each silent action reads first. *)
Definition first_parameter : list (jsstring * string) :=
  [(js "run_command", "command"); (js "open_app", "appName");
   (js "play_music", "query"); (js "copy_text", "text");
   (js "open_url", "url"); (js "search_web", "query")]%string.

(** *** More hosts for the examples *)

Module Scenario.

(** The example host on another platform. *)
Definition on_platform (p : string) : Host :=
  {| platform := js p; exec_outcome := exec_outcome Example.host;
     openExternal_outcome := openExternal_outcome Example.host;
     http_outcome := http_outcome Example.host;
     keyboard_outcome := keyboard_outcome Example.host;
     highlighted := highlighted Example.host;
     fault_message := fault_message Example.host;
     Number_toString := Number_toString Example.host;
     coerced_gt_zero := coerced_gt_zero Example.host |}.

(** The example host where commands end as [o] and external opens as [r]. *)
Definition with_shell (o : ExecOutcome) (r : option jsstring) : Host :=
  {| platform := platform Example.host; exec_outcome := fun _ _ => o;
     openExternal_outcome := fun _ => r;
     http_outcome := http_outcome Example.host;
     keyboard_outcome := keyboard_outcome Example.host;
     highlighted := highlighted Example.host;
     fault_message := fault_message Example.host;
     Number_toString := Number_toString Example.host;
     coerced_gt_zero := coerced_gt_zero Example.host |}.

(** A reply of the completion endpoint with one choice. *)
Definition completion (content : value) : HttpOutcome :=
  HttpResponse 200
    (Obj [(js "choices",
           Arr [Obj [(js "message", Obj [(js "content", content)])]])]).

End Scenario.

(** * Properties *)

(** ** Strings and the monad *)

Lemma str_eqb_eq (a b : jsstring) : str_eqb a b = true <-> a = b.
Proof.
  unfold str_eqb. destruct (jsstring_eq_dec a b); split; congruence.
Qed.

Lemma str_eqb_refl (a : jsstring) : str_eqb a a = true.
Proof. now apply str_eqb_eq. Qed.

Lemma str_eqb_neq (a b : jsstring) : a <> b -> str_eqb a b = false.
Proof.
  intros H. unfold str_eqb. destruct (jsstring_eq_dec a b); congruence.
Qed.

Lemma nonempty_true (s : jsstring) : nonempty s = true <-> s <> [].
Proof. destruct s; cbn; split; congruence. Qed.

Lemma nonempty_false (s : jsstring) : nonempty s = false <-> s = [].
Proof. destruct s; cbn; split; congruence. Qed.

Lemma trimStart_blank (s : jsstring) :
  forallb is_white_space s = true -> trimStart s = [].
Proof.
  induction s as [|c s IH]; cbn [forallb trimStart]; [reflexivity|].
  intros H. apply andb_true_iff in H as [Hc Hs]. rewrite Hc. exact (IH Hs).
Qed.

(** A string of white space only is blank: [trim] leaves nothing. *)
Lemma trim_blank (s : jsstring) :
  forallb is_white_space s = true -> trim s = [].
Proof.
  intros H. unfold trim, trimEnd. now rewrite (trimStart_blank s H).
Qed.

Lemma bind_ret_l {A B} (a : A) (k : A -> M B) : bind (ret a) k = k a.
Proof. unfold bind, ret. destruct (k a). reflexivity. Qed.

Lemma bind_emit {B} (e : Effect) (k : unit -> M B) :
  bind (emit e) k = (e :: fst (k tt), snd (k tt)).
Proof. unfold bind, emit. destruct (k tt). reflexivity. Qed.

Lemma bind_value {A B} (t : list Effect) (a : A) (k : A -> M B) :
  bind (t, inl a) k = (t ++ fst (k a), snd (k a)).
Proof. unfold bind. destruct (k a). reflexivity. Qed.

Lemma get_field (v : value) (k : string) :
  nullish v = false -> get v k = ret (field v k).
Proof.
  destruct v; cbn; try discriminate; intros _; try reflexivity.
  destruct (own_property (js k) properties); reflexivity.
Qed.

(** ** The parser *)

Module JSONFacts.
Import JSON.

Lemma push_value_ok v fs p :
  defined v -> push_value v fs = Some p -> parser_ok p.
Proof.
  intros Hv. unfold push_value.
  destruct fs as [|[acc|acc [k|]] fs]; intros H; inversion H; subst; cbn; auto.
Qed.

Lemma feed_ok p t p' : token_ok t -> feed p t = Some p' -> parser_ok p'.
Proof.
  intros Ht. unfold feed, open.
  destruct (expect p), t; try discriminate;
    repeat match goal with
           | |- context [match stack p with _ => _ end] => destruct (stack p) as [|[[|? ?]|[|? ?] [?|]] ?]
           end;
    try discriminate;
    intros H;
    try (apply push_value_ok in H; [exact H | try exact Ht; unfold defined; discriminate]);
    try (inversion H; subst; exact I).
Qed.

Lemma idle_step_ok p c l' p' :
  parser_ok p -> idle_step p c = Some (l', p') -> lex_ok l' /\ parser_ok p'.
Proof.
  intros Hp. unfold idle_step, start_num.
  repeat match goal with
         | |- context [if ?b then _ else _] => destruct b
         end;
    intros H;
    try (inversion H; subst; cbn; split; [exact I || (unfold defined; discriminate) | exact Hp]);
    try discriminate;
    match type of H with
    | option_map _ (feed p ?t) = _ =>
        destruct (feed p t) as [q|] eqn:F; [|discriminate];
        inversion H; subst; split; [exact I | exact (feed_ok p t _ I F)]
    end.
Qed.

Lemma step_ok l p c l' p' :
  lex_ok l -> parser_ok p -> step (l, p) c = Some (l', p') ->
  lex_ok l' /\ parser_ok p'.
Proof.
  intros Hl Hp. unfold step.
  destruct l as [|acc|acc|acc read code|rest v|n].
  - apply idle_step_ok, Hp.
  - destruct (c =? 34).
    + destruct (feed p (TString (rev acc))) as [q|] eqn:F; [|discriminate].
      intros H. inversion H; subst. split; [exact I | exact (feed_ok p (TString (rev acc)) _ I F)].
    + destruct (c =? 92); [intros H; inversion H; subst; now split|].
      destruct (c <? 32); [discriminate|].
      intros H; inversion H; subst; now split.
  - destruct (c =? 117); [intros H; inversion H; subst; now split|].
    destruct (escape_of c); [|discriminate].
    intros H; inversion H; subst; now split.
  - destruct (hex_of c); [|discriminate].
    destruct read as [|[|[|[|read]]]]; intros H; inversion H; subst; now split.
  - destruct rest as [|x [|y rest]]; [discriminate| |].
    + destruct (c =? x); [|discriminate].
      destruct (feed p (TScalar v)) as [q|] eqn:F; [|discriminate].
      intros H. inversion H; subst. split; [exact I | exact (feed_ok p (TScalar v) _ Hl F)].
    + destruct (c =? x); [|discriminate].
      intros H; inversion H; subst. now split.
  - destruct (num_step n c) as [[n'|]|]; [| |discriminate].
    + intros H; inversion H; subst; now split.
    + destruct (feed p (TScalar (Number (number_of n)))) as [q|] eqn:F; [|discriminate].
      apply idle_step_ok.
      apply (feed_ok p (TScalar (Number (number_of n)))); [discriminate | exact F].
Qed.

Lemma run_ok text : forall l p l' p',
  lex_ok l -> parser_ok p -> run (l, p) text = Some (l', p') ->
  lex_ok l' /\ parser_ok p'.
Proof.
  induction text as [|c text IH]; intros l p l' p' Hl Hp; cbn [run].
  - intros H. inversion H; subst. now split.
  - destruct (step (l, p) c) as [[l1 p1]|] eqn:S; [|discriminate].
    destruct (step_ok _ _ _ _ _ Hl Hp S) as [Hl1 Hp1].
    now apply IH.
Qed.

(** [JSON.parse] never returns [undefined]. *)
Lemma parse_text_defined text v : parse_text text = Some v -> v <> Undefined.
Proof.
  unfold parse_text.
  destruct (run start text) as [[l p]|] eqn:R; [|discriminate].
  unfold start in R.
  destruct (run_ok text LIdle {| stack := []; expect := EValue; result := None |}
              l p I I R) as [Hl Hp].
  unfold finish. destruct l; try discriminate.
  - destruct (stack p); [|discriminate]. intros H. unfold parser_ok in Hp.
    now rewrite H in Hp.
  - destruct (num_complete n); [|discriminate].
    destruct (feed p (TScalar (Number (number_of n)))) as [q|] eqn:F; [|discriminate].
    destruct (stack q); [|discriminate]. intros H.
    assert (Hq : parser_ok q).
    { apply (feed_ok p (TScalar (Number (number_of n)))); [discriminate | exact F]. }
    unfold parser_ok in Hq. now rewrite H in Hq.
Qed.

End JSONFacts.

(** ** The clipboard poller *)

Section ClipboardPoller.

Variable app : App.
Variable w : BrowserWindow.
Hypothesis window : mainWindow app = Some w.

Lemma clipboardInterval_emits (r : jsstring) :
  r <> copiedContent app -> trim r <> [] ->
  clipboardInterval r app
  = (set_copiedContent app r, [Send (js "content-copied") [Str r]]).
Proof using window.
  intros Hnew Hblank. unfold clipboardInterval.
  rewrite (str_eqb_neq _ _ Hnew), (proj2 (nonempty_true _) Hblank), window.
  reflexivity.
Qed.

Lemma clipboardInterval_skips (r : jsstring) :
  r = copiedContent app \/ trim r = [] -> clipboardInterval r app = (app, []).
Proof.
  intros [-> | Hblank]; unfold clipboardInterval.
  - now rewrite str_eqb_refl.
  - rewrite (proj2 (nonempty_false _) Hblank). now rewrite andb_false_r.
Qed.

Lemma clipboardInterval_cases (r : jsstring) :
  (r <> copiedContent app /\ trim r <> [])
  \/ (r = copiedContent app \/ trim r = []).
Proof.
  destruct (jsstring_eq_dec r (copiedContent app)) as [E | N]; [now right; left|].
  destruct (trim r) eqn:T; [now right; right|].
  left. split; [exact N | discriminate].
Qed.

End ClipboardPoller.

Lemma window_kept (app : App) (w : BrowserWindow) (s : jsstring) :
  mainWindow app = Some w -> mainWindow (set_copiedContent app s) = Some w.
Proof. intros H. exact H. Qed.

(** Whatever is read, the poller never announces a blank text nor the
    same text twice in a row. *)
Lemma clipboard_ticks_fresh (reads : list jsstring) :
  forall (app : App) (w : BrowserWindow),
    mainWindow app = Some w ->
    fresh_chain (copiedContent app) (announced (snd (clipboard_ticks reads app))).
Proof.
  induction reads as [|r reads IH]; intros app w Hw; cbn [clipboard_ticks].
  - exact I.
  - destruct (clipboardInterval_cases app r) as [[Hnew Hblank] | Hskip].
    + rewrite (clipboardInterval_emits app w Hw r Hnew Hblank).
      specialize (IH (set_copiedContent app r) w (window_kept app w r Hw)).
      destruct (clipboard_ticks reads (set_copiedContent app r)) as [app2 t2].
      cbn. repeat split; assumption.
    + rewrite (clipboardInterval_skips app r Hskip).
      specialize (IH app w Hw).
      destruct (clipboard_ticks reads app) as [app2 t2]. exact IH.
Qed.

(** C4. With the window in place, a tick of the clipboard poller announces
    the text it read exactly when that text differs from [copiedContent]
    and is not blank after [trim]; so the reads [A, A, B, B, B, C] of three
    non-blank texts, each new when it first appears, are announced as
    [A, B, C], and a read of white space only is never announced, whatever
    the state. *)
Theorem clipboard_poll_emits_new_nonblank
  (app : App) (w : BrowserWindow) (A B C blank : jsstring) :
  mainWindow app = Some w ->
  trim A <> [] -> trim B <> [] -> trim C <> [] ->
  A <> copiedContent app -> A <> B -> B <> C ->
  forallb is_white_space blank = true ->
  (forall r,
      snd (clipboardInterval r app) = [Send (js "content-copied") [Str r]]
      <-> (r <> copiedContent app /\ trim r <> []))
  /\ (forall r,
      snd (clipboardInterval r app) = []
      <-> (r = copiedContent app \/ trim r = []))
  /\ snd (clipboard_ticks [A; A; B; B; B; C] app)
     = [Send (js "content-copied") [Str A];
        Send (js "content-copied") [Str B];
        Send (js "content-copied") [Str C]]
  /\ (forall any : App, clipboardInterval blank any = (any, []))
  /\ (forall any : App, clipboardInterval (js "   ") any = (any, [])).
Proof.
  intros Hw HA HB HC HnA HAB HBC Hblank.
  split; [|split; [|split; [|split]]].
  - intros r. split.
    + intros E. destruct (clipboardInterval_cases app r) as [H | H]; [exact H|].
      rewrite (clipboardInterval_skips app r H) in E. discriminate.
    + intros [H1 H2]. now rewrite (clipboardInterval_emits app w Hw r H1 H2).
  - intros r. split.
    + intros E. destruct (clipboardInterval_cases app r) as [[H1 H2] | H]; [|exact H].
      rewrite (clipboardInterval_emits app w Hw r H1 H2) in E. discriminate.
    + intros H. now rewrite (clipboardInterval_skips app r H).
  - cbn [clipboard_ticks].
    rewrite (clipboardInterval_emits app w Hw A HnA HA).
    set (a1 := set_copiedContent app A).
    rewrite (clipboardInterval_skips a1 A (or_introl eq_refl)).
    assert (HBA : B <> copiedContent a1) by (cbn; congruence).
    rewrite (clipboardInterval_emits a1 w (window_kept app w A Hw) B HBA HB).
    set (a2 := set_copiedContent a1 B).
    rewrite !(clipboardInterval_skips a2 B (or_introl eq_refl)).
    assert (HCB : C <> copiedContent a2) by (cbn; congruence).
    rewrite (clipboardInterval_emits a2 w
               (window_kept a1 w B (window_kept app w A Hw)) C HCB HC).
    reflexivity.
  - intros any. apply clipboardInterval_skips. right. now apply trim_blank.
  - intros any. apply clipboardInterval_skips. right. reflexivity.
Qed.

(** Three texts, on the state the timers start from. *)
Lemma clipboard_poll_emits_new_nonblank_witness :
  snd (clipboard_ticks [js "A"; js "A"; js "B"; js "B"; js "B"; js "C"]
         Example.started)
  = [Send (js "content-copied") [Str (js "A")];
     Send (js "content-copied") [Str (js "B")];
     Send (js "content-copied") [Str (js "C")]].
Proof.
  refine (proj1 (proj2 (proj2
    (clipboard_poll_emits_new_nonblank Example.started {| visible := true |}
       (js "A") (js "B") (js "C") [9; 32; 10]
       eq_refl _ _ _ _ _ _ eq_refl)))); discriminate.
Defined.

(** C10. With the window in place, a tick changes [copiedContent] only
    when it announces the text: a blank read or a repeated one leaves the
    whole state as it was.  So for a non-blank text [A] that is new, the
    reads [A], the empty string, [A] announce [A] once: the empty read did
    not reset [copiedContent], and the second [A] is a repetition. *)
Theorem clipboard_state_kept_without_emit
  (app : App) (w : BrowserWindow) (A : jsstring) :
  mainWindow app = Some w ->
  trim A <> [] -> A <> copiedContent app ->
  (forall r, snd (clipboardInterval r app) = [] ->
             fst (clipboardInterval r app) = app)
  /\ (forall r, r = copiedContent app \/ trim r = [] ->
                clipboardInterval r app = (app, []))
  /\ (forall r, fst (clipboardInterval r app) <> app ->
                clipboardInterval r app
                = (set_copiedContent app r, [Send (js "content-copied") [Str r]]))
  /\ clipboard_ticks [A; []; A] app
     = (set_copiedContent app A, [Send (js "content-copied") [Str A]]).
Proof.
  intros Hw HA HnA. split; [|split; [|split]].
  - intros r E. destruct (clipboardInterval_cases app r) as [[H1 H2] | H].
    + rewrite (clipboardInterval_emits app w Hw r H1 H2) in E. discriminate.
    + now rewrite (clipboardInterval_skips app r H).
  - intros r H. now apply clipboardInterval_skips.
  - intros r E. destruct (clipboardInterval_cases app r) as [[H1 H2] | H].
    + now apply (clipboardInterval_emits app w Hw).
    + rewrite (clipboardInterval_skips app r H) in E. now contradiction E.
  - cbn [clipboard_ticks].
    rewrite (clipboardInterval_emits app w Hw A HnA HA).
    set (a1 := set_copiedContent app A).
    rewrite (clipboardInterval_skips a1 [] (or_intror eq_refl)).
    rewrite (clipboardInterval_skips a1 A (or_introl eq_refl)).
    reflexivity.
Qed.

(** The text [note], on the state the timers start from. *)
Lemma clipboard_state_kept_without_emit_witness :
  clipboard_ticks [js "note"; []; js "note"] Example.started
  = (set_copiedContent Example.started (js "note"),
     [Send (js "content-copied") [Str (js "note")]]).
Proof.
  refine (proj2 (proj2 (proj2
    (clipboard_state_kept_without_emit Example.started {| visible := true |}
       (js "note") eq_refl _ _)))); discriminate.
Defined.

(** ** The presence monitor *)

Lemma set_presence_same (app : App) (w : BrowserWindow) :
  mainWindow app = Some w ->
  set_presence app (visible w) (isHiddenForFullscreen app) = app.
Proof.
  destruct app as [mw sw hh cc fl cf], w as [v]. cbn. intros ->. reflexivity.
Qed.

(** On Linux, with the window in place, a tick is the step of the
    specification at what the tick observes, after the query itself. *)
Lemma checkFullscreen_refines (h : Host) (app : App) (w : BrowserWindow) :
  platform h = js "linux" -> mainWindow app = Some w ->
  checkFullscreen h app
  = (let s' := fst (presence_step (observation h app) (presence app w)) in
     set_presence app (shown s') (hiddenForFullscreen s'),
     geometry_query :: snd (presence_step (observation h app) (presence app w))).
Proof.
  intros Hp Hw. unfold checkFullscreen, observation.
  rewrite Hw, Hp, str_eqb_refl. cbn [negb].
  destruct (exec_outcome h (js "/bin/sh") XDOTOOL) as [stdout stderr | m];
    cbn [presence_step fst snd presence shown hiddenForFullscreen];
    [|now rewrite (set_presence_same app w Hw)].
  destruct (fullscreen_test app stdout) as [[|]|];
    cbn [presence_step fst snd presence shown hiddenForFullscreen];
    try now rewrite (set_presence_same app w Hw).
  - rewrite andb_comm.
    destruct (visible w && negb (isHiddenForFullscreen app)) eqn:E; cbn;
      [reflexivity | now rewrite (set_presence_same app w Hw)].
  - rewrite andb_comm.
    destruct (negb (visible w) && isHiddenForFullscreen app) eqn:E; cbn;
      [reflexivity | now rewrite (set_presence_same app w Hw)].
Qed.

(** As long as only the monitor hides and shows the overlay, the flag
    tells whether it is hidden. *)
Lemma checkFullscreen_coherent (h : Host) (app : App) :
  coherent app -> coherent (fst (checkFullscreen h app)).
Proof.
  unfold coherent, checkFullscreen. intros C.
  destruct (mainWindow app) as [w|] eqn:Hw; cbn [fst]; [|now rewrite Hw].
  assert (Same : match mainWindow app with
                 | Some w' => isHiddenForFullscreen app = negb (visible w')
                 | None => True
                 end) by now rewrite Hw.
  destruct (negb (str_eqb (platform h) (js "linux"))); [exact Same|].
  destruct (exec_outcome h (js "/bin/sh") XDOTOOL) as [stdout stderr|m];
    [|exact Same].
  destruct (fullscreen_test app stdout) as [[|]|]; [| |exact Same].
  - destruct (negb (isHiddenForFullscreen app) && visible w);
      [reflexivity | exact Same].
  - destruct (isHiddenForFullscreen app && negb (visible w));
      [reflexivity | exact Same].
Qed.

(** C5. On Linux, with the window in place, a tick of the presence
    monitor is the guarded step on [PresenceState]: after the geometry
    query, the state and the window calls are those of [presence_step].
    A failed query changes nothing.  [hide] is called exactly when the
    active window fills the work area, the overlay is visible and the flag
    is clear, so further Fullscreen ticks on a hidden-for-fullscreen overlay
    call nothing.  [show] and [focus] are called exactly when it does not,
    the overlay is hidden and the flag is set, so NotFullscreen ticks on a
    visible overlay call nothing and an overlay hidden with the flag clear
    stays hidden. *)
Theorem presence_tick_is_guarded_step
  (h : Host) (app : App) (w : BrowserWindow) :
  platform h = js "linux" -> mainWindow app = Some w ->
  let o := observation h app in
  let s := presence app w in
  checkFullscreen h app
  = (set_presence app (shown (fst (presence_step o s)))
                      (hiddenForFullscreen (fst (presence_step o s))),
     geometry_query :: snd (presence_step o s))
  /\ (forall m, exec_outcome h (js "/bin/sh") XDOTOOL = ExecFailed m ->
                checkFullscreen h app = (app, [geometry_query]))
  /\ (In Hide (snd (checkFullscreen h app))
      <-> o = Fullscreen /\ visible w = true /\ isHiddenForFullscreen app = false)
  /\ (In Show (snd (checkFullscreen h app))
      <-> o = NotFullscreen /\ visible w = false /\ isHiddenForFullscreen app = true)
  /\ (o = Fullscreen -> visible w = true -> isHiddenForFullscreen app = false ->
      checkFullscreen h app = (set_presence app false true, [geometry_query; Hide]))
  /\ (o = NotFullscreen -> visible w = false -> isHiddenForFullscreen app = true ->
      checkFullscreen h app
      = (set_presence app true false, [geometry_query; Show; Focus]))
  /\ (o = Fullscreen -> isHiddenForFullscreen app = true ->
      checkFullscreen h app = (app, [geometry_query]))
  /\ (o = NotFullscreen -> visible w = true ->
      checkFullscreen h app = (app, [geometry_query]))
  /\ (o = NotFullscreen -> isHiddenForFullscreen app = false ->
      checkFullscreen h app = (app, [geometry_query]))
  /\ (let app' := fst (checkFullscreen h app) in
      mainWindow app' = Some {| visible := shown (fst (presence_step o s)) |}
      /\ isHiddenForFullscreen app' = hiddenForFullscreen (fst (presence_step o s))
      /\ screenWidth app' = screenWidth app
      /\ workAreaHeight app' = workAreaHeight app
      /\ copiedContent app' = copiedContent app
      /\ config app' = config app)
  /\ (o = Fullscreen -> visible w = true -> isHiddenForFullscreen app = false ->
      mainWindow (fst (checkFullscreen h app)) = Some {| visible := false |}
      /\ isHiddenForFullscreen (fst (checkFullscreen h app)) = true)
  /\ (o = NotFullscreen -> visible w = false -> isHiddenForFullscreen app = true ->
      mainWindow (fst (checkFullscreen h app)) = Some {| visible := true |}
      /\ isHiddenForFullscreen (fst (checkFullscreen h app)) = false).
Proof.
  intros Hp Hw o s.
  pose proof (checkFullscreen_refines h app w Hp Hw) as R.
  fold o s in R. cbv zeta in R.
  pose proof (set_presence_same app w Hw) as Same.
  assert (After : let app' := fst (checkFullscreen h app) in
                  mainWindow app'
                  = Some {| visible := shown (fst (presence_step o s)) |}
                  /\ isHiddenForFullscreen app'
                     = hiddenForFullscreen (fst (presence_step o s))
                  /\ screenWidth app' = screenWidth app
                  /\ workAreaHeight app' = workAreaHeight app
                  /\ copiedContent app' = copiedContent app
                  /\ config app' = config app).
  { cbv zeta. rewrite R. cbn [fst]. unfold set_presence.
    cbn [mainWindow isHiddenForFullscreen screenWidth workAreaHeight
         copiedContent config].
    repeat split. }
  assert (Hidden : o = Fullscreen -> visible w = true ->
                   isHiddenForFullscreen app = false ->
                   mainWindow (fst (checkFullscreen h app))
                   = Some {| visible := false |}
                   /\ isHiddenForFullscreen (fst (checkFullscreen h app)) = true).
  { intros Ho Hv Hf. destruct After as (A & B & _). rewrite A, B, Ho.
    subst s. unfold presence. cbn [presence_step shown hiddenForFullscreen].
    rewrite Hv, Hf. split; reflexivity. }
  assert (Shown : o = NotFullscreen -> visible w = false ->
                  isHiddenForFullscreen app = true ->
                  mainWindow (fst (checkFullscreen h app))
                  = Some {| visible := true |}
                  /\ isHiddenForFullscreen (fst (checkFullscreen h app)) = false).
  { intros Ho Hv Hf. destruct After as (A & B & _). rewrite A, B, Ho.
    subst s. unfold presence. cbn [presence_step shown hiddenForFullscreen].
    rewrite Hv, Hf. split; reflexivity. }
  split; [exact R|].
  split.
  { intros m Hm. subst o. unfold observation in R. rewrite Hm in R.
    cbn in R. now rewrite Same in R. }
  repeat match goal with |- _ /\ _ => split end;
    [.. | exact After | exact Hidden | exact Shown];
    clear After Hidden Shown;
    rewrite R; subst s; unfold presence;
    destruct o; cbn [presence_step shown hiddenForFullscreen fst snd];
    destruct (visible w) eqn:Ev, (isHiddenForFullscreen app) eqn:Ef;
    cbn [andb negb fst snd shown hiddenForFullscreen In];
    rewrite <- ?Ev, <- ?Ef, ?Same;
    repeat split; intros; try reflexivity; try discriminate; try congruence;
    repeat match goal with
           | H : _ \/ _ |- _ => destruct H
           | H : _ /\ _ |- _ => destruct H
           | H : False |- _ => destruct H
           end;
    try discriminate; try congruence; auto.
Qed.

(** A window that fills the 1920x1080 work area hides the visible
    overlay: the window is hidden and the flag is set. *)
Lemma presence_tick_is_guarded_step_witness :
  let tick :=
    checkFullscreen
      (Example.with_geometry (Exited (js "GEOMETRY:1920x1080+0+0") []))
      Example.started in
  snd tick = [geometry_query; Hide]
  /\ mainWindow (fst tick) = Some {| visible := false |}
  /\ isHiddenForFullscreen (fst tick) = true
  /\ copiedContent (fst tick) = []
  /\ config (fst tick) = Example.settings.
Proof.
  pose (T := presence_tick_is_guarded_step
               (Example.with_geometry (Exited (js "GEOMETRY:1920x1080+0+0") []))
               Example.started {| visible := true |} eq_refl eq_refl).
  cbv zeta. split; [|split; [|split; [|split]]].
  - exact (f_equal snd
             (proj1 (proj2 (proj2 (proj2 (proj2 T)))) eq_refl eq_refl eq_refl)).
  - exact (proj1 (proj1 (proj2 (proj2 (proj2 (proj2 (proj2 (proj2 (proj2
             (proj2 (proj2 (proj2 T))))))))))
             eq_refl eq_refl eq_refl)).
  - exact (proj2 (proj1 (proj2 (proj2 (proj2 (proj2 (proj2 (proj2 (proj2
             (proj2 (proj2 (proj2 T))))))))))
             eq_refl eq_refl eq_refl)).
  - exact (proj1 (proj2 (proj2 (proj2 (proj2
             (proj1 (proj2 (proj2 (proj2 (proj2 (proj2 (proj2 (proj2
                (proj2 (proj2 T))))))))))))))).
  - exact (proj2 (proj2 (proj2 (proj2 (proj2
             (proj1 (proj2 (proj2 (proj2 (proj2 (proj2 (proj2 (proj2
                (proj2 (proj2 T))))))))))))))).
Defined.

(** ** The completion call *)

Section Completion.

Variable h : Host.
Variable config : AppConfig.
Variable content : jsstring.
Variable isAction : bool.

Let request := completion_request config content isAction.
Let logged := ConsoleError (js "OpenRouter API Error:").

Lemma analyzeContent_no_key :
  apiKey config = [] ->
  analyzeContent h config content isAction = ([], inl (Str NO_API_KEY)).
Proof. intros E. unfold analyzeContent. now rewrite E. Qed.

Hypothesis key : apiKey config <> [].

(** With a key, the call is the request followed by what is made of the
    rejection [err] of [axios.post]. *)
Lemma analyzeContent_rejected (err : Thrown) (text : jsstring) :
  axios_post h request = ([HttpPost request], inr err) ->
  match err with
  | AxiosError _ (Some (status, _)) =>
      if status =? 401 then INVALID_API_KEY
      else if (status =? 404) || (status =? 400) then MODEL_UNAVAILABLE config
      else NETWORK_ERROR
  | _ => NETWORK_ERROR
  end = text ->
  analyzeContent h config content isAction
  = ([HttpPost request; logged err], inl (Str text)).
Proof using key.
  intros Hpost Htext. unfold analyzeContent.
  rewrite (proj2 (nonempty_true _) key). cbn [negb].
  fold request. rewrite Hpost. unfold bind at 1. unfold try_catch.
  subst text. unfold logged.
  destruct err as [f | m | m [[status data]|]]; try reflexivity.
  rewrite bind_emit.
  destruct (status =? 401); [reflexivity|].
  destruct ((status =? 404) || (status =? 400)); reflexivity.
Qed.

Lemma axios_post_status (status : N) (data : value) :
  http_outcome h request = HttpResponse status data ->
  (200 <=? status) && (status <? 300) = false ->
  axios_post h request
  = ([HttpPost request],
     inr (AxiosError (js "Request failed with status code " ++ N_to_js status)
                     (Some (status, data)))).
Proof.
  intros E R. unfold axios_post. rewrite E, R. reflexivity.
Qed.

Lemma axios_post_no_response (m : jsstring) :
  http_outcome h request = NoResponse m ->
  axios_post h request = ([HttpPost request], inr (AxiosError m None)).
Proof. intros E. unfold axios_post. now rewrite E. Qed.

Lemma axios_post_ok (status : N) (data : value) :
  http_outcome h request = HttpResponse status data ->
  (200 <=? status) && (status <? 300) = true ->
  axios_post h request = ([HttpPost request], inl data).
Proof. intros E R. unfold axios_post. rewrite E, R. reflexivity. Qed.

(** A response the server accepted but whose [choices] are missing, null
    or an empty list ends in the same text as a transport failure, after
    the error thrown inside the [try] has been logged: the [Error] with
    the no-choices message, or the TypeError of reading [choices] when the
    body itself is [null] or [undefined]. *)
Lemma analyzeContent_no_choices (status : N) (data : value) :
  http_outcome h request = HttpResponse status data ->
  (200 <=? status) && (status <? 300) = true ->
  field data "choices" = Undefined \/ field data "choices" = Null
  \/ field data "choices" = Arr [] ->
  analyzeContent h config content isAction
  = ([HttpPost request;
      logged (if nullish data
              then Raised (ReadOfNullish data (js "choices"))
              else ErrorObj (js "Invalid API response: No choices provided."))],
     inl (Str NETWORK_ERROR)).
Proof using key.
  intros E R Hc. unfold analyzeContent.
  rewrite (proj2 (nonempty_true _) key). cbn [negb].
  fold request. rewrite (axios_post_ok status data E R).
  destruct (nullish data) eqn:Hn.
  - destruct data; try discriminate; reflexivity.
  - rewrite bind_value. cbv beta.
    rewrite (get_field data "choices" Hn), bind_ret_l.
    destruct Hc as [-> | [-> | ->]]; reflexivity.
Qed.

End Completion.

(** C2, as the code has it.  Without an API key the completion call
    returns the no-key text and makes no call at all.  With a key it posts
    one request and logs the error it meets: a 401 response gives the text
    that begins with [Invalid API key]; a 400 or 404 response gives the
    model-unavailable text; a timeout or transport failure gives the
    network-error text; and an accepted response whose choice list is
    absent, null or empty gives that same network-error text.  In this
    last case what is logged, and only logged, is the [Error] with the
    message [Invalid API response: No choices provided.] when the body is
    not [null], and the TypeError of reading [choices] when it is. *)
Theorem completion_failures_classified
  (h : Host) (config : AppConfig) (content : jsstring) (isAction : bool) :
  let request := completion_request config content isAction in
  let run := analyzeContent h config content isAction in
  let logged := ConsoleError (js "OpenRouter API Error:") in
  (apiKey config = [] -> run = ([], inl (Str NO_API_KEY)))
  /\ (apiKey config <> [] ->
      (forall data, http_outcome h request = HttpResponse 401 data ->
         run = ([HttpPost request;
                 logged (AxiosError (js "Request failed with status code 401")
                                    (Some (401, data)))],
                inl (Str INVALID_API_KEY)))
      /\ (forall status data,
            http_outcome h request = HttpResponse status data ->
            status = 400 \/ status = 404 ->
            run = ([HttpPost request;
                    logged (AxiosError
                              (js "Request failed with status code "
                               ++ N_to_js status)
                              (Some (status, data)))],
                   inl (Str (MODEL_UNAVAILABLE config))))
      /\ (forall m, http_outcome h request = NoResponse m ->
            run = ([HttpPost request; logged (AxiosError m None)],
                   inl (Str NETWORK_ERROR)))
      /\ (forall status data,
            http_outcome h request = HttpResponse status data ->
            200 <= status < 300 ->
            field data "choices" = Undefined \/ field data "choices" = Null
            \/ field data "choices" = Arr [] ->
            (nullish data = false ->
             run = ([HttpPost request;
                     logged (ErrorObj
                               (js "Invalid API response: No choices provided."))],
                    inl (Str NETWORK_ERROR)))
            /\ (nullish data = true ->
                run = ([HttpPost request;
                        logged (Raised (ReadOfNullish data (js "choices")))],
                       inl (Str NETWORK_ERROR)))))
  /\ startsWith INVALID_API_KEY (js "Invalid API key") = true.
Proof.
  intros request run logged. split; [|split; [|reflexivity]].
  - apply analyzeContent_no_key.
  - intros key. split; [|split; [|split]].
    + intros data E.
      apply (analyzeContent_rejected h config content isAction key _ _
               (axios_post_status h config content isAction 401 data E eq_refl)).
      reflexivity.
    + intros status data E Hs.
      assert (R : (200 <=? status) && (status <? 300) = false)
        by (destruct Hs; subst; reflexivity).
      apply (analyzeContent_rejected h config content isAction key _ _
               (axios_post_status h config content isAction status data E R)).
      destruct Hs; subst; reflexivity.
    + intros m E.
      apply (analyzeContent_rejected h config content isAction key _ _
               (axios_post_no_response h config content isAction m E)).
      reflexivity.
    + intros status data E [Hlo Hhi] Hc.
      assert (R : (200 <=? status) && (status <? 300) = true)
        by (apply andb_true_iff; split; [now apply N.leb_le | now apply N.ltb_lt]).
      pose proof (analyzeContent_no_choices h config content isAction key
                    status data E R Hc) as G.
      fold request run logged in G.
      split; intros Hn; rewrite Hn in G; exact G.
Qed.

(** An accepted response without choices, on the example settings. *)
Lemma completion_failures_classified_witness :
  analyzeContent (Example.answering (HttpResponse 200 (Obj [])))
    Example.settings (js "hello") true
  = ([HttpPost (completion_request Example.settings (js "hello") true);
      ConsoleError (js "OpenRouter API Error:")
        (ErrorObj (js "Invalid API response: No choices provided."))],
     inl (Str NETWORK_ERROR)).
Proof.
  refine (proj1 (proj2 (proj2 (proj2 (proj1 (proj2
    (completion_failures_classified
       (Example.answering (HttpResponse 200 (Obj [])))
       Example.settings (js "hello") true)) _)))
    200 (Obj []) eq_refl _ (or_introl eq_refl)) eq_refl).
  - discriminate.
  - split; [discriminate | reflexivity].
Defined.

(** Counterexample to C2 as stated: an accepted response with an empty
    choice list and a timeout end in one and the same result; the
    no-choices message goes to the console and nowhere else. *)
Lemma malformed_response_is_not_distinct :
  fst (analyzeContent
         (Example.answering (HttpResponse 200 (Obj [(js "choices", Arr [])])))
         Example.settings (js "hello") true)
  = [HttpPost (completion_request Example.settings (js "hello") true);
     ConsoleError (js "OpenRouter API Error:")
       (ErrorObj (js "Invalid API response: No choices provided."))]
  /\ snd (analyzeContent
         (Example.answering (HttpResponse 200 (Obj [(js "choices", Arr [])])))
         Example.settings (js "hello") true)
  = inl (Str NETWORK_ERROR)
  /\ snd (analyzeContent
            (Example.answering (NoResponse (js "timeout of 15000ms exceeded")))
            Example.settings (js "hello") true)
     = inl (Str NETWORK_ERROR)
  /\ snd (analyzeContent
            (Example.answering (HttpResponse 200 (Obj [(js "choices", Arr [])])))
            Example.settings (js "hello") true)
     = snd (analyzeContent
              (Example.answering (NoResponse (js "timeout of 15000ms exceeded")))
              Example.settings (js "hello") true).
Proof. repeat split; reflexivity. Qed.

(** ** Handlers keep their errors *)

Lemma try_catch_returns {A} (m : M A) (handler : Thrown -> M A) :
  (forall e, exists t a, handler e = (t, inl a)) ->
  exists t a, try_catch m handler = (t, inl a).
Proof.
  intros H. destruct m as [t1 [a | e]]; cbn.
  - now exists t1, a.
  - destruct (H e) as (t2 & a & ->). now exists (t1 ++ t2), a.
Qed.

(** [executeAction] never rejects: its last [catch] turns every error into
    a result text. *)
Lemma executeAction_returns (h : Host) (actionData : value) :
  exists t result, executeAction h actionData = (t, inl result).
Proof.
  apply try_catch_returns. intros e. rewrite bind_emit.
  do 2 eexists. reflexivity.
Qed.

(** [analyzeContent] never rejects either. *)
Lemma analyzeContent_returns (h : Host) (config : AppConfig)
  (content : jsstring) (isAction : bool) :
  exists t result, analyzeContent h config content isAction = (t, inl result).
Proof.
  unfold analyzeContent. destruct (negb (nonempty (apiKey config))).
  - do 2 eexists. reflexivity.
  - apply try_catch_returns. intros e. rewrite bind_emit.
    destruct e as [f | m | m [[status data]|]];
      try (do 2 eexists; reflexivity).
    destruct (status =? 401); [do 2 eexists; reflexivity|].
    destruct ((status =? 404) || (status =? 400)); do 2 eexists; reflexivity.
Qed.

(** ** The action handlers *)

Lemma field_str_not_nullish (v : value) (k : string) (s : jsstring) :
  field v k = Str s -> nullish v = false.
Proof. destruct v; cbn; congruence. Qed.

(** Settles the tests [action === 'literal'] on a known action name. *)
Ltac decide_action :=
  repeat match goal with
         | |- context [is_str (Str ?a) ?b] =>
             let r := eval vm_compute in (is_str (Str a) b) in
             change (is_str (Str a) b) with r
         | |- context [includes ?l (Str ?a)] =>
             let r := eval vm_compute in (includes l (Str a)) in
             change (includes l (Str a)) with r
         end;
  cbv iota.

(** The first reads of a handler: [actionData.action], then [params]. *)
Ltac read_action Ha Hp :=
  rewrite (get_field _ "action" (field_str_not_nullish _ _ _ Ha)), bind_ret_l, Ha;
  decide_action;
  rewrite (get_field _ "params" (field_str_not_nullish _ _ _ Ha)), bind_ret_l;
  rewrite (get_field _ _ Hp), bind_ret_l.

(** C8. For a [text] of 80 code units, [copy_text] writes the whole text to
    the clipboard and returns [Copied: ], the first 50 code units of the
    text and three dots. *)
Theorem copy_text_truncates_result_only
  (h : Host) (actionData : value) (text : jsstring) :
  field actionData "action" = Str (js "copy_text") ->
  field (field actionData "params") "text" = Str text ->
  length text = 80%nat ->
  executeAction h actionData
  = ([ClipboardWrite text],
     inl (Str (js "Copied: " ++ firstn 50 text ++ js "...")))
  /\ length (firstn 50 text) = 50%nat
  /\ clipboard_after h (fst (executeAction h actionData)) [] = text
  /\ length (clipboard_after h (fst (executeAction h actionData)) []) = 80%nat.
Proof.
  intros Ha Ht Hlen.
  assert (Hp : nullish (field actionData "params") = false)
    by exact (field_str_not_nullish _ _ _ Ht).
  assert (E : executeAction h actionData
              = ([ClipboardWrite text],
                 inl (Str (js "Copied: " ++ firstn 50 text ++ js "...")))).
  { unfold executeAction. read_action Ha Hp. rewrite Ht. reflexivity. }
  rewrite E. repeat split.
  - rewrite length_firstn, Hlen. reflexivity.
  - exact Hlen.
Qed.

(** Eighty digits. *)
Lemma copy_text_truncates_result_only_witness :
  let text := js "01234567890123456789012345678901234567890123456789012345678901234567890123456789" in
  executeAction Example.host
    (Obj [(js "action", Str (js "copy_text"));
          (js "params", Obj [(js "text", Str text)])])
  = ([ClipboardWrite text],
     inl (Str (js "Copied: 01234567890123456789012345678901234567890123456789..."))).
Proof.
  exact (proj1 (copy_text_truncates_result_only Example.host
    (Obj [(js "action", Str (js "copy_text"));
          (js "params", Obj [(js "text", Str (js "01234567890123456789012345678901234567890123456789012345678901234567890123456789"))])])
    (js "01234567890123456789012345678901234567890123456789012345678901234567890123456789")
    eq_refl eq_refl eq_refl)).
Defined.

(** [open_url], by what [params.url] is. *)
Lemma executeAction_open_url (h : Host) (actionData : value) :
  field actionData "action" = Str (js "open_url") ->
  nullish (field actionData "params") = false ->
  executeAction h actionData
  = match field (field actionData "params") "url" with
    | Str u =>
        if startsWith u (js "http") then
          match openExternal_outcome h u with
          | None => ([OpenExternal u], inl (Str (js "Opened: " ++ u)))
          | Some m =>
              (OpenExternal u :: fst (action_error h (ErrorObj m)),
               snd (action_error h (ErrorObj m)))
          end
        else ([], inl (Str (js "Invalid URL provided.")))
    | url =>
        if truthy url
        then action_error h (Raised (NotAFunction (js "url.startsWith")))
        else ([], inl (Str (js "Invalid URL provided.")))
    end.
Proof.
  intros Ha Hp. unfold executeAction. read_action Ha Hp.
  destruct (field (field actionData "params") "url") as [| |b|n|u|l|ps];
    try reflexivity.
  - destruct b; reflexivity.
  - cbn [truthy]. destruct (negb (number_is_zero n)); reflexivity.
  - cbn [truthy]. destruct u as [|c u]; [reflexivity|]. cbn [nonempty].
    destruct (startsWith (c :: u) (js "http")); [|reflexivity].
    unfold shell_openExternal. rewrite bind_emit.
    destruct (openExternal_outcome h (c :: u)); reflexivity.
Qed.

(** C7. [open_url] calls [shell.openExternal] exactly when [params.url] is
    a string that begins with [http], and then once, on that string; for
    every other string, and when [url] is missing or falsy, it calls
    nothing and returns [Invalid URL provided.]. *)
Theorem open_url_only_http (h : Host) (actionData : value) :
  field actionData "action" = Str (js "open_url") ->
  nullish (field actionData "params") = false ->
  let url := field (field actionData "params") "url" in
  let run := executeAction h actionData in
  ((exists x, In (OpenExternal x) (fst run))
   <-> (exists u, url = Str u /\ startsWith u (js "http") = true))
  /\ (forall x, In (OpenExternal x) (fst run) -> url = Str x)
  /\ (forall u, url = Str u -> startsWith u (js "http") = true ->
        exists rest, fst run = OpenExternal u :: rest
                     /\ forall x, ~ In (OpenExternal x) rest)
  /\ (forall u, url = Str u -> startsWith u (js "http") = true ->
        openExternal_outcome h u = None ->
        run = ([OpenExternal u], inl (Str (js "Opened: " ++ u))))
  /\ (forall u, url = Str u -> startsWith u (js "http") = false ->
        run = ([], inl (Str (js "Invalid URL provided."))))
  /\ (truthy url = false -> run = ([], inl (Str (js "Invalid URL provided.")))).
Proof.
  intros Ha Hp url run.
  pose proof (executeAction_open_url h actionData Ha Hp) as E.
  fold url run in E.
  assert (Hin : forall x, In (OpenExternal x) (fst run) ->
                          url = Str x /\ startsWith x (js "http") = true).
  { intros x. rewrite E.
    destruct url as [| |b|n|u|l|ps]; cbn [truthy];
      [ | | destruct b | destruct (negb (number_is_zero n)) | | | ];
      try (cbn; intros H; repeat destruct H as [H | H];
           discriminate || contradiction).
    destruct (startsWith u (js "http")) eqn:S; [|intros []].
    destruct (openExternal_outcome h u); cbn.
    - intros [H | [H | []]]; [|discriminate]. injection H as ->. now split.
    - intros [H | []]. injection H as ->. now split. }
  assert (Hopen : forall u, url = Str u -> startsWith u (js "http") = true ->
            exists rest, fst run = OpenExternal u :: rest
                         /\ forall x, ~ In (OpenExternal x) rest).
  { intros u Hu S. rewrite E, Hu, S.
    destruct (openExternal_outcome h u); cbn; eexists; split;
      try reflexivity; intros x; cbn; intros H;
      repeat destruct H as [H | H]; try discriminate; auto. }
  split; [split|split; [|split; [|split; [|split]]]].
  - intros [x Hx]. exists x. now apply Hin.
  - intros (u & Hu & S). destruct (Hopen u Hu S) as (rest & -> & _).
    exists u. now left.
  - intros x Hx. now apply Hin.
  - exact Hopen.
  - intros u Hu S Hok. now rewrite E, Hu, S, Hok.
  - intros u Hu S. now rewrite E, Hu, S.
  - intros Hu. rewrite E.
    destruct url as [| |b|n|u|l|ps]; cbn [truthy] in *;
      [ | | | | destruct u; [|discriminate] | | ];
      try rewrite Hu; try reflexivity; discriminate.
Qed.

(** The [file:] URL of the specification's example. *)
Lemma open_url_only_http_witness :
  executeAction Example.host
    (Obj [(js "action", Str (js "open_url"));
          (js "params", Obj [(js "url", Str (js "file:///etc/passwd"))])])
  = ([], inl (Str (js "Invalid URL provided."))).
Proof.
  exact (proj1 (proj2 (proj2 (proj2 (proj2
    (open_url_only_http Example.host
       (Obj [(js "action", Str (js "open_url"));
             (js "params", Obj [(js "url", Str (js "file:///etc/passwd"))])])
       eq_refl eq_refl)))))
    (js "file:///etc/passwd") eq_refl eq_refl).
Defined.

(** ** The dispatcher *)

Lemma JSON_parse_str (h : Host) (reply : jsstring) :
  JSON_parse h (Str reply)
  = match JSON.parse_text reply with
    | Some parsed => ret parsed
    | None => throw (Raised JsonSyntax)
    end.
Proof. unfold JSON_parse, ToString. cbn [ToString_opt]. apply bind_ret_l. Qed.

(** C3. A reply that [JSON.parse] rejects is sent as it is on
    [ask-complete], and the handler ends without an error. *)
Theorem non_json_reply_is_plain_text
  (h : Host) (copied reply : jsstring) :
  JSON.parse_text reply = None ->
  dispatch h copied (Str reply)
  = ([Send (js "ask-complete") [Str reply]], inl tt).
Proof.
  intros E. unfold dispatch. rewrite JSON_parse_str, E. reflexivity.
Qed.

(** Prose is not JSON. *)
Lemma non_json_reply_is_plain_text_witness :
  dispatch Example.host [] (Str (js "Paris is the capital of France."))
  = ([Send (js "ask-complete") [Str (js "Paris is the capital of France.")]],
     inl tt).
Proof.
  exact (non_json_reply_is_plain_text Example.host []
           (js "Paris is the capital of France.") eq_refl).
Defined.

Lemma includes_false_cons (a : jsstring) (l : list jsstring) (v : value) :
  includes (a :: l) v = false -> is_str v a = false /\ includes l v = false.
Proof. unfold includes. cbn [existsb]. apply orb_false_iff. Qed.

(** An action outside [ActionKind] that is not [type_text] either passes
    none of the dispatcher's tests. *)
Lemma unknown_action_tests (action : value) :
  includes ActionKind action = false ->
  is_str action (js "type_text") = false ->
  is_str action (js "replace_text") = false
  /\ includes silentActions action = false
  /\ is_str action (js "analysis") = false.
Proof.
  intros H Ht. unfold ActionKind in H. cbn [map] in H.
  repeat match type of H with
         | includes (_ :: _) _ = false =>
             let H1 := fresh "K" in
             apply includes_false_cons in H as [H1 H]
         end.
  repeat split; try assumption.
  unfold silentActions, includes. cbn [map existsb].
  rewrite K1, K4, Ht, K2, K3, K, K0. reflexivity.
Qed.

(** C1, as the code has it.  When the reply parses to a value other than
    [null] whose [action] is neither in [ActionKind] nor [type_text], the
    dispatcher sends one [ask-complete] message and does nothing else: the
    message is the reply's own top-level [response] when that is truthy,
    and [Action completed.] otherwise; [executeAction] is not called and
    the handler ends without an error. *)
Theorem unknown_action_falls_back_to_text
  (h : Host) (copied reply : jsstring) (v : value) :
  JSON.parse_text reply = Some v ->
  v <> Null ->
  includes ActionKind (field v "action") = false ->
  is_str (field v "action") (js "type_text") = false ->
  dispatch h copied (Str reply)
  = ([Send (js "ask-complete")
        [or_else (field v "response") (Str (js "Action completed."))]],
     inl tt).
Proof.
  intros E Hnull Hk Ht.
  assert (Hn : nullish v = false).
  { pose proof (JSONFacts.parse_text_defined reply v E).
    destruct v; congruence || reflexivity. }
  destruct (unknown_action_tests _ Hk Ht) as (T1 & T2 & T3).
  unfold dispatch. rewrite JSON_parse_str, E, bind_ret_l.
  rewrite (get_field v "action" Hn), bind_ret_l, T1, T2, T3.
  rewrite (get_field v "response" Hn), bind_ret_l. reflexivity.
Qed.

(** The unknown action of the specification's example. *)
Lemma unknown_action_falls_back_to_text_witness :
  dispatch Example.host []
    (Str (jq "{`action`:`delete_everything`,`params`:{}}"))
  = ([Send (js "ask-complete") [Str (js "Action completed.")]], inl tt).
Proof.
  exact (unknown_action_falls_back_to_text Example.host []
           (jq "{`action`:`delete_everything`,`params`:{}}")
           (Obj [(js "action", Str (js "delete_everything"));
                 (js "params", Obj [])])
           eq_refl ltac:(discriminate) eq_refl eq_refl).
Defined.

(** Counterexample to C1 as stated.  A [response] inside [params] is not shown: the
    reply is answered with [Action completed.]; it is the top-level
    [response] that is shown.  And [type_text], which is not in
    [ActionKind], is handed to [executeAction] and reported on
    [action-completed]. *)
Lemma unknown_action_ignores_params_response :
  dispatch Example.host []
    (Str (jq "{`action`:`delete_everything`,`params`:{`response`:`done`}}"))
  = ([Send (js "ask-complete") [Str (js "Action completed.")]], inl tt)
  /\ dispatch Example.host []
       (Str (jq "{`action`:`delete_everything`,`params`:{`response`:`done`}}"))
     <> ([Send (js "ask-complete") [Str (js "done")]], inl tt)
  /\ dispatch Example.host []
       (Str (jq "{`action`:`delete_everything`,`response`:`done`}"))
     = ([Send (js "ask-complete") [Str (js "done")]], inl tt)
  /\ dispatch Example.host []
       (Str (jq "{`action`:`type_text`,`params`:{`text`:`hi`}}"))
     = ([Send (js "action-completed") [Str (js "Action completed.")]], inl tt).
Proof. repeat split; try reflexivity. discriminate. Qed.

(** ** Replacing the selected text *)




(** [confirm-replacement], by the first keystroke call that fails. *)
Lemma confirm_replacement_cases (h : Host) (text : jsstring) :
  let failed pre call m :=
    (ClipboardWrite text
       :: pre ++ [call; ConsoleError (js "Replacement error:") (ErrorObj m)],
     inl tt) in
  let px := PressKey [LeftControl; X] in
  let rx := ReleaseKey [LeftControl; X] in
  let pv := PressKey [LeftControl; V] in
  let rv := ReleaseKey [LeftControl; V] in
  confirm_replacement h (Str text)
  = match keyboard_outcome h px with
    | Some m => failed [] px m
    | None =>
        match keyboard_outcome h rx with
        | Some m => failed [px] rx m
        | None =>
            match keyboard_outcome h pv with
            | Some m => failed [px; rx] pv m
            | None =>
                match keyboard_outcome h rv with
                | Some m => failed [px; rx; pv] rv m
                | None => (ClipboardWrite text :: replacement_keystrokes, inl tt)
                end
            end
        end
    end.
Proof.
  cbv zeta. unfold confirm_replacement, keyboard, clipboard_writeText.
  rewrite !bind_emit.
  destruct (keyboard_outcome h (PressKey [LeftControl; X])); [reflexivity|].
  destruct (keyboard_outcome h (ReleaseKey [LeftControl; X])); [reflexivity|].
  destruct (keyboard_outcome h (PressKey [LeftControl; V])); [reflexivity|].
  destruct (keyboard_outcome h (ReleaseKey [LeftControl; V])); reflexivity.
Qed.

(** C9, as the code has it.  [confirm-replacement] writes the new text
    to the clipboard first and never writes to it again.  Whatever the
    keystroke calls answer, the handler ends without an error and sends
    nothing to the renderer; when a call fails, the calls after it are not
    made and the error is logged to the console.  Nothing is put back:
    the clipboard is left holding the new text when the press of Ctrl+X did
    not go through or had nothing to cut, and the text that was cut when
    it did. *)
Theorem failed_replacement_is_not_rolled_back
  (h : Host) (text before : jsstring) :
  let run := confirm_replacement h (Str text) in
  snd run = inl tt
  /\ (exists rest,
        fst run = ClipboardWrite text :: rest
        /\ forallb (fun e => negb (is_send e) && negb (is_clipboard_write e))
             rest = true)
  /\ (forall pre call post m,
        replacement_keystrokes = pre ++ call :: post ->
        (forall c, In c pre -> keyboard_outcome h c = None) ->
        keyboard_outcome h call = Some m ->
        run = (ClipboardWrite text
                 :: pre ++ [call; ConsoleError (js "Replacement error:") (ErrorObj m)],
               inl tt))
  /\ ((exists m, keyboard_outcome h (PressKey [LeftControl; X]) = Some m)
      \/ highlighted h = None ->
      clipboard_after h (fst run) before = text)
  /\ (forall cut,
        keyboard_outcome h (PressKey [LeftControl; X]) = None ->
        highlighted h = Some cut ->
        clipboard_after h (fst run) before = cut).
Proof.
  intros run. pose proof (confirm_replacement_cases h text) as E.
  cbv zeta in E. fold run in E.
  split; [|split; [|split; [|split]]].
  - rewrite E. repeat destruct (keyboard_outcome h _); reflexivity.
  - rewrite E. repeat destruct (keyboard_outcome h _);
      eexists; split; reflexivity.
  - intros pre call post m Hsplit Hpre Hcall. unfold replacement_keystrokes in Hsplit.
    destruct pre as [|p1 [|p2 [|p3 [|p4 pre]]]]; cbn [app] in Hsplit;
      injection Hsplit as; subst.
    + rewrite E, Hcall. reflexivity.
    + rewrite E, (Hpre _ (or_introl eq_refl)), Hcall. reflexivity.
    + rewrite E, (Hpre _ (or_introl eq_refl)),
        (Hpre _ (or_intror (or_introl eq_refl))), Hcall. reflexivity.
    + rewrite E, (Hpre _ (or_introl eq_refl)),
        (Hpre _ (or_intror (or_intror (or_introl eq_refl)))),
        (Hpre _ (or_intror (or_introl eq_refl))), Hcall.
      reflexivity.
    + destruct pre; discriminate.
  - intros Hx. rewrite E.
    destruct (keyboard_outcome h (PressKey [LeftControl; X])) eqn:Kx;
      [cbn; now rewrite Kx|].
    destruct Hx as [[m Hm] | Hnone]; [discriminate|].
    destruct (keyboard_outcome h (ReleaseKey [LeftControl; X])) eqn:Krx;
      [cbn; now rewrite Kx, Hnone|].
    destruct (keyboard_outcome h (PressKey [LeftControl; V])) eqn:Kv;
      [cbn; now rewrite Kx, Hnone|].
    destruct (keyboard_outcome h (ReleaseKey [LeftControl; V])) eqn:Krv;
      cbn; now rewrite Kx, Hnone.
  - intros cut Kx Hcut. rewrite E, Kx.
    destruct (keyboard_outcome h (ReleaseKey [LeftControl; X])) eqn:Krx;
      [cbn; now rewrite Kx, Hcut|].
    destruct (keyboard_outcome h (PressKey [LeftControl; V])) eqn:Kv;
      [cbn; now rewrite Kx, Hcut|].
    destruct (keyboard_outcome h (ReleaseKey [LeftControl; V])) eqn:Krv;
      cbn; now rewrite Kx, Hcut.
Qed.

(** The cut itself fails, with a word highlighted: the clipboard holds
    the new text. *)
Lemma failed_replacement_is_not_rolled_back_witness :
  let h := Example.cutting (js "teh")
             (fun c => match c with PressKey [LeftControl; X] => true | _ => false end)
             (js "keyboard unavailable") in
  confirm_replacement h (Str (js "the"))
  = ([ClipboardWrite (js "the"); PressKey [LeftControl; X];
      ConsoleError (js "Replacement error:") (ErrorObj (js "keyboard unavailable"))],
     inl tt)
  /\ clipboard_after h (fst (confirm_replacement h (Str (js "the")))) (js "old")
     = js "the".
Proof.
  pose (T := failed_replacement_is_not_rolled_back
               (Example.cutting (js "teh")
                  (fun c => match c with
                            | PressKey [LeftControl; X] => true
                            | _ => false
                            end)
                  (js "keyboard unavailable"))
               (js "the") (js "old")).
  cbv zeta. split.
  - refine (proj1 (proj2 (proj2 T)) [] (PressKey [LeftControl; X])
              [ReleaseKey [LeftControl; X]; PressKey [LeftControl; V];
               ReleaseKey [LeftControl; V]]
              (js "keyboard unavailable") eq_refl _ eq_refl).
    intros c [].
  - exact (proj1 (proj2 (proj2 (proj2 T)))
             (or_introl (ex_intro _ (js "keyboard unavailable") eq_refl))).
Defined.

(** Counterexample to C9 as stated: the paste fails after the cut went
    through.  The error is swallowed, and the clipboard holds the word
    that was cut, not the new text. *)
Lemma cut_replaces_the_new_clipboard :
  let h := Example.cutting (js "teh")
             (fun c => match c with PressKey [LeftControl; V] => true | _ => false end)
             (js "keyboard unavailable") in
  let run := confirm_replacement h (Str (js "the")) in
  run = ([ClipboardWrite (js "the");
          PressKey [LeftControl; X]; ReleaseKey [LeftControl; X];
          PressKey [LeftControl; V];
          ConsoleError (js "Replacement error:")
            (ErrorObj (js "keyboard unavailable"))],
         inl tt)
  /\ clipboard_after h (fst run) (js "old") = js "teh"
  /\ clipboard_after h (fst run) (js "old") <> js "the".
Proof. cbv zeta. split; [reflexivity|]. split; [reflexivity | discriminate]. Qed.

(** ** The whole [ask-ai] handler *)

(** Before the window exists the handler does nothing. *)
Lemma ask_ai_without_window (h : Host) (app : App) (query copied : jsstring) :
  mainWindow app = None -> ask_ai h app query copied = ([], inl tt).
Proof. intros E. unfold ask_ai. now rewrite E. Qed.

(** Without an API key the user is told so, and no request leaves. *)
Lemma ask_ai_without_key
  (h : Host) (app : App) (w : BrowserWindow) (query copied : jsstring) :
  mainWindow app = Some w -> apiKey (config app) = [] ->
  ask_ai h app query copied
  = ([Send (js "analyzing") []; Send (js "ask-complete") [Str NO_API_KEY]],
     inl tt).
Proof.
  intros Hw Hk. unfold ask_ai. rewrite Hw.
  rewrite (analyzeContent_no_key h (config app) _ true Hk).
  reflexivity.
Qed.

(** The handler never rejects: what goes wrong inside the [try] is shown
    as text. *)
Lemma dispatch_returns (h : Host) (copied : jsstring) (response : value) :
  exists t u, dispatch h copied response = (t, inl u).
Proof.
  apply try_catch_returns. intros e. do 2 eexists. reflexivity.
Qed.

(** ** The examples of the specification, run *)

Example parse_action_envelope :
  JSON.parse_text
    (jq "{`action`:`open_url`,`params`:{`url`:`file:///etc/passwd`}}")
  = Some (Obj [(js "action", Str (js "open_url"));
               (js "params", Obj [(js "url", Str (js "file:///etc/passwd"))])]).
Proof. reflexivity. Qed.

Example parse_scalars_and_nesting :
  JSON.parse_text (jq " [1, -2.50e+3, true, null, `aA`, {`k`: []}] ")
  = Some (Arr [Number {| neg := false; mantissa := 1; exp10 := 0 |};
               Number {| neg := true; mantissa := 250; exp10 := 1 |};
               Bool true; Null; Str (js "aA");
               Obj [(js "k", Arr [])]]).
Proof. reflexivity. Qed.

Example parse_rejects :
  map JSON.parse_text
    [js "Sure, here you go"; js ""; js "01"; js "1."; js "[1,]"; jq "{`a`:1,}";
     jq "{`a` 1}"; js "[[]"; js "nul"; js "1 2"; jq "`abc"]
  = [None; None; None; None; None; None; None; None; None; None; None].
Proof. reflexivity. Qed.

(** A [file:] URL sent by the model is refused and nothing is opened. *)
Example dispatch_refuses_file_url :
  dispatch Example.host []
    (Str (jq "{`action`:`open_url`,`params`:{`url`:`file:///etc/passwd`}}"))
  = ([Send (js "action-completed") [Str (js "Invalid URL provided.")]], inl tt).
Proof. reflexivity. Qed.

(** [echo hi] on a host whose shell prints [hi]. *)
Example dispatch_runs_command :
  dispatch
    {| platform := js "linux";
       exec_outcome := fun _ _ => Exited (js "hi" ++ [10]) [];
       openExternal_outcome := openExternal_outcome Example.host;
       http_outcome := http_outcome Example.host;
       keyboard_outcome := keyboard_outcome Example.host;
       highlighted := highlighted Example.host;
       fault_message := fault_message Example.host;
       Number_toString := Number_toString Example.host;
       coerced_gt_zero := coerced_gt_zero Example.host |}
    [] (Str (jq "{`action`:`run_command`,`params`:{`command`:`echo hi`}}"))
  = ([ConsoleLog (js "Executing command:") (Str (js "echo hi"));
      Exec (js "/bin/bash") (js "echo hi");
      ConsoleLog (js "Command stdout:") (Str (js "hi" ++ [10]));
      Send (js "analysis-complete")
        [Str (js "Executed: echo hi" ++ [10; 10] ++ js "Output:" ++ [10]
              ++ js "hi" ++ [10])]],
     inl tt).
Proof. reflexivity. Qed.


(** * More of the main process *)

(** ** What a computation's effects can be *)

Section Effects.

Variable p : Effect -> bool.

Lemma only_ret {A} (a : A) : only p (ret a).
Proof. reflexivity. Qed.

Lemma only_throw {A} (e : Thrown) : only p (@throw A e).
Proof. reflexivity. Qed.

Lemma only_emit (e : Effect) : p e = true -> only p (emit e).
Proof. intros H. unfold only. cbn. now rewrite H. Qed.

Lemma only_bind {A B} (m : M A) (k : A -> M B) :
  only p m -> (forall a, only p (k a)) -> only p (bind m k).
Proof.
  unfold only. destruct m as [t1 [a | e]]; cbn; intros H1 H2; [|exact H1].
  specialize (H2 a). destruct (k a) as [t2 r]. cbn in *.
  rewrite forallb_app. now rewrite H1, H2.
Qed.

Lemma only_try_catch {A} (m : M A) (handler : Thrown -> M A) :
  only p m -> (forall e, only p (handler e)) -> only p (try_catch m handler).
Proof.
  unfold only. destruct m as [t1 [a | e]]; cbn; intros H1 H2; [exact H1|].
  specialize (H2 e). destruct (handler e) as [t2 r]. cbn in *.
  rewrite forallb_app. now rewrite H1, H2.
Qed.

Lemma only_get (v : value) (k : string) : only p (get v k).
Proof.
  destruct v; try reflexivity. cbn.
  destruct (own_property (js k) properties); reflexivity.
Qed.

Lemma only_ToString (h : Host) (v : value) : only p (ToString h v).
Proof. unfold ToString. destruct (ToString_opt _ v); reflexivity. Qed.

Lemma only_encodeURIComponent (h : Host) (v : value) :
  only p (encodeURIComponent h v).
Proof.
  apply only_bind; [apply only_ToString|]. intros s.
  destruct (encodeURIComponent_opt s); reflexivity.
Qed.

Lemma only_JSON_parse (h : Host) (v : value) : only p (JSON_parse h v).
Proof.
  apply only_bind; [apply only_ToString|]. intros s.
  destruct (JSON.parse_text s); reflexivity.
Qed.

Lemma only_gt_zero (h : Host) (v : value) : only p (gt_zero h v).
Proof.
  destruct v; try reflexivity; cbn; destruct (coerced_gt_zero h _); reflexivity.
Qed.

Hypothesis outside : forall e, is_outside_call e = true -> p e = true.
Hypothesis console : forall e, is_console e = true -> p e = true.

Lemma only_clipboard_writeText (v : value) : only p (clipboard_writeText v).
Proof using outside.
  destruct v; try reflexivity. apply only_emit, outside. reflexivity.
Qed.

Lemma only_shell_openExternal (h : Host) (url : jsstring) :
  only p (shell_openExternal h url).
Proof using outside.
  apply only_bind; [apply only_emit, outside; reflexivity|]. intros _.
  destruct (openExternal_outcome h url); reflexivity.
Qed.

Lemma only_execAsync (h : Host) (command : value) : only p (execAsync h command).
Proof using outside.
  destruct command; try reflexivity.
  unfold execAsync. destruct (exec_accepts s); [|reflexivity].
  apply only_bind; [apply only_emit, outside; reflexivity|]. intros _.
  destruct (exec_outcome h _ s); reflexivity.
Qed.

(** Every effect of [executeAction] is an outside call or console output. *)
Lemma only_executeAction (h : Host) (actionData : value) :
  only p (executeAction h actionData).
Proof using outside console.
  unfold executeAction.
  repeat first
    [ progress intros
    | apply only_ret | apply only_throw | apply only_get | apply only_ToString
    | apply only_encodeURIComponent | apply only_clipboard_writeText
    | apply only_shell_openExternal | apply only_execAsync
    | apply only_emit; first [ apply console; reflexivity | apply outside; reflexivity ]
    | apply only_try_catch | apply only_bind
    | match goal with
      | |- only _ (if ?b then _ else _) => destruct b
      | |- only _ (let (_, _) := ?x in _) => destruct x
      | |- only _ (match ?x with _ => _ end) => destruct x
      end ].
Qed.

End Effects.

(** ** How many outside calls a computation makes *)

Lemma calls_of_none {A} (n : nat) (m : M A) : only no_call m -> calls_at_most n m.
Proof.
  unfold only, calls_at_most, no_call. intros H.
  induction (fst m) as [|e t IH]; cbn in *; [lia|].
  apply andb_true_iff in H as [He Ht].
  destruct (is_outside_call e); [discriminate | now apply IH].
Qed.

Lemma calls_bind {A B} (a b : nat) (m : M A) (k : A -> M B) :
  calls_at_most a m -> (forall x, calls_at_most b (k x)) ->
  calls_at_most (a + b) (bind m k).
Proof.
  unfold calls_at_most. destruct m as [t1 [x | e]]; cbn; intros H1 H2; [|lia].
  specialize (H2 x). destruct (k x) as [t2 r]. cbn in *.
  rewrite filter_app, length_app. lia.
Qed.

Lemma calls_try_catch {A} (a b : nat) (m : M A) (handler : Thrown -> M A) :
  calls_at_most a m -> (forall e, calls_at_most b (handler e)) ->
  calls_at_most (a + b) (try_catch m handler).
Proof.
  unfold calls_at_most. destruct m as [t1 [x | e]]; cbn; intros H1 H2; [lia|].
  specialize (H2 e). destruct (handler e) as [t2 r]. cbn in *.
  rewrite filter_app, length_app. lia.
Qed.

Lemma calls_clipboard_writeText (v : value) : calls_at_most 1 (clipboard_writeText v).
Proof. destruct v; cbv; lia. Qed.

Lemma calls_shell_openExternal (h : Host) (url : jsstring) :
  calls_at_most 1 (shell_openExternal h url).
Proof.
  unfold calls_at_most, shell_openExternal. rewrite bind_emit.
  destruct (openExternal_outcome h url); cbn; lia.
Qed.

Lemma calls_execAsync (h : Host) (command : value) :
  calls_at_most 1 (execAsync h command).
Proof.
  unfold calls_at_most, execAsync. destruct command; try (cbn; lia).
  destruct (exec_accepts s); [|cbn; lia].
  rewrite bind_emit. destruct (exec_outcome h _ s); cbn; lia.
Qed.

Lemma calls_shell_openExternal_detached (url : jsstring) :
  calls_at_most 1 (shell_openExternal_detached url).
Proof. cbv. lia. Qed.

(** Solves [only no_call m] for the parts of a handler that call nothing. *)
Ltac no_calls :=
  repeat first
    [ progress intros
    | apply only_ret | apply only_throw | apply only_get | apply only_ToString
    | apply only_encodeURIComponent
    | apply only_emit; reflexivity
    | apply only_try_catch | apply only_bind
    | match goal with
      | |- only _ (if ?b then _ else _) => destruct b
      | |- only _ (let (_, _) := ?x in _) => destruct x
      | |- only _ (match ?x with _ => _ end) => destruct x
      end ].

(** Bounds the outside calls of a handler by one: a part that calls
    nothing, or one call between two such parts. *)
Ltac one_call :=
  repeat first
    [ progress intros
    | apply calls_of_none; solve [no_calls]
    | apply calls_clipboard_writeText | apply calls_shell_openExternal
    | apply calls_execAsync | apply calls_shell_openExternal_detached
    | apply (calls_try_catch 1 0); [|intros; apply calls_of_none; solve [no_calls]]
    | apply (calls_bind 0 1); [apply calls_of_none; solve [no_calls]|]
    | apply (calls_bind 1 0); [|intros; apply calls_of_none; solve [no_calls]]
    | match goal with
      | |- calls_at_most _ (if ?b then _ else _) => destruct b
      | |- calls_at_most _ (let (_, _) := ?x in _) => destruct x
      | |- calls_at_most _ (match ?x with _ => _ end) => destruct x
      end ].

Lemma calls_executeAction (h : Host) (actionData : value) :
  calls_at_most 1 (executeAction h actionData).
Proof. unfold executeAction. one_call. Qed.

(** [executeAction] ends with a result whatever it is given; on the way it
    only logs and makes at most one outside call (a shell command, an
    external open or a clipboard write): it sends nothing to the renderer,
    posts no request and presses no key. *)
Theorem executeAction_contained (h : Host) (actionData : value) :
  exists t result,
    executeAction h actionData = (t, inl result)
    /\ forallb (fun e => is_outside_call e || is_console e) t = true
    /\ (length (filter is_outside_call t) <= 1)%nat.
Proof.
  destruct (executeAction_returns h actionData) as (t & result & E).
  exists t, result. split; [exact E|]. split.
  - change t with (fst (t, @inl value Thrown result)). rewrite <- E.
    apply (only_executeAction (fun e => is_outside_call e || is_console e)).
    + intros e ->. reflexivity.
    + intros e ->. apply orb_true_r.
  - change t with (fst (t, @inl value Thrown result)). rewrite <- E.
    apply calls_executeAction.
Qed.

(** ** One message at the end *)

Lemma one_terminal_send_last (channel : string) (args : list value) :
  In (js channel) terminal_channels -> one_terminal (send channel args).
Proof.
  intros H. cbn. exists [], (js channel), args. now repeat split.
Qed.

Lemma one_terminal_bind {A B} (m : M A) (k : A -> M B) :
  only not_send m -> (forall a, one_terminal (k a)) -> one_terminal (bind m k).
Proof.
  unfold only, one_terminal. destruct m as [t1 [a | e]]; cbn; intros H1 H2;
    [|exact H1].
  specialize (H2 a). destruct (k a) as [t2 [b | e]].
  - destruct H2 as (pre & ch & args & -> & Hpre & Hch).
    exists (t1 ++ pre), ch, args. rewrite app_assoc, forallb_app.
    split; [reflexivity|]. split; [|exact Hch]. cbn in H1. now rewrite H1, Hpre.
  - rewrite forallb_app. cbn in H1. now rewrite H1, H2.
Qed.

Lemma one_terminal_try_catch (m : M unit) (channel : string) (args : list value) :
  one_terminal m -> In (js channel) terminal_channels ->
  exists pre ch args',
    try_catch m (fun _ => send channel args) = (pre ++ [Send ch args'], inl tt)
    /\ forallb not_send pre = true
    /\ In ch terminal_channels.
Proof.
  unfold one_terminal. destruct m as [t [[] | e]]; cbn; intros H Hch.
  - destruct H as (pre & ch & args' & -> & Hpre & Hin). now exists pre, ch, args'.
  - exists t, (js channel), args. now repeat split.
Qed.

Lemma only_not_send_executeAction (h : Host) (actionData : value) :
  only not_send (executeAction h actionData).
Proof.
  apply only_executeAction; intros [] E; try reflexivity; discriminate.
Qed.

(** Whatever the reply, the dispatcher ends without an error after sending
    one message to the renderer, as its last effect, on [text-replacement],
    [analysis-complete], [action-completed] or [ask-complete]. *)
Theorem dispatch_sends_one_message
  (h : Host) (copied : jsstring) (response : value) :
  exists pre channel args,
    dispatch h copied response = (pre ++ [Send channel args], inl tt)
    /\ forallb not_send pre = true
    /\ In channel terminal_channels.
Proof.
  unfold dispatch. apply one_terminal_try_catch; [|cbn; tauto].
  apply one_terminal_bind; [apply only_JSON_parse|]. intros actionData.
  apply one_terminal_bind; [apply only_get|]. intros action.
  destruct (is_str action (js "replace_text")).
  { apply one_terminal_bind; [apply only_get|]. intros params.
    apply one_terminal_bind; [apply only_get|]. intros newText.
    apply one_terminal_send_last. cbn; tauto. }
  destruct (includes silentActions action).
  { apply one_terminal_bind; [apply only_not_send_executeAction|]. intros result.
    destruct (is_str action (js "run_command"));
      apply one_terminal_send_last; cbn; tauto. }
  destruct (is_str action (js "analysis")).
  { apply one_terminal_bind; [apply only_get|]. intros params.
    apply one_terminal_bind; [apply only_get|]. intros analysis.
    apply one_terminal_send_last. cbn; tauto. }
  apply one_terminal_bind; [apply only_get|]. intros reply.
  apply one_terminal_send_last. cbn; tauto.
Qed.

(** ** More on the completion call *)

Lemma only_nothing {A} (m : M A) : only nothing m -> fst m = [].
Proof. unfold only. destruct (fst m); [reflexivity | discriminate]. Qed.

Section CompletionShape.

Variable h : Host.
Variable config : AppConfig.
Variable content : jsstring.
Variable isAction : bool.

Let request := completion_request config content isAction.
Let logged := ConsoleError (js "OpenRouter API Error:").

(** What follows the request in the [try] has no effect of its own. *)
Lemma reading_the_reply_is_silent (data : value) :
  fst (choices <- get data "choices" ;;
       some <- (if truthy choices then gt_zero h (length_of choices)
                else ret false) ;;
       if (some : bool) then
         message <- get (index0 choices) "message" ;;
         get message "content"
       else throw (ErrorObj (js "Invalid API response: No choices provided.")))
  = [].
Proof.
  apply only_nothing.
  apply only_bind; [apply only_get|]. intros choices.
  apply only_bind.
  - destruct (truthy choices); [apply only_gt_zero | apply only_ret].
  - intros [|]; [|apply only_throw].
    apply only_bind; [apply only_get|]. intros. apply only_get.
Qed.

Lemma failure_text (error : Thrown) :
  exists text,
    (emit (logged error) ;;
     match error with
     | AxiosError _ (Some (status, _)) =>
         if status =? 401 then ret (Str INVALID_API_KEY)
         else if (status =? 404) || (status =? 400)
              then ret (Str (MODEL_UNAVAILABLE config))
              else ret (Str NETWORK_ERROR)
     | _ => ret (Str NETWORK_ERROR)
     end)
    = ([logged error], inl (Str text))
    /\ In text [INVALID_API_KEY; MODEL_UNAVAILABLE config; NETWORK_ERROR].
Proof.
  rewrite bind_emit.
  destruct error as [f | m | m [[status data]|]];
    try (exists NETWORK_ERROR; split; [reflexivity | cbn; tauto]).
  destruct (status =? 401);
    [exists INVALID_API_KEY; split; [reflexivity | cbn; tauto]|].
  destruct ((status =? 404) || (status =? 400));
    [exists (MODEL_UNAVAILABLE config) | exists NETWORK_ERROR];
    (split; [reflexivity | cbn; tauto]).
Qed.

End CompletionShape.

(** With a key: one request, then either the result read in the reply,
    or one logged error and one of three texts. *)
Lemma analyzeContent_keyed
  (h : Host) (config : AppConfig) (content : jsstring) (isAction : bool) :
  apiKey config <> [] ->
  let request := completion_request config content isAction in
  let run := analyzeContent h config content isAction in
  (exists result, run = ([HttpPost request], inl result))
  \/ (exists error text,
        run = ([HttpPost request;
                ConsoleError (js "OpenRouter API Error:") error],
               inl (Str text))
        /\ In text [INVALID_API_KEY; MODEL_UNAVAILABLE config; NETWORK_ERROR]).
Proof.
  intros key request run. subst run. unfold analyzeContent.
  rewrite (proj2 (nonempty_true _) key). cbn [negb]. fold request.
  assert (P : exists r, axios_post h request = ([HttpPost request], r)).
  { unfold axios_post. rewrite bind_emit.
    destruct (http_outcome h request) as [status data | m]; [|eauto].
    destruct ((200 <=? status) && (status <? 300)); eauto. }
  destruct P as ([data | error] & ->).
  - rewrite bind_value.
    pose proof (reading_the_reply_is_silent h data) as S.
    cbv beta. rewrite S.
    match goal with |- context [snd ?m] => destruct (snd m) as [result | error] end.
    + left. now exists result.
    + right. cbn [try_catch app].
      destruct (failure_text config error) as (text & -> & Hin).
      exists error, text. now split.
  - right. unfold bind at 1. cbn [try_catch].
    destruct (failure_text config error) as (text & -> & Hin).
    exists error, text. now split.
Qed.

(** The completion call never rejects and never tries twice.  Without a
    key it does nothing and returns the no-key text.  With a key it posts
    one request, and either returns what it read in the reply, or logs one
    error and returns one of three texts: invalid key, model unavailable,
    network error. *)
Theorem analyzeContent_posts_once
  (h : Host) (config : AppConfig) (content : jsstring) (isAction : bool) :
  let request := completion_request config content isAction in
  let run := analyzeContent h config content isAction in
  (apiKey config = [] /\ run = ([], inl (Str NO_API_KEY)))
  \/ (apiKey config <> []
      /\ ((exists result, run = ([HttpPost request], inl result))
          \/ (exists error text,
                run = ([HttpPost request;
                        ConsoleError (js "OpenRouter API Error:") error],
                       inl (Str text))
                /\ In text [INVALID_API_KEY; MODEL_UNAVAILABLE config;
                            NETWORK_ERROR]))).
Proof.
  intros request run. subst request run.
  destruct (apiKey config) as [|c key] eqn:K.
  - left. split; [reflexivity|]. now apply analyzeContent_no_key.
  - right. assert (key' : apiKey config <> []) by (rewrite K; discriminate).
    rewrite <- K. split; [exact key'|].
    exact (analyzeContent_keyed h config content isAction key').
Qed.

(** When the endpoint accepts the request and its reply has a first choice
    with a [message], the call returns that message's [content], whatever
    it is, and logs nothing; further choices are not looked at. *)
Theorem analyzeContent_returns_first_choice
  (h : Host) (config : AppConfig) (content : jsstring) (isAction : bool)
  (status : N) (data first : value) (others : list value) :
  apiKey config <> [] ->
  http_outcome h (completion_request config content isAction)
  = HttpResponse status data ->
  200 <= status < 300 ->
  field data "choices" = Arr (first :: others) ->
  nullish (field first "message") = false ->
  analyzeContent h config content isAction
  = ([HttpPost (completion_request config content isAction)],
     inl (field (field first "message") "content")).
Proof.
  intros key E [Hlo Hhi] Hc Hm. unfold analyzeContent.
  rewrite (proj2 (nonempty_true _) key). cbn [negb].
  assert (R : (200 <=? status) && (status <? 300) = true).
  { apply andb_true_iff. split; [now apply N.leb_le | now apply N.ltb_lt]. }
  rewrite (axios_post_ok h config content isAction status data E R).
  rewrite bind_value. cbv beta.
  assert (Hd : nullish data = false).
  { destruct data; cbn in Hc; congruence || reflexivity. }
  assert (Hf : nullish first = false).
  { destruct first; cbn in Hm; congruence || reflexivity. }
  rewrite (get_field data "choices" Hd), bind_ret_l, Hc.
  cbn [truthy length_of gt_zero length].
  rewrite bind_ret_l.
  replace (negb (neg (number_of_N (N.of_nat (S (length others)))))
           && negb (number_is_zero (number_of_N (N.of_nat (S (length others))))))
    with true by reflexivity.
  cbn [index0].
  rewrite (get_field first "message" Hf), bind_ret_l.
  rewrite (get_field _ "content" Hm). reflexivity.
Qed.

(** One choice that says hello. *)
Lemma analyzeContent_returns_first_choice_witness :
  analyzeContent (Example.answering (Scenario.completion (Str (js "hello"))))
    Example.settings (js "hi") false
  = ([HttpPost (completion_request Example.settings (js "hi") false)],
     inl (Str (js "hello"))).
Proof.
  refine (analyzeContent_returns_first_choice
            (Example.answering (Scenario.completion (Str (js "hello"))))
            Example.settings (js "hi") false 200 _ _ [] _ eq_refl _ eq_refl eq_refl).
  - discriminate.
  - split; [discriminate | reflexivity].
Defined.

(** A status that is neither a success nor 401, 400 or 404 (a 429 or a 500,
    say) is reported as a network error. *)
Theorem analyzeContent_other_status_is_network_error
  (h : Host) (config : AppConfig) (content : jsstring) (isAction : bool)
  (status : N) (data : value) :
  apiKey config <> [] ->
  http_outcome h (completion_request config content isAction)
  = HttpResponse status data ->
  status < 200 \/ 300 <= status ->
  status <> 401 -> status <> 400 -> status <> 404 ->
  analyzeContent h config content isAction
  = ([HttpPost (completion_request config content isAction);
      ConsoleError (js "OpenRouter API Error:")
        (AxiosError (js "Request failed with status code " ++ N_to_js status)
                    (Some (status, data)))],
     inl (Str NETWORK_ERROR)).
Proof.
  intros key E Hs H401 H400 H404.
  assert (R : (200 <=? status) && (status <? 300) = false).
  { apply andb_false_iff.
    destruct Hs; [left; now apply N.leb_gt | right; now apply N.ltb_ge]. }
  apply (analyzeContent_rejected h config content isAction key _ NETWORK_ERROR
           (axios_post_status h config content isAction status data E R)).
  rewrite (proj2 (N.eqb_neq _ _) H401), (proj2 (N.eqb_neq _ _) H404),
    (proj2 (N.eqb_neq _ _) H400). reflexivity.
Qed.

(** Too many requests. *)
Lemma analyzeContent_other_status_is_network_error_witness :
  snd (analyzeContent (Example.answering (HttpResponse 429 Null))
         Example.settings (js "hi") true)
  = inl (Str NETWORK_ERROR).
Proof.
  refine (f_equal snd (analyzeContent_other_status_is_network_error
            (Example.answering (HttpResponse 429 Null))
            Example.settings (js "hi") true 429 Null _ eq_refl _ _ _ _));
    try discriminate.
  right. discriminate.
Defined.

(** ** The three ways to ask *)

Lemma dispatch_syntax_error (h : Host) (copied text : jsstring) :
  JSON.parse_text text = None ->
  dispatch h copied (Str text) = ([Send (js "ask-complete") [Str text]], inl tt).
Proof. intros E. unfold dispatch. rewrite JSON_parse_str, E. reflexivity. Qed.

(** None of the texts the completion call returns on failure is JSON. *)
Lemma failure_texts_are_not_json (config : AppConfig) (text : jsstring) :
  In text [NO_API_KEY; INVALID_API_KEY; MODEL_UNAVAILABLE config; NETWORK_ERROR] ->
  JSON.parse_text text = None.
Proof.
  intros [<- | [<- | [<- | [<- | []]]]]; reflexivity.
Qed.

(** A failed completion call reaches the user of [ask-ai] as text: when
    [analyzeContent] returns one of its four failure texts, the handler
    announces [analyzing], does what the call did, and shows the text on
    [ask-complete]; nothing is dispatched. *)
Theorem ask_ai_shows_failure_text
  (h : Host) (app : App) (w : BrowserWindow) (query copied text : jsstring) :
  mainWindow app = Some w ->
  let call := analyzeContent h (config app)
                (userPromptWithClipboard (copiedContent app) query) true in
  snd call = inl (Str text) ->
  In text [NO_API_KEY; INVALID_API_KEY; MODEL_UNAVAILABLE (config app);
           NETWORK_ERROR] ->
  ask_ai h app query copied
  = (Send (js "analyzing") [] :: fst call
       ++ [Send (js "ask-complete") [Str text]],
     inl tt).
Proof.
  intros Hw call Hr Hin. unfold ask_ai. rewrite Hw. fold call.
  destruct call as [t r]. cbn in Hr. subst r.
  unfold send at 1. rewrite bind_emit, bind_value. cbv beta.
  rewrite (dispatch_syntax_error h copied text
             (failure_texts_are_not_json (config app) text Hin)).
  reflexivity.
Qed.

(** A timeout, asked about from the starting state. *)
Lemma ask_ai_shows_failure_text_witness :
  ask_ai Example.host Example.started (js "open the terminal") []
  = ([Send (js "analyzing") [];
      HttpPost (completion_request Example.settings (js "open the terminal") true);
      ConsoleError (js "OpenRouter API Error:")
        (AxiosError (js "timeout of 15000ms exceeded") None);
      Send (js "ask-complete") [Str NETWORK_ERROR]],
     inl tt).
Proof.
  refine (ask_ai_shows_failure_text Example.host Example.started
            {| visible := true |} (js "open the terminal") [] NETWORK_ERROR
            eq_refl eq_refl _).
  do 3 right. left. reflexivity.
Defined.

Lemma only_analyzeContent (p : Effect -> bool)
  (h : Host) (config : AppConfig) (content : jsstring) (isAction : bool) :
  (forall e, is_request e = true -> p e = true) ->
  (forall e, is_console e = true -> p e = true) ->
  only p (analyzeContent h config content isAction).
Proof.
  intros Hreq Hcon. unfold only.
  destruct (apiKey config) as [|c key] eqn:K.
  - now rewrite (analyzeContent_no_key h config content isAction K).
  - assert (key' : apiKey config <> []) by (rewrite K; discriminate).
    destruct (analyzeContent_keyed h config content isAction key')
      as [[result E] | (error & text & E & _)];
      rewrite E; cbn [fst forallb];
      rewrite ?(Hreq (HttpPost _) eq_refl), ?(Hcon (ConsoleError _ _) eq_refl);
      reflexivity.
Qed.

(** The Alt+C shortcut never acts on the machine.  On a blank clipboard it
    only says that the clipboard is empty; otherwise it announces
    [analyzing], makes the completion call in summary mode and shows
    whatever the call returned on [analysis-complete], without
    dispatching it: no command, no external open, no clipboard write. *)
Theorem analyze_shortcut_only_shows
  (h : Host) (app : App) (w : BrowserWindow) (content : jsstring) :
  mainWindow app = Some w ->
  let call := analyzeContent h (config app) content false in
  (trim content = [] ->
   analyze_shortcut h app content
   = ([Send (js "analysis-complete") [Str CLIPBOARD_EMPTY]], inl tt))
  /\ (trim content <> [] ->
      exists analysis,
        snd call = inl analysis
        /\ analyze_shortcut h app content
           = (Send (js "analyzing") [] :: fst call
                ++ [Send (js "analysis-complete") [analysis]],
              inl tt))
  /\ forallb no_call (fst (analyze_shortcut h app content)) = true.
Proof.
  intros Hw call.
  destruct (analyzeContent_returns h (config app) content false) as (t & a & E).
  assert (Hquiet : forallb no_call t = true).
  { change t with (fst (t, @inl value Thrown a)). rewrite <- E.
    apply only_analyzeContent; intros [] H; try reflexivity; discriminate. }
  subst call. unfold analyze_shortcut. rewrite Hw, E.
  split; [|split].
  - intros B. now rewrite (proj2 (nonempty_false _) B).
  - intros B. rewrite (proj2 (nonempty_true _) B). exists a.
    split; [reflexivity|]. unfold send. now rewrite bind_emit, bind_value.
  - destruct (nonempty (trim content)); [|reflexivity].
    unfold send. rewrite bind_emit, bind_value. cbn.
    rewrite forallb_app, Hquiet. reflexivity.
Qed.

(** A clipboard of spaces. *)
Lemma analyze_shortcut_only_shows_witness :
  analyze_shortcut Example.host Example.started (js "   ")
  = ([Send (js "analysis-complete") [Str CLIPBOARD_EMPTY]], inl tt).
Proof.
  exact (proj1 (analyze_shortcut_only_shows Example.host Example.started
                  {| visible := true |} (js "   ") eq_refl) eq_refl).
Defined.

(** A spoken query is always taken: blank or repeated, with the window in
    place and a key set it is posted to the endpoint in summary mode behind
    [Analyze this spoken query: ], and the outcome is shown on
    [analysis-complete]; [speechContent] becomes the query. *)
Theorem analyze_speech_always_asks
  (h : Host) (app : App) (w : BrowserWindow) (content : jsstring) :
  mainWindow app = Some w -> apiKey (config app) <> [] ->
  let request := completion_request (config app)
                   (js "Analyze this spoken query: " ++ content) false in
  fst (analyze_speech h app content) = content
  /\ exists logs analysis,
       snd (analyze_speech h app content)
       = (Send (js "analyzing") [] :: HttpPost request :: logs
            ++ [Send (js "analysis-complete") [analysis]],
          inl tt)
       /\ forallb is_console logs = true.
Proof.
  intros Hw key request. split; [reflexivity|].
  unfold analyze_speech. cbn [snd]. rewrite Hw.
  destruct (analyzeContent_keyed h (config app)
              (js "Analyze this spoken query: " ++ content) false key)
    as [[result E] | (error & text & E & _)].
  - exists [], result. unfold send. rewrite E, bind_emit, bind_value.
    split; reflexivity.
  - exists [ConsoleError (js "OpenRouter API Error:") error], (Str text).
    unfold send. rewrite E, bind_emit, bind_value. split; reflexivity.
Qed.

(** Silence, spoken on the starting state. *)
Lemma analyze_speech_always_asks_witness :
  exists logs analysis,
    snd (analyze_speech Example.host Example.started [])
    = (Send (js "analyzing") []
         :: HttpPost (completion_request Example.settings
                        (js "Analyze this spoken query: ") false)
         :: logs ++ [Send (js "analysis-complete") [analysis]],
       inl tt)
    /\ forallb is_console logs = true.
Proof.
  refine (proj2 (analyze_speech_always_asks Example.host Example.started
                   {| visible := true |} [] eq_refl _)).
  discriminate.
Defined.

(** ** The handlers, one by one *)

Lemma execAsync_refused (h : Host) (c : jsstring) :
  exec_accepts c = false ->
  execAsync h (Str c)
  = throw (Raised (RefusedString (js "child_process.exec") c)).
Proof. intros R. unfold execAsync. now rewrite R. Qed.

Lemma execAsync_accepted (h : Host) (c : jsstring) :
  exec_accepts c = true ->
  execAsync h (Str c)
  = (emit (Exec (js "/bin/bash") c) ;;
     match exec_outcome h (js "/bin/bash") c with
     | Exited stdout stderr => ret (stdout, stderr)
     | ExecFailed m => throw (ErrorObj m)
     end).
Proof. intros R. unfold execAsync. now rewrite R. Qed.

(** [run_command] runs the command it is given, as it is, once, under
    [/bin/bash], when [exec] takes it.  When the command ends without
    error the result is [Executed: ] and the command, followed by the
    output and the errors that are not blank; when it fails the failure is
    not thrown but reported with the command and the error's message.  A
    command [exec] refuses (an empty one, or one with a null byte) is not
    run at all: the refusal is reported in the same way. *)
Theorem run_command_reports (h : Host) (actionData : value) (c : jsstring) :
  field actionData "action" = Str (js "run_command") ->
  field (field actionData "params") "command" = Str c ->
  let announce := ConsoleLog (js "Executing command:") (Str c) in
  let run := Exec (js "/bin/bash") c in
  let refusal := Raised (RefusedString (js "child_process.exec") c) in
  (exec_accepts c = true ->
   (forall stdout stderr,
      exec_outcome h (js "/bin/bash") c = Exited stdout stderr ->
      executeAction h actionData
      = (announce :: run :: ConsoleLog (js "Command stdout:") (Str stdout)
           :: (if nonempty stderr
               then [ConsoleLog (js "Command stderr:") (Str stderr)] else []),
         inl (Str (with_output (js "Errors:") stderr
                     (with_output (js "Output:") stdout (js "Executed: " ++ c)))))
      /\ (trim stdout = [] -> trim stderr = [] ->
          snd (executeAction h actionData) = inl (Str (js "Executed: " ++ c))))
   /\ (forall m,
         exec_outcome h (js "/bin/bash") c = ExecFailed m ->
         executeAction h actionData
         = ([announce; run;
             ConsoleError (js "Command execution error:") (ErrorObj m)],
            inl (Str (jq "Error executing `" ++ c ++ jq "`: " ++ m)))))
  /\ (exec_accepts c = false ->
      executeAction h actionData
      = ([announce; ConsoleError (js "Command execution error:") refusal],
         inl (Str (jq "Error executing `" ++ c ++ jq "`: "
                   ++ fault_message h (RefusedString (js "child_process.exec") c))))).
Proof.
  intros Ha Hc announce run refusal.
  assert (Hp : nullish (field actionData "params") = false)
    by exact (field_str_not_nullish _ _ _ Hc).
  split.
  - intros R.
    assert (E : executeAction h actionData
                = match exec_outcome h (js "/bin/bash") c with
                  | Exited stdout stderr =>
                      (announce :: run
                         :: ConsoleLog (js "Command stdout:") (Str stdout)
                         :: (if nonempty stderr
                             then [ConsoleLog (js "Command stderr:") (Str stderr)]
                             else []),
                       inl (Str (with_output (js "Errors:") stderr
                                   (with_output (js "Output:") stdout
                                      (js "Executed: " ++ c)))))
                  | ExecFailed m =>
                      ([announce; run;
                        ConsoleError (js "Command execution error:") (ErrorObj m)],
                       inl (Str (jq "Error executing `" ++ c ++ jq "`: " ++ m)))
                  end).
    { unfold executeAction. read_action Ha Hp. rewrite Hc.
      rewrite bind_emit, (execAsync_accepted h c R), bind_emit.
      destruct (exec_outcome h (js "/bin/bash") c) as [stdout stderr | m];
        [|reflexivity].
      cbn [ret fst snd]. rewrite bind_value. cbv beta iota.
      rewrite bind_emit. destruct (nonempty stderr); reflexivity. }
    split.
    + intros stdout stderr O. rewrite E, O. split; [reflexivity|].
      intros B1 B2. cbn [snd]. unfold with_output.
      now rewrite (proj2 (nonempty_false _) B1), (proj2 (nonempty_false _) B2).
    + intros m O. now rewrite E, O.
  - intros R. unfold executeAction. read_action Ha Hp. rewrite Hc.
    rewrite bind_emit, (execAsync_refused h c R). reflexivity.
Qed.

(** A command that is not found, and no command at all. *)
Lemma run_command_reports_witness :
  executeAction
    (Scenario.with_shell (ExecFailed (js "Command failed: nosuch")) None)
    (Obj [(js "action", Str (js "run_command"));
          (js "params", Obj [(js "command", Str (js "nosuch"))])])
  = ([ConsoleLog (js "Executing command:") (Str (js "nosuch"));
      Exec (js "/bin/bash") (js "nosuch");
      ConsoleError (js "Command execution error:")
        (ErrorObj (js "Command failed: nosuch"))],
     inl (Str (jq "Error executing `nosuch`: Command failed: nosuch")))
  /\ executeAction Example.host
       (Obj [(js "action", Str (js "run_command"));
             (js "params", Obj [(js "command", Str [])])])
     = ([ConsoleLog (js "Executing command:") (Str []);
         ConsoleError (js "Command execution error:")
           (Raised (RefusedString (js "child_process.exec") []))],
        inl (Str (jq "Error executing ``: child_process.exec: the argument cannot be empty"))).
Proof.
  split.
  - exact (proj2 (proj1 (run_command_reports
                    (Scenario.with_shell (ExecFailed (js "Command failed: nosuch")) None)
                    (Obj [(js "action", Str (js "run_command"));
                          (js "params", Obj [(js "command", Str (js "nosuch"))])])
                    (js "nosuch") eq_refl eq_refl) eq_refl)
             (js "Command failed: nosuch") eq_refl).
  - exact (proj2 (run_command_reports Example.host
                    (Obj [(js "action", Str (js "run_command"));
                          (js "params", Obj [(js "command", Str [])])])
                    [] eq_refl eq_refl) eq_refl).
Defined.

Lemma launch_command_accepted (h : Host) (appName : jsstring) :
  exec_accepts (launch_command h appName)
  = forallb (fun c => negb (c =? 0)) appName.
Proof.
  unfold exec_accepts, launch_command.
  destruct (str_eqb (platform h) (js "win32")); [|
  destruct (str_eqb (platform h) (js "darwin"))];
    rewrite !forallb_app; cbn [nonempty]; cbn;
    rewrite ?andb_true_r; try reflexivity.
  now destruct (forallb (fun c => negb (c =? 0)) appName).
Qed.

(** [open_app] hands its app name to the shell as it is, inside the one
    command the platform calls for: [start] on Windows, [open -a] on macOS,
    and elsewhere [xdg-open] with the name itself as the fallback.  A
    failure is not thrown but reported with the name and the message.
    The command is never empty; [exec] refuses it exactly when the name
    has a null byte, and then nothing is run and the refusal is reported
    in the same way. *)
Theorem open_app_launches_by_platform
  (h : Host) (actionData : value) (appName : jsstring) :
  field actionData "action" = Str (js "open_app") ->
  field (field actionData "params") "appName" = Str appName ->
  let command := launch_command h appName in
  let announce := ConsoleLog (js "Opening app with command:") (Str command) in
  let run := Exec (js "/bin/bash") command in
  let refusal := Raised (RefusedString (js "child_process.exec") command) in
  (forallb (fun c => negb (c =? 0)) appName = true ->
   (forall stdout stderr,
      exec_outcome h (js "/bin/bash") command = Exited stdout stderr ->
      executeAction h actionData
      = ([announce; run],
         inl (Str (with_output (js "Errors:") stderr
                     (with_output (js "Output:") stdout
                        (js "Opened: " ++ appName))))))
   /\ (forall m,
         exec_outcome h (js "/bin/bash") command = ExecFailed m ->
         executeAction h actionData
         = ([announce; run; ConsoleError (js "App open error:") (ErrorObj m)],
            inl (Str (jq "Error opening `" ++ appName ++ jq "`: " ++ m)))))
  /\ (forallb (fun c => negb (c =? 0)) appName = false ->
      executeAction h actionData
      = ([announce; ConsoleError (js "App open error:") refusal],
         inl (Str (jq "Error opening `" ++ appName ++ jq "`: "
                   ++ fault_message h
                        (RefusedString (js "child_process.exec") command))))).
Proof.
  intros Ha Hn command announce run refusal.
  assert (Hp : nullish (field actionData "params") = false)
    by exact (field_str_not_nullish _ _ _ Hn).
  assert (C : (if str_eqb (platform h) (js "win32") then
                 shown <- ToString h (Str appName) ;; ret (js "start " ++ shown)
               else if str_eqb (platform h) (js "darwin") then
                 shown <- ToString h (Str appName) ;;
                 ret (jq "open -a `" ++ shown ++ jq "`")
               else
                 shown <- ToString h (Str appName) ;;
                 ret (jq "xdg-open `" ++ shown ++ jq "` || " ++ shown))
              = ret command).
  { subst command. unfold launch_command, ToString. cbn [ToString_opt].
    destruct (str_eqb (platform h) (js "win32")); [now rewrite bind_ret_l|].
    destruct (str_eqb (platform h) (js "darwin")); now rewrite bind_ret_l. }
  split.
  - intros Z. rewrite <- (launch_command_accepted h appName) in Z.
    fold command in Z. split.
    + intros stdout stderr O. unfold executeAction. read_action Ha Hp.
      rewrite Hn, C, bind_ret_l, bind_emit.
      rewrite (execAsync_accepted h command Z), bind_emit. rewrite O.
      reflexivity.
    + intros m O. unfold executeAction. read_action Ha Hp.
      rewrite Hn, C, bind_ret_l, bind_emit.
      rewrite (execAsync_accepted h command Z), bind_emit. rewrite O.
      reflexivity.
  - intros Z. rewrite <- (launch_command_accepted h appName) in Z.
    fold command in Z. unfold executeAction. read_action Ha Hp.
    rewrite Hn, C, bind_ret_l, bind_emit.
    rewrite (execAsync_refused h command Z). reflexivity.
Qed.

(** Firefox on macOS, and a name with a null byte on Linux. *)
Lemma open_app_launches_by_platform_witness :
  executeAction (Scenario.on_platform "darwin")
    (Obj [(js "action", Str (js "open_app"));
          (js "params", Obj [(js "appName", Str (js "Firefox"))])])
  = ([ConsoleLog (js "Opening app with command:") (Str (jq "open -a `Firefox`"));
      Exec (js "/bin/bash") (jq "open -a `Firefox`")],
     inl (Str (js "Opened: Firefox")))
  /\ fst (executeAction Example.host
            (Obj [(js "action", Str (js "open_app"));
                  (js "params", Obj [(js "appName", Str [97; 0])])]))
     = [ConsoleLog (js "Opening app with command:")
          (Str (jq "xdg-open `" ++ [97; 0] ++ jq "` || " ++ [97; 0]));
        ConsoleError (js "App open error:")
          (Raised (RefusedString (js "child_process.exec")
                     (jq "xdg-open `" ++ [97; 0] ++ jq "` || " ++ [97; 0])))].
Proof.
  split.
  - exact (proj1 (proj1 (open_app_launches_by_platform
                    (Scenario.on_platform "darwin")
                    (Obj [(js "action", Str (js "open_app"));
                          (js "params", Obj [(js "appName", Str (js "Firefox"))])])
                    (js "Firefox") eq_refl eq_refl) eq_refl)
             [] [] eq_refl).
  - exact (f_equal fst
             (proj2 (open_app_launches_by_platform Example.host
                       (Obj [(js "action", Str (js "open_app"));
                             (js "params", Obj [(js "appName", Str [97; 0])])])
                       [97; 0] eq_refl eq_refl) eq_refl)).
Defined.

(** ** [encodeURIComponent] *)

Lemma hex_digit_unreserved (d : N) :
  d < 16 -> is_uri_unreserved (hex_digit d) = true.
Proof.
  intros H. destruct d as [|p]; [reflexivity|].
  do 4 (destruct p as [p|p|]; try reflexivity); lia.
Qed.

Lemma percent_safe (b : N) : b < 256 -> forallb is_uri_safe (percent b) = true.
Proof.
  intros H. unfold percent, is_uri_safe. cbn [forallb].
  rewrite (hex_digit_unreserved (b / 16)), (hex_digit_unreserved (b mod 16)).
  - reflexivity.
  - apply N.mod_lt. discriminate.
  - apply N.Div0.div_lt_upper_bound. exact H.
Qed.

Lemma utf8_bytes (cp : N) :
  cp < 1114112 -> Forall (fun b => b < 256) (utf8 cp).
Proof.
  intros H. unfold utf8.
  assert (M : forall n, 128 + n mod 64 < 256).
  { intros n. pose proof (N.mod_lt n 64). lia. }
  destruct (N.ltb_spec cp 128); [repeat constructor; lia|].
  destruct (N.ltb_spec cp 2048).
  { repeat constructor; [|apply M].
    assert (cp / 64 < 32) by (apply N.Div0.div_lt_upper_bound; lia). lia. }
  destruct (N.ltb_spec cp 65536).
  { repeat constructor; try apply M.
    assert (cp / 4096 < 16) by (apply N.Div0.div_lt_upper_bound; lia). lia. }
  repeat constructor; try apply M.
  assert (cp / 262144 < 5) by (apply N.Div0.div_lt_upper_bound; lia). lia.
Qed.

Lemma escaped_safe (cp : N) :
  cp < 1114112 ->
  forallb is_uri_safe (concat (map percent (utf8 cp))) = true.
Proof.
  intros H. induction (utf8_bytes cp H) as [|b bs Hb _ IH]; [reflexivity|].
  cbn [map concat]. rewrite forallb_app, (percent_safe b Hb). exact IH.
Qed.

(** What [encodeURIComponent] returns is made of unreserved characters and
    percent signs only; a string of unreserved characters is returned as
    it is. *)
Lemma encodeURIComponent_output_is_safe (s : jsstring) :
  Forall (fun c => c < 65536) s ->
  (forall e, encodeURIComponent_opt s = Some e ->
             forallb is_uri_safe e = true
             /\ forallb (fun c => negb (existsb (N.eqb c) [38; 35; 61; 47; 63; 32])) e
                = true)
  /\ (forallb is_uri_unreserved s = true -> encodeURIComponent_opt s = Some s).
Proof.
  intros Hs.
  assert (Safe : forall e, encodeURIComponent_opt s = Some e ->
                           forallb is_uri_safe e = true).
  { assert (Both : (forall e, encodeURIComponent_opt s = Some e ->
                              forallb is_uri_safe e = true)
                   /\ (forall c e, c < 65536 ->
                                   encodeURIComponent_opt (c :: s) = Some e ->
                                   forallb is_uri_safe e = true)).
    { induction s as [|d s IH].
      - split.
        + intros e [= <-]. reflexivity.
        + intros c e Hc. cbn [encodeURIComponent_opt].
          destruct (is_uri_unreserved c) eqn:U.
          * intros [= <-]. cbn. unfold is_uri_safe. now rewrite U.
          * destruct ((56320 <=? c) && (c <=? 57343)); [discriminate|].
            destruct ((55296 <=? c) && (c <=? 56319)); [discriminate|].
            intros [= <-]. rewrite app_nil_r. apply escaped_safe. lia.
      - inversion Hs as [|? ? Hd Hs']; subst.
        destruct (IH Hs') as [IH0 IH1]. split.
        + intros e. now apply IH1.
        + intros c e Hc.
          change (encodeURIComponent_opt (c :: d :: s))
            with (if is_uri_unreserved c
                  then option_map (cons c) (encodeURIComponent_opt (d :: s))
                  else if (56320 <=? c) && (c <=? 57343) then None
                  else if (55296 <=? c) && (c <=? 56319) then
                    if (56320 <=? d) && (d <=? 57343) then
                      option_map
                        (app (concat (map percent
                           (utf8 ((c - 55296) * 1024 + (d - 56320) + 65536)))))
                        (encodeURIComponent_opt s)
                    else None
                  else option_map (app (concat (map percent (utf8 c))))
                                  (encodeURIComponent_opt (d :: s))).
          destruct (is_uri_unreserved c) eqn:U.
          * destruct (encodeURIComponent_opt (d :: s)) as [r|] eqn:R; [|discriminate].
            intros [= <-]. cbn [forallb]. unfold is_uri_safe at 1.
            rewrite U. exact (IH1 d r Hd R).
          * destruct ((56320 <=? c) && (c <=? 57343)); [discriminate|].
            destruct ((55296 <=? c) && (c <=? 56319)) eqn:High.
            -- destruct ((56320 <=? d) && (d <=? 57343)) eqn:Low; [|discriminate].
               destruct (encodeURIComponent_opt s) as [r|] eqn:R; [|discriminate].
               intros [= <-]. rewrite forallb_app, (IH0 r eq_refl), andb_true_r.
               apply escaped_safe.
               apply andb_true_iff in High as [_ H1]. apply N.leb_le in H1.
               apply andb_true_iff in Low as [_ H2]. apply N.leb_le in H2.
               lia.
            -- destruct (encodeURIComponent_opt (d :: s)) as [r|] eqn:R; [|discriminate].
               intros [= <-]. rewrite forallb_app, (IH1 d r Hd R), andb_true_r.
               apply escaped_safe. lia. }
    exact (proj1 Both). }
  split.
  - intros e He. split; [now apply Safe|].
    specialize (Safe e He). clear He.
    induction e as [|c e IH]; [reflexivity|]. cbn [forallb] in *.
    apply andb_true_iff in Safe as [Hc He]. rewrite (IH He), andb_true_r.
    unfold is_uri_safe in Hc. cbn [existsb].
    destruct (N.eqb_spec c 38); [subst; discriminate|].
    destruct (N.eqb_spec c 35); [subst; discriminate|].
    destruct (N.eqb_spec c 61); [subst; discriminate|].
    destruct (N.eqb_spec c 47); [subst; discriminate|].
    destruct (N.eqb_spec c 63); [subst; discriminate|].
    destruct (N.eqb_spec c 32); [subst; discriminate|].
    reflexivity.
  - clear. induction s as [|c s IH]; [reflexivity|].
    cbn [forallb]. intros H. apply andb_true_iff in H as [Hc Hs].
    assert (E : encodeURIComponent_opt (c :: s)
                = option_map (cons c) (encodeURIComponent_opt s)).
    { destruct s; cbn [encodeURIComponent_opt]; now rewrite Hc. }
    now rewrite E, (IH Hs).
Qed.


(** ** Music and search *)

Section Queries.

Variable h : Host.
Variable actionData : value.
Variable query : jsstring.
Hypothesis Hq : field (field actionData "params") "query" = Str query.

Lemma encodeURIComponent_of_query :
  encodeURIComponent h (Str query)
  = match encodeURIComponent_opt query with
    | Some e => ret e
    | None => throw (Raised MalformedURI)
    end.
Proof. unfold encodeURIComponent, ToString. cbn [ToString_opt]. apply bind_ret_l. Qed.

Lemma executeAction_play_music :
  field actionData "action" = Str (js "play_music") ->
  executeAction h actionData
  = match encodeURIComponent_opt query with
    | Some e =>
        ([OpenExternal (js "https://music.youtube.com/search?q=" ++ e)],
         inl (Str (js "Playing: " ++ query)))
    | None => action_error h (Raised MalformedURI)
    end.
Proof using Hq.
  intros Ha. unfold executeAction.
  read_action Ha (field_str_not_nullish _ _ _ Hq).
  rewrite Hq, encodeURIComponent_of_query.
  destruct (encodeURIComponent_opt query); [rewrite bind_ret_l|]; reflexivity.
Qed.

Lemma executeAction_search_web :
  field actionData "action" = Str (js "search_web") ->
  executeAction h actionData
  = match encodeURIComponent_opt query with
    | Some e =>
        let url := js "https://www.google.com/search?q=" ++ e in
        match openExternal_outcome h url with
        | None => ([OpenExternal url], inl (Str (js "Searching: " ++ query)))
        | Some m =>
            (OpenExternal url :: fst (action_error h (ErrorObj m)),
             snd (action_error h (ErrorObj m)))
        end
    | None => action_error h (Raised MalformedURI)
    end.
Proof using Hq.
  intros Ha. unfold executeAction.
  read_action Ha (field_str_not_nullish _ _ _ Hq).
  rewrite Hq, encodeURIComponent_of_query.
  destruct (encodeURIComponent_opt query) as [e|]; [rewrite bind_ret_l|reflexivity].
  unfold shell_openExternal. rewrite bind_emit.
  destruct (openExternal_outcome h _); reflexivity.
Qed.

End Queries.

(** [play_music] and [search_web] open one fixed site with the encoded
    query behind [?q=].  [search_web] waits for the open and reports its
    failure; [play_music] does not wait, and says [Playing: ] whether the
    open went through or not. *)
Theorem music_and_search_open_an_encoded_query
  (h : Host) (actionData : value) (query encoded : jsstring) :
  field (field actionData "params") "query" = Str query ->
  encodeURIComponent_opt query = Some encoded ->
  let music := js "https://music.youtube.com/search?q=" ++ encoded in
  let search := js "https://www.google.com/search?q=" ++ encoded in
  (field actionData "action" = Str (js "play_music") ->
   executeAction h actionData
   = ([OpenExternal music], inl (Str (js "Playing: " ++ query))))
  /\ (field actionData "action" = Str (js "search_web") ->
      openExternal_outcome h search = None ->
      executeAction h actionData
      = ([OpenExternal search], inl (Str (js "Searching: " ++ query))))
  /\ (field actionData "action" = Str (js "search_web") ->
      forall m, openExternal_outcome h search = Some m ->
      executeAction h actionData
      = ([OpenExternal search;
          ConsoleError (js "Action execution error:") (ErrorObj m)],
         inl (Str (js "Error executing action: " ++ m ++ js ".")))).
Proof.
  intros Hq He music search. split; [|split].
  - intros Ha. now rewrite (executeAction_play_music h _ _ Hq Ha), He.
  - intros Ha O. rewrite (executeAction_search_web h _ _ Hq Ha), He.
    cbv zeta. fold search. now rewrite O.
  - intros Ha m O. rewrite (executeAction_search_web h _ _ Hq Ha), He.
    cbv zeta. fold search. now rewrite O.
Qed.

(** A song that cannot be opened still plays. *)
Lemma music_and_search_open_an_encoded_query_witness :
  executeAction (Scenario.with_shell (Exited [] []) (Some (js "no browser")))
    (Obj [(js "action", Str (js "play_music"));
          (js "params", Obj [(js "query", Str (js "a b&c"))])])
  = ([OpenExternal (js "https://music.youtube.com/search?q=a%20b%26c")],
     inl (Str (js "Playing: a b&c"))).
Proof.
  exact (proj1 (music_and_search_open_an_encoded_query
                  (Scenario.with_shell (Exited [] []) (Some (js "no browser")))
                  (Obj [(js "action", Str (js "play_music"));
                        (js "params", Obj [(js "query", Str (js "a b&c"))])])
                  (js "a b&c") (js "a%20b%26c") eq_refl eq_refl)
           eq_refl).
Defined.

(** A query that cannot be encoded (a surrogate without its pair) opens
    nothing: both handlers end in the text of the URI error. *)
Theorem unencodable_query_opens_nothing
  (h : Host) (actionData : value) (query : jsstring) :
  field (field actionData "params") "query" = Str query ->
  encodeURIComponent_opt query = None ->
  field actionData "action" = Str (js "play_music")
  \/ field actionData "action" = Str (js "search_web") ->
  executeAction h actionData
  = ([ConsoleError (js "Action execution error:") (Raised MalformedURI)],
     inl (Str (js "Error executing action: "
               ++ fault_message h MalformedURI ++ js "."))).
Proof.
  intros Hq He [Ha | Ha].
  - now rewrite (executeAction_play_music h _ _ Hq Ha), He.
  - now rewrite (executeAction_search_web h _ _ Hq Ha), He.
Qed.

(** A high surrogate alone. *)
Lemma unencodable_query_opens_nothing_witness :
  executeAction Example.host
    (Obj [(js "action", Str (js "search_web"));
          (js "params", Obj [(js "query", Str [55357])])])
  = ([ConsoleError (js "Action execution error:") (Raised MalformedURI)],
     inl (Str (js "Error executing action: URI malformed."))).
Proof.
  exact (unencodable_query_opens_nothing Example.host
           (Obj [(js "action", Str (js "search_web"));
                 (js "params", Obj [(js "query", Str [55357])])])
           [55357] eq_refl eq_refl (or_intror eq_refl)).
Defined.

(** Whatever the query, the URL that [play_music] or [search_web] opens is
    the site's fixed search address followed by unreserved characters and
    percent signs only: no [&], [#], [=], [/], [?] or space of the query
    gets into the URL. *)
Theorem query_cannot_alter_the_url
  (h : Host) (actionData : value) (query url : jsstring) :
  field (field actionData "params") "query" = Str query ->
  Forall (fun c => c < 65536) query ->
  field actionData "action" = Str (js "play_music")
  \/ field actionData "action" = Str (js "search_web") ->
  In (OpenExternal url) (fst (executeAction h actionData)) ->
  exists site e,
    url = site ++ e
    /\ In site [js "https://music.youtube.com/search?q=";
                js "https://www.google.com/search?q="]
    /\ forallb is_uri_safe e = true
    /\ forallb (fun c => negb (existsb (N.eqb c) [38; 35; 61; 47; 63; 32])) e
       = true.
Proof.
  intros Hq Hs Ha.
  pose proof (proj1 (encodeURIComponent_output_is_safe query Hs)) as Safe.
  destruct Ha as [Ha | Ha].
  - rewrite (executeAction_play_music h _ _ Hq Ha).
    destruct (encodeURIComponent_opt query) as [e|];
      [|cbn; intros [H | []]; discriminate].
    intros [[= <-] | []]. exists (js "https://music.youtube.com/search?q="), e.
    destruct (Safe e eq_refl). cbn [In]. tauto.
  - rewrite (executeAction_search_web h _ _ Hq Ha).
    destruct (encodeURIComponent_opt query) as [e|];
      [|cbn; intros [H | []]; discriminate].
    cbv zeta.
    assert (G : OpenExternal url
                = OpenExternal (js "https://www.google.com/search?q=" ++ e) ->
                exists site e0,
                  url = site ++ e0
                  /\ In site [js "https://music.youtube.com/search?q=";
                              js "https://www.google.com/search?q="]
                  /\ forallb is_uri_safe e0 = true
                  /\ forallb (fun c => negb (existsb (N.eqb c)
                                                  [38; 35; 61; 47; 63; 32])) e0
                     = true).
    { intros [= ->]. exists (js "https://www.google.com/search?q="), e.
      destruct (Safe e eq_refl). cbn [In]. tauto. }
    destruct (openExternal_outcome h _); cbn [fst In action_error].
    + intros [H | [H | []]]; [now apply G; symmetry | discriminate].
    + intros [H | []]. now apply G; symmetry.
Qed.

(** A query that tries to add a parameter. *)
Lemma query_cannot_alter_the_url_witness :
  exists site e,
    js "https://www.google.com/search?q=cats%26tbm%3Disch" = site ++ e
    /\ In site [js "https://music.youtube.com/search?q=";
                js "https://www.google.com/search?q="]
    /\ forallb is_uri_safe e = true
    /\ forallb (fun c => negb (existsb (N.eqb c) [38; 35; 61; 47; 63; 32])) e
       = true.
Proof.
  refine (query_cannot_alter_the_url Example.host
            (Obj [(js "action", Str (js "search_web"));
                  (js "params", Obj [(js "query", Str (js "cats&tbm=isch"))])])
            (js "cats&tbm=isch")
            (js "https://www.google.com/search?q=cats%26tbm%3Disch")
            eq_refl _ (or_intror eq_refl) (or_introl eq_refl)).
  repeat constructor.
Defined.

(** ** Where the dispatcher sends a reply *)

Lemma includes_str (l : list jsstring) (v : value) :
  includes l v = true -> exists a, v = Str a /\ In a l.
Proof.
  unfold includes. intros H. apply existsb_exists in H as (a & Hin & Ha).
  destruct v; try discriminate. cbn in Ha. apply str_eqb_eq in Ha. subst.
  now exists a.
Qed.

(** A reply whose action is one of the silent ones is handed to
    [executeAction] once, and the handler's result is what the renderer
    gets: on [analysis-complete] for [run_command], whose output is worth
    reading, and on [action-completed] for the others. *)
Theorem silent_actions_are_routed
  (h : Host) (copied reply : jsstring) (v : value) :
  JSON.parse_text reply = Some v ->
  includes silentActions (field v "action") = true ->
  exists t result,
    executeAction h v = (t, inl result)
    /\ dispatch h copied (Str reply)
       = (t ++ [Send (if is_str (field v "action") (js "run_command")
                      then js "analysis-complete" else js "action-completed")
                  [result]],
          inl tt).
Proof.
  intros E Hs.
  destruct (includes_str _ _ Hs) as (a & Ha & Hin).
  assert (Hn : nullish v = false) by exact (field_str_not_nullish _ _ _ Ha).
  assert (Hr : is_str (field v "action") (js "replace_text") = false).
  { rewrite Ha. cbn in Hin.
    repeat destruct Hin as [<- | Hin]; try reflexivity. destruct Hin. }
  destruct (executeAction_returns h v) as (t & result & X).
  exists t, result. split; [exact X|].
  unfold dispatch. rewrite JSON_parse_str, E, bind_ret_l.
  rewrite (get_field v "action" Hn), bind_ret_l, Hr, Hs, X, bind_value.
  cbv beta. destruct (is_str (field v "action") (js "run_command")); reflexivity.
Qed.

(** An external open, reported as a completed action. *)
Lemma silent_actions_are_routed_witness :
  exists t result,
    executeAction Example.host
      (Obj [(js "action", Str (js "open_url"));
            (js "params", Obj [(js "url", Str (js "https://rocq-prover.org"))])])
    = (t, inl result)
    /\ dispatch Example.host []
         (Str (jq "{`action`:`open_url`,`params`:{`url`:`https://rocq-prover.org`}}"))
       = (t ++ [Send (js "action-completed") [result]], inl tt).
Proof.
  exact (silent_actions_are_routed Example.host []
           (jq "{`action`:`open_url`,`params`:{`url`:`https://rocq-prover.org`}}")
           (Obj [(js "action", Str (js "open_url"));
                 (js "params", Obj [(js "url", Str (js "https://rocq-prover.org"))])])
           eq_refl eq_refl).
Defined.

(** An [analysis] reply does not go through [executeAction]: the
    dispatcher shows [params.analysis] as it is on [analysis-complete],
    [undefined] when it is missing, whereas the handler, asked directly,
    would answer [No analysis provided.] for a missing or falsy one. *)
Theorem analysis_bypasses_the_handler
  (h : Host) (copied reply : jsstring) (v : value) :
  JSON.parse_text reply = Some v ->
  field v "action" = Str (js "analysis") ->
  nullish (field v "params") = false ->
  let analysis := field (field v "params") "analysis" in
  dispatch h copied (Str reply)
  = ([Send (js "analysis-complete") [analysis]], inl tt)
  /\ executeAction h v
     = ([], inl (if truthy analysis then analysis
                 else Str (js "No analysis provided."))).
Proof.
  intros E Ha Hp analysis.
  assert (Hn : nullish v = false) by exact (field_str_not_nullish _ _ _ Ha).
  split.
  - unfold dispatch. rewrite JSON_parse_str, E, bind_ret_l.
    rewrite (get_field v "action" Hn), bind_ret_l, Ha. decide_action.
    rewrite (get_field v "params" Hn), bind_ret_l.
    rewrite (get_field _ "analysis" Hp), bind_ret_l. reflexivity.
  - unfold executeAction. read_action Ha Hp. reflexivity.
Qed.

(** An analysis without text. *)
Lemma analysis_bypasses_the_handler_witness :
  dispatch Example.host [] (Str (jq "{`action`:`analysis`,`params`:{}}"))
  = ([Send (js "analysis-complete") [Undefined]], inl tt).
Proof.
  exact (proj1 (analysis_bypasses_the_handler Example.host []
                  (jq "{`action`:`analysis`,`params`:{}}")
                  (Obj [(js "action", Str (js "analysis")); (js "params", Obj [])])
                  eq_refl eq_refl eq_refl)).
Defined.

(** The [catch] around the dispatcher is not only for syntax errors.  A
    reply that parses but cannot be read -- the text [null], or a
    [replace_text] or [analysis] reply without [params] -- is shown as the
    raw reply on [ask-complete]. *)
Theorem unreadable_reply_is_shown_raw
  (h : Host) (copied reply : jsstring) (v : value) :
  JSON.parse_text reply = Some v ->
  v = Null
  \/ ((field v "action" = Str (js "replace_text")
       \/ field v "action" = Str (js "analysis"))
      /\ nullish (field v "params") = true) ->
  dispatch h copied (Str reply)
  = ([Send (js "ask-complete") [Str reply]], inl tt).
Proof.
  intros E H. unfold dispatch. rewrite JSON_parse_str, E, bind_ret_l.
  destruct H as [-> | [Ha Hp]]; [reflexivity|].
  assert (Hn : nullish v = false)
    by (destruct Ha as [Ha | Ha]; exact (field_str_not_nullish _ _ _ Ha)).
  rewrite (get_field v "action" Hn), bind_ret_l.
  destruct Ha as [Ha | Ha]; rewrite Ha; decide_action;
    rewrite (get_field v "params" Hn), bind_ret_l;
    destruct (field v "params"); try discriminate; reflexivity.
Qed.

(** A replacement without its text. *)
Lemma unreadable_reply_is_shown_raw_witness :
  dispatch Example.host [] (Str (jq "{`action`:`replace_text`}"))
  = ([Send (js "ask-complete") [Str (jq "{`action`:`replace_text`}")]], inl tt).
Proof.
  exact (unreadable_reply_is_shown_raw Example.host []
           (jq "{`action`:`replace_text`}")
           (Obj [(js "action", Str (js "replace_text"))])
           eq_refl (or_intror (conj (or_introl eq_refl) eq_refl))).
Defined.

(** A silent action without [params] touches nothing: reading its first
    parameter throws, and [executeAction] turns that into the result
    [Error executing action: ...] with the engine's message. *)
Theorem missing_params_is_reported
  (h : Host) (actionData : value) (action : jsstring) (parameter : string) :
  In (action, parameter) first_parameter ->
  field actionData "action" = Str action ->
  nullish (field actionData "params") = true ->
  let error := Raised (ReadOfNullish (field actionData "params") (js parameter)) in
  executeAction h actionData
  = ([ConsoleError (js "Action execution error:") error],
     inl (Str (js "Error executing action: " ++ message_of h error ++ js "."))).
Proof.
  intros Hin Ha Hp error. subst error.
  assert (Hn : nullish actionData = false) by exact (field_str_not_nullish _ _ _ Ha).
  unfold first_parameter in Hin. cbn [In] in Hin.
  repeat destruct Hin as [[= <- <-] | Hin]; try destruct Hin;
    unfold executeAction;
    rewrite (get_field _ "action" Hn), bind_ret_l, Ha; decide_action;
    rewrite (get_field _ "params" Hn), bind_ret_l;
    destruct (field actionData "params"); try discriminate; reflexivity.
Qed.

(** A copy without its text. *)
Lemma missing_params_is_reported_witness :
  executeAction Example.host (Obj [(js "action", Str (js "copy_text"))])
  = ([ConsoleError (js "Action execution error:")
        (Raised (ReadOfNullish Undefined (js "text")))],
     inl (Str (js "Error executing action: Cannot read properties of undefined (reading 'text')."))).
Proof.
  exact (missing_params_is_reported Example.host
           (Obj [(js "action", Str (js "copy_text"))]) (js "copy_text") "text"
           (or_intror (or_intror (or_intror (or_introl eq_refl))))
           eq_refl eq_refl).
Defined.

(** ** More on the clipboard poller *)

Lemma clipboard_ticks_keep (reads : list jsstring) :
  forall app : App,
    let app' := fst (clipboard_ticks reads app) in
    mainWindow app' = mainWindow app
    /\ screenWidth app' = screenWidth app
    /\ workAreaHeight app' = workAreaHeight app
    /\ isHiddenForFullscreen app' = isHiddenForFullscreen app
    /\ config app' = config app.
Proof.
  induction reads as [|r reads IH]; intros app; cbn [clipboard_ticks].
  - cbn. tauto.
  - unfold clipboardInterval.
    destruct (negb (str_eqb r (copiedContent app)) && nonempty (trim r)).
    + specialize (IH (set_copiedContent app r)).
      destruct (clipboard_ticks reads (set_copiedContent app r)). exact IH.
    + specialize (IH app). destruct (clipboard_ticks reads app). exact IH.
Qed.

Lemma last_of_cons {A} (l : list A) (x d d' : A) :
  last (x :: l) d = last (x :: l) d'.
Proof.
  revert x. induction l as [|y l IH]; intros x; [reflexivity|].
  exact (IH y).
Qed.

Lemma clipboard_ticks_last (reads : list jsstring) :
  forall (app : App) (w : BrowserWindow),
    mainWindow app = Some w ->
    copiedContent (fst (clipboard_ticks reads app))
    = last (announced (snd (clipboard_ticks reads app))) (copiedContent app).
Proof.
  induction reads as [|r reads IH]; intros app w Hw; cbn [clipboard_ticks].
  - reflexivity.
  - destruct (clipboardInterval_cases app r) as [[Hnew Hblank] | Hskip].
    + rewrite (clipboardInterval_emits app w Hw r Hnew Hblank).
      specialize (IH (set_copiedContent app r) w (window_kept app w r Hw)).
      destruct (clipboard_ticks reads (set_copiedContent app r)) as [app2 t2].
      cbn [fst snd Datatypes.app announced] in *. rewrite IH.
      cbn [copiedContent set_copiedContent].
      destruct (announced t2) as [|x l]; [reflexivity|].
      change (last (r :: x :: l) (copiedContent app))
        with (last (x :: l) (copiedContent app)).
      apply last_of_cons.
    + rewrite (clipboardInterval_skips app r Hskip).
      specialize (IH app w Hw).
      destruct (clipboard_ticks reads app) as [app2 t2]. exact IH.
Qed.

(** Whatever is read from the clipboard, in whatever order, the poller
    never announces a blank text nor the same text twice in a row;
    [copiedContent] ends as the last text announced (or as it was, when
    nothing was), and the poller changes nothing else of the state. *)
Theorem clipboard_poller_never_repeats
  (reads : list jsstring) (app : App) (w : BrowserWindow) :
  mainWindow app = Some w ->
  let app' := fst (clipboard_ticks reads app) in
  let texts := announced (snd (clipboard_ticks reads app)) in
  fresh_chain (copiedContent app) texts
  /\ copiedContent app' = last texts (copiedContent app)
  /\ mainWindow app' = mainWindow app
  /\ isHiddenForFullscreen app' = isHiddenForFullscreen app
  /\ config app' = config app.
Proof.
  intros Hw app' texts. split; [|split].
  - now apply (clipboard_ticks_fresh reads app w).
  - now apply (clipboard_ticks_last reads app w).
  - destruct (clipboard_ticks_keep reads app) as (H1 & _ & _ & H4 & H5).
    now repeat split.
Qed.

(** Copying back and forth. *)
Lemma clipboard_poller_never_repeats_witness :
  announced (snd (clipboard_ticks
                    [js "a"; js " "; js "a"; js "b"; js "b"; []; js "a"]
                    Example.started))
  = [js "a"; js "b"; js "a"]
  /\ fresh_chain [] [js "a"; js "b"; js "a"].
Proof.
  split; [reflexivity|].
  exact (proj1 (clipboard_poller_never_repeats
                  [js "a"; js " "; js "a"; js "b"; js "b"; []; js "a"]
                  Example.started {| visible := true |} eq_refl)).
Defined.

(** What [copy_text] puts on the clipboard comes back through the poller:
    unless the text is blank or was the last one announced, the next tick
    that reads it announces it and makes it [copiedContent]. *)
Theorem copied_text_is_announced
  (h : Host) (app : App) (w : BrowserWindow) (actionData : value)
  (text before : jsstring) :
  mainWindow app = Some w ->
  field actionData "action" = Str (js "copy_text") ->
  field (field actionData "params") "text" = Str text ->
  trim text <> [] -> text <> copiedContent app ->
  let clipboard := clipboard_after h (fst (executeAction h actionData)) before in
  clipboard = text
  /\ clipboardInterval clipboard app
     = (set_copiedContent app text, [Send (js "content-copied") [Str text]]).
Proof.
  intros Hw Ha Ht Hblank Hnew clipboard.
  assert (Hp : nullish (field actionData "params") = false)
    by exact (field_str_not_nullish _ _ _ Ht).
  assert (E : clipboard = text).
  { subst clipboard. unfold executeAction. read_action Ha Hp. rewrite Ht.
    reflexivity. }
  split; [exact E|]. rewrite E.
  now apply (clipboardInterval_emits app w Hw).
Qed.

(** A copied word, from the starting state. *)
Lemma copied_text_is_announced_witness :
  clipboardInterval
    (clipboard_after Example.host
       (fst (executeAction Example.host
               (Obj [(js "action", Str (js "copy_text"));
                     (js "params", Obj [(js "text", Str (js "word"))])])))
       [])
    Example.started
  = (set_copiedContent Example.started (js "word"),
     [Send (js "content-copied") [Str (js "word")]]).
Proof.
  refine (proj2 (copied_text_is_announced Example.host Example.started
                   {| visible := true |}
                   (Obj [(js "action", Str (js "copy_text"));
                         (js "params", Obj [(js "text", Str (js "word"))])])
                   (js "word") [] eq_refl eq_refl eq_refl _ _)); discriminate.
Defined.

(** ** More on the presence monitor *)

Lemma checkFullscreen_balance (h : Host) (app : App) :
  coherent app ->
  coherent (fst (checkFullscreen h app))
  /\ (hides (snd (checkFullscreen h app)) + hidden_now app
      = shows (snd (checkFullscreen h app))
        + hidden_now (fst (checkFullscreen h app)))%nat.
Proof.
  intros C. split; [now apply checkFullscreen_coherent|].
  unfold coherent in C. unfold checkFullscreen, hidden_now.
  destruct (mainWindow app) as [[v]|] eqn:Hw; cbn [visible] in *;
    [|cbn; now rewrite Hw].
  destruct (negb (str_eqb (platform h) (js "linux")));
    [cbn; now rewrite Hw|].
  destruct (exec_outcome h (js "/bin/sh") XDOTOOL) as [stdout stderr|m];
    [|cbn; now rewrite Hw].
  destruct (fullscreen_test app stdout) as [[|]|]; [| |cbn; now rewrite Hw];
    rewrite C; destruct v; cbn; rewrite ?Hw; reflexivity.
Qed.

(** However many ticks there are and whatever they observe, as long as
    nothing but the monitor hides or shows the overlay the flag stays set
    exactly while the overlay is hidden, and the hides and shows balance:
    the monitor never hides twice without a show in between and never
    shows what it did not hide. *)
Theorem presence_monitor_balances
  (hosts : list Host) (app : App) :
  coherent app ->
  let app' := fst (fullscreen_ticks hosts app) in
  let t := snd (fullscreen_ticks hosts app) in
  coherent app'
  /\ (hides t + hidden_now app = shows t + hidden_now app')%nat.
Proof.
  revert app. induction hosts as [|h hosts IH]; intros app C; cbn [fullscreen_ticks].
  - split; [exact C | reflexivity].
  - destruct (checkFullscreen_balance h app C) as [C1 B1].
    destruct (checkFullscreen h app) as [app1 t1]. cbn [fst snd] in *.
    destruct (IH app1 C1) as [C2 B2].
    destruct (fullscreen_ticks hosts app1) as [app2 t2]. cbn [fst snd] in *.
    split; [exact C2|].
    unfold hides, shows in *. rewrite !filter_app, !length_app. lia.
Qed.

(** Fullscreen, fullscreen again, then a smaller window: one hide, one
    show. *)
Lemma presence_monitor_balances_witness :
  let run :=
    fullscreen_ticks
      [Example.with_geometry (Exited (js "GEOMETRY:1920x1080+0+0") []);
       Example.with_geometry (Exited (js "GEOMETRY:1920x1080+0+0") []);
       Example.with_geometry (Exited (js "GEOMETRY:800x600+10+10") [])]
      Example.started in
  coherent (fst run) /\ (1 + 0 = 1 + 0)%nat.
Proof.
  exact (presence_monitor_balances
           [Example.with_geometry (Exited (js "GEOMETRY:1920x1080+0+0") []);
            Example.with_geometry (Exited (js "GEOMETRY:1920x1080+0+0") []);
            Example.with_geometry (Exited (js "GEOMETRY:800x600+10+10") [])]
           Example.started eq_refl).
Defined.

Lemma observation_set_presence (h : Host) (app : App) (v f : bool) :
  observation h (set_presence app v f) = observation h app.
Proof. reflexivity. Qed.

Lemma checkFullscreen_hides (h : Host) (app : App) (w : BrowserWindow) :
  platform h = js "linux" -> mainWindow app = Some w ->
  observation h app = Fullscreen ->
  visible w = true -> isHiddenForFullscreen app = false ->
  checkFullscreen h app = (set_presence app false true, [geometry_query; Hide]).
Proof.
  intros P Hw O Hv Hf. rewrite (checkFullscreen_refines h app w P Hw), O.
  unfold presence. now rewrite Hv, Hf.
Qed.

Lemma checkFullscreen_shows (h : Host) (app : App) (w : BrowserWindow) :
  platform h = js "linux" -> mainWindow app = Some w ->
  observation h app = NotFullscreen ->
  visible w = false -> isHiddenForFullscreen app = true ->
  checkFullscreen h app
  = (set_presence app true false, [geometry_query; Show; Focus]).
Proof.
  intros P Hw O Hv Hf. rewrite (checkFullscreen_refines h app w P Hw), O.
  unfold presence. now rewrite Hv, Hf.
Qed.

(** A fullscreen window that comes and goes leaves the overlay as it was:
    from a visible overlay with the flag clear, a Fullscreen tick hides it
    and the next NotFullscreen tick shows and focuses it, and the state is
    again the one before. *)
Theorem hide_then_show_restores
  (h1 h2 : Host) (app : App) (w : BrowserWindow) :
  platform h1 = js "linux" -> platform h2 = js "linux" ->
  mainWindow app = Some w -> visible w = true ->
  isHiddenForFullscreen app = false ->
  observation h1 app = Fullscreen -> observation h2 app = NotFullscreen ->
  fullscreen_ticks [h1; h2] app
  = (app, [geometry_query; Hide; geometry_query; Show; Focus]).
Proof.
  intros P1 P2 Hw Hv Hf O1 O2. cbn [fullscreen_ticks].
  rewrite (checkFullscreen_hides h1 app w P1 Hw O1 Hv Hf).
  rewrite (checkFullscreen_shows h2 (set_presence app false true)
             {| visible := false |} P2 eq_refl
             (eq_trans (observation_set_presence h2 app false true) O2)
             eq_refl eq_refl).
  cbn [Datatypes.app]. f_equal.
  destruct app as [mw sw hh cc fl cf], w as [v]. cbn in *. subst. reflexivity.
Qed.

(** A video goes fullscreen and back. *)
Lemma hide_then_show_restores_witness :
  fullscreen_ticks
    [Example.with_geometry (Exited (js "GEOMETRY:1920x1080+0+0") []);
     Example.with_geometry (Exited (js "GEOMETRY:800x600+10+10") [])]
    Example.started
  = (Example.started, [geometry_query; Hide; geometry_query; Show; Focus]).
Proof.
  exact (hide_then_show_restores
           (Example.with_geometry (Exited (js "GEOMETRY:1920x1080+0+0") []))
           (Example.with_geometry (Exited (js "GEOMETRY:800x600+10+10") []))
           Example.started {| visible := true |}
           eq_refl eq_refl eq_refl eq_refl eq_refl eq_refl eq_refl).
Defined.

(** ** Reading the geometry line *)

Lemma take_digits_app (ds rest : jsstring) :
  forallb is_digit ds = true ->
  match rest with [] => True | c :: _ => is_digit c = false end ->
  take_digits (ds ++ rest) = (ds, rest).
Proof.
  intros Hd Hr. induction ds as [|d ds IH]; cbn [Datatypes.app take_digits].
  - destruct rest as [|c rest]; [reflexivity|].
    unfold is_digit in Hr. cbn [take_digits]. now rewrite Hr.
  - cbn [forallb] in Hd. apply andb_true_iff in Hd as [H1 H2].
    unfold is_digit in H1. rewrite H1, (IH H2). reflexivity.
Qed.

Lemma digits1_app (ds rest : jsstring) :
  numeral ds ->
  match rest with [] => True | c :: _ => is_digit c = false end ->
  digits1 (ds ++ rest) = Some (ds, rest).
Proof.
  intros [Hne Hd] Hr. unfold digits1. rewrite (take_digits_app ds rest Hd Hr).
  destruct ds; [contradiction | reflexivity].
Qed.

Lemma geometry_here_line (w hgt left top : jsstring) :
  numeral w -> numeral hgt -> numeral left -> numeral top ->
  geometry_here (geometry_line w hgt left top) = Some (w, hgt).
Proof.
  intros Hw Hh Hl Ht. unfold geometry_here, geometry_line.
  change (strip_prefix (js "GEOMETRY:")
            (js "GEOMETRY:" ++ w ++ js "x" ++ hgt ++ js "+" ++ left ++ js "+" ++ top))
    with (Some (w ++ js "x" ++ hgt ++ js "+" ++ left ++ js "+" ++ top)).
  cbn [and_then].
  rewrite (digits1_app w (js "x" ++ hgt ++ js "+" ++ left ++ js "+" ++ top)
             Hw eq_refl).
  cbn [and_then].
  change (strip_prefix (js "x") (js "x" ++ hgt ++ js "+" ++ left ++ js "+" ++ top))
    with (Some (hgt ++ js "+" ++ left ++ js "+" ++ top)).
  cbn [and_then].
  rewrite (digits1_app hgt (js "+" ++ left ++ js "+" ++ top) Hh eq_refl).
  cbn [and_then].
  change (strip_prefix (js "+") (js "+" ++ left ++ js "+" ++ top))
    with (Some (left ++ js "+" ++ top)).
  cbn [and_then].
  rewrite (digits1_app left (js "+" ++ top) Hl eq_refl).
  cbn [and_then].
  change (strip_prefix (js "+") (js "+" ++ top)) with (Some top).
  cbn [and_then].
  rewrite <- (app_nil_r top) at 1. rewrite (digits1_app top [] Ht I).
  reflexivity.
Qed.

Lemma geometry_match_here (line : jsstring) (r : jsstring * jsstring) :
  geometry_here line = Some r -> geometry_match line = Some r.
Proof. intros H. destruct line; cbn [geometry_match]; now rewrite H. Qed.

Lemma split_on_first (sep : N) (l r : jsstring) :
  forallb (fun c => negb (c =? sep)) l = true ->
  split_on sep (l ++ sep :: r) = l :: split_on sep r.
Proof.
  intros H. induction l as [|c l IH]; cbn [Datatypes.app split_on].
  - now rewrite N.eqb_refl.
  - cbn [forallb] in H. apply andb_true_iff in H as [Hc Hl].
    apply negb_true_iff in Hc. rewrite Hc, (IH Hl). reflexivity.
Qed.

Lemma split_on_none (sep : N) (l : jsstring) :
  forallb (fun c => negb (c =? sep)) l = true -> split_on sep l = [l].
Proof.
  intros H. induction l as [|c l IH]; cbn [split_on]; [reflexivity|].
  cbn [forallb] in H. apply andb_true_iff in H as [Hc Hl].
  apply negb_true_iff in Hc. rewrite Hc, (IH Hl). reflexivity.
Qed.

Lemma digits_have_no_newline (ds : jsstring) :
  forallb is_digit ds = true -> forallb (fun c => negb (c =? 10)) ds = true.
Proof.
  induction ds as [|c ds IH]; [reflexivity|]. cbn [forallb]. intros H.
  apply andb_true_iff in H as [Hc Hd]. rewrite (IH Hd), andb_true_r.
  unfold is_digit in Hc. apply andb_true_iff in Hc as [H1 _].
  apply N.leb_le in H1. apply negb_true_iff, N.eqb_neq. lia.
Qed.

Lemma geometry_line_has_no_newline (w hgt left top : jsstring) :
  numeral w -> numeral hgt -> numeral left -> numeral top ->
  forallb (fun c => negb (c =? 10)) (geometry_line w hgt left top) = true.
Proof.
  intros [_ Hw] [_ Hh] [_ Hl] [_ Ht]. unfold geometry_line.
  rewrite !forallb_app, (digits_have_no_newline w Hw),
    (digits_have_no_newline hgt Hh), (digits_have_no_newline left Hl),
    (digits_have_no_newline top Ht). reflexivity.
Qed.

Lemma size_below (n : N) : n < 2 ^ 53 -> N.size n <= 53.
Proof.
  intros H. apply N.lt_succ_r.
  apply (N.pow_lt_mono_r_iff 2); [lia|].
  apply N.le_lt_trans with (N.succ_double n); [apply N.size_le|].
  change (N.succ 53) with 54. rewrite N.succ_double_spec.
  change (2 ^ 54) with (2 * 2 ^ 53). lia.
Qed.

Lemma double_of_N_exact (n : N) : n < 2 ^ 53 -> double_of_N n = Some n.
Proof.
  intros H. unfold double_of_N.
  rewrite (proj2 (N.leb_le _ _) (size_below n H)).
  assert (L : (n <? 2 ^ 1024) = true).
  { apply N.ltb_lt. apply N.lt_le_trans with (2 ^ 53); [exact H|].
    apply N.pow_le_mono_r; [discriminate|]. apply N.leb_le. reflexivity. }
  now rewrite L.
Qed.

Lemma parseInt_is_exact (ds : jsstring) (n : N) :
  decimal ds < 2 ^ 53 -> parseInt_is ds n = (decimal ds =? n).
Proof. intros H. unfold parseInt_is. now rewrite (double_of_N_exact _ H). Qed.

(** When the first line of the query's output is
    [GEOMETRY:<w>x<h>+<x>+<y>], four numbers below [2^53], the tick takes
    the window for fullscreen exactly when [w] is the width and [h] the
    height of the work area; the position plays no part. *)
Theorem geometry_line_is_read
  (app : App) (w hgt left top rest : jsstring) :
  numeral w -> numeral hgt -> numeral left -> numeral top ->
  decimal w < 2 ^ 53 -> decimal hgt < 2 ^ 53 ->
  fullscreen_test app (geometry_line w hgt left top)
  = Some ((decimal w =? screenWidth app) && (decimal hgt =? workAreaHeight app))
  /\ fullscreen_test app (geometry_line w hgt left top ++ 10 :: rest)
     = Some ((decimal w =? screenWidth app) && (decimal hgt =? workAreaHeight app)).
Proof.
  intros Hw Hh Hl Ht Bw Bh.
  pose proof (geometry_line_has_no_newline w hgt left top Hw Hh Hl Ht) as NL.
  assert (Line : forall lines,
            match find (fun line => startsWith line (js "GEOMETRY"))
                    (geometry_line w hgt left top :: lines) with
            | None => None
            | Some widthMatch =>
                match geometry_match widthMatch with
                | Some (width, height) =>
                    Some (nonempty width && nonempty height
                          && parseInt_is width (screenWidth app)
                          && parseInt_is height (workAreaHeight app))
                | None => Some false
                end
            end
            = Some ((decimal w =? screenWidth app)
                    && (decimal hgt =? workAreaHeight app))).
  { intros lines. cbn [find].
    change (startsWith (geometry_line w hgt left top) (js "GEOMETRY")) with true.
    cbv iota.
    rewrite (geometry_match_here _ _ (geometry_here_line w hgt left top Hw Hh Hl Ht)).
    rewrite (parseInt_is_exact w _ Bw), (parseInt_is_exact hgt _ Bh).
    destruct Hw as [Hw _], Hh as [Hh _].
    now rewrite (proj2 (nonempty_true w) Hw), (proj2 (nonempty_true hgt) Hh). }
  split; unfold fullscreen_test.
  - rewrite (split_on_none 10 _ NL). apply Line.
  - rewrite (split_on_first 10 _ rest NL). apply Line.
Qed.

(** A window as wide and as high as the work area, wherever it is. *)
Lemma geometry_line_is_read_witness :
  fullscreen_test Example.started (js "GEOMETRY:1920x1080+65+24") = Some true.
Proof.
  refine (proj1 (geometry_line_is_read Example.started
                   (js "1920") (js "1080") (js "65") (js "24") []
                   _ _ _ _ _ _));
    try (split; [discriminate | reflexivity]); reflexivity.
Defined.

(** ** The overlay's place on the screen *)

Lemma centred_left_margins (app : App) (width : Z) :
  (0 <= (Z.of_N (screenWidth app) - (centred_left app width + width))
        - centred_left app width <= 1)%Z.
Proof.
  unfold centred_left.
  pose proof (Z.div_mod (Z.of_N (screenWidth app) - width) 2 ltac:(lia)).
  pose proof (Z.mod_pos_bound (Z.of_N (screenWidth app) - width) 2 ltac:(lia)).
  lia.
Qed.

(** Wherever the overlay's bounds are set -- when the window is created,
    on a [resize] or [move] event, on a [resize-window] request -- the
    overlay is put at the top of the screen, centred to the pixel (the
    space on its right exceeds the space on its left by 0 or 1), and the
    handler of the next [resize] or [move] event leaves it there. *)
Theorem overlay_stays_centred
  (app : App) (bounds : Rectangle) (width height : Z) (placed : Rectangle) :
  In placed [createWindow_bounds app; recentre app bounds;
             resize_window app width height] ->
  ry placed = 0%Z
  /\ (0 <= (Z.of_N (screenWidth app) - (rx placed + rwidth placed))
           - rx placed <= 1)%Z
  /\ recentre app placed = placed.
Proof.
  intros [<- | [<- | [<- | []]]]; cbn [rx ry rwidth rheight createWindow_bounds
    recentre resize_window]; (split; [reflexivity|]);
    (split; [apply centred_left_margins | reflexivity]).
Qed.

(** The overlay grown to 401 by 300 on a work area 1920 wide: 759 pixels
    on its left, 760 on its right. *)
Lemma overlay_stays_centred_witness :
  rx (resize_window Example.started 401 300) = 759%Z
  /\ (0 <= (1920 - (759 + 401)) - 759 <= 1)%Z.
Proof.
  split; [reflexivity|].
  exact (proj1 (proj2 (overlay_stays_centred Example.started
                         {| rx := 0; ry := 0; rwidth := 200; rheight := 35 |}
                         401 300 (resize_window Example.started 401 300)
                         (or_intror (or_intror (or_introl eq_refl)))))).
Defined.
